(** * The sandbox execution core of the sandbox agent example

    A shallow embedding of the Python package [nat_sandbox_agent]
    (examples/sandbox_agent): the command result type and the sandbox
    contract ([sandbox/base.py]), the two backends
    ([sandbox/docker_sandbox.py], [sandbox/daytona_sandbox.py]), the backend
    factory ([sandbox/factory.py]) and the tool layer ([tools/common.py],
    [tools/sandbox/file_ops.py]).

    Conventions.  A Python [str] is a [string], its characters the code
    points below 256; [len] is [String.length].  A Python [int] is a [Z].
    A [dict] used as a map is a [gmap string _]; a dict literal returned
    to the caller is the list of its items.
    Code that talks to the container engine or to the remote API is written
    in a state-and-exception monad whose state carries the object's fields
    and the list of SDK calls made so far.  What the engine or the API
    answers to a call is a parameter (the classes [World]), so a theorem
    about a backend holds whatever the engine does.  A timeout is an [int]
    or a finite [float]; a float is the rational it denotes.  The sum and
    the product of two floats are what the interpreter computes, the
    double nearest to the exact result: they are a parameter too (the
    class [Runtime]), and [Doubles] gives them by the IEEE 754 rules for
    the examples.  A [float] that is not finite is given apart
    ([float_arg]), for the one place where the code meets it. *)

From Stdlib Require Import ZArith QArith String Ascii List Lia.
From Stdlib Require Import DecimalString DecimalZ SpecFloat.
From stdpp Require Import base option gmap strings list.

Open Scope Z_scope.

(** ** Python string primitives *)

Module PyStr.

(** [len(s)] as a Python integer. *)
Definition len (s : string) : Z := Z.of_nat (String.length s).

(** The first [n] characters of [s] (all of [s] when it is shorter). *)
Fixpoint take (n : nat) (s : string) : string :=
  match n, s with
  | O, _ => EmptyString
  | S _, EmptyString => EmptyString
  | S n', String c s' => String c (take n' s')
  end.

(** The slice [s[n:]] for a natural number [n]. *)
Fixpoint drop (n : nat) (s : string) : string :=
  match n, s with
  | O, _ => s
  | S _, EmptyString => EmptyString
  | S n', String _ s' => drop n' s'
  end.

(** The slice [s[:k]]: a negative [k] counts from the end, and an index
    out of range is clamped. *)
Definition slice_to (s : string) (k : Z) : string :=
  if 0 <=? k then take (Z.to_nat k) s
  else take (Z.to_nat (len s + k)) s.

(** [str(n)] for an integer [n]: decimal digits, a leading minus sign for
    negative numbers. *)
Definition str_int (n : Z) : string := NilEmpty.string_of_int (Z.to_int n).

(** [s.startswith(p)]. *)
Fixpoint startswith (p s : string) : bool :=
  match p, s with
  | EmptyString, _ => true
  | String a p', String b s' => if Ascii.eqb a b then startswith p' s' else false
  | String _ _, EmptyString => false
  end.

(** [p in s]: [p] occurs in [s] as a substring. *)
Fixpoint contains (p s : string) : bool :=
  if startswith p s then true
  else match s with
       | EmptyString => false
       | String _ s' => contains p s'
       end.

(** [s.split(sep)] for a one-character separator: always a non-empty
    list, with empty fields kept. *)
Fixpoint split (sep : ascii) (s : string) : list string :=
  match s with
  | EmptyString => [EmptyString]
  | String c s' =>
      if Ascii.eqb c sep then EmptyString :: split sep s'
      else match split sep s' with
           | [] => [String c EmptyString]
           | w :: ws => String c w :: ws
           end
  end.

(** [sep.join(parts)]. *)
Fixpoint join (sep : string) (parts : list string) : string :=
  match parts with
  | [] => EmptyString
  | [w] => w
  | w :: ws => w +:+ sep +:+ join sep ws
  end.

(** [s.replace(c, r)] for a one-character pattern [c]. *)
Fixpoint replace_char (c : ascii) (r : string) (s : string) : string :=
  match s with
  | EmptyString => EmptyString
  | String a s' =>
      if Ascii.eqb a c then r +:+ replace_char c r s'
      else String a (replace_char c r s')
  end.

(** [c.isspace()] on the code points below 256: TAB to CR, FS to US,
    space, NEL and the no-break space. *)
Definition isspace (c : ascii) : bool :=
  let n := nat_of_ascii c in
  ((9 <=? n) && (n <=? 13) || (28 <=? n) && (n <=? 32)
   || (n =? 133) || (n =? 160))%nat.

Fixpoint lstrip (s : string) : string :=
  match s with
  | EmptyString => EmptyString
  | String c s' => if isspace c then lstrip s' else s
  end.

Fixpoint rstrip (s : string) : string :=
  match s with
  | EmptyString => EmptyString
  | String c s' =>
      match rstrip s' with
      | EmptyString => if isspace c then EmptyString else String c EmptyString
      | r => String c r
      end
  end.

(** [s.strip()]. *)
Definition strip (s : string) : string := rstrip (lstrip s).

(** [c.lower()] on ASCII letters. *)
Definition lower_char (c : ascii) : ascii :=
  let n := nat_of_ascii c in
  if ((65 <=? n) && (n <=? 90))%nat then ascii_of_nat (n + 32) else c.

(** [s.lower()]. *)
Fixpoint lower (s : string) : string :=
  match s with
  | EmptyString => EmptyString
  | String c s' => String (lower_char c) (lower s')
  end.

(** Truth value of a string: non-empty. *)
Definition truthy (s : string) : bool :=
  match s with EmptyString => false | _ => true end.

End PyStr.

(** ** tools/common.py *)

Module Common.

Definition DEFAULT_MAX_OUTPUT_CHARS : Z := 16000.

(** The indicator appended by [truncate_output]; [total] is [len(text)]. *)
Definition marker (total : Z) : string :=
  String "010" "... (truncated, " +:+ PyStr.str_int total +:+ " total chars)".

Definition truncate_output (text : string) (max_chars : Z) : string :=
  if PyStr.len text >? max_chars
  then PyStr.slice_to text max_chars +:+ marker (PyStr.len text)
  else text.

End Common.

(** ** Numbers, exceptions and the execution monad *)

Module Py.

(** A Python number where the code accepts [float]: callers pass an [int]
    (the default [120]) or a [float].  A finite float is represented by
    the rational it denotes. *)
Inductive number :=
| Int (n : Z)
| Float (q : Q).

(** Every value a caller can pass where the code accepts [float]: a
    number as above, or one of the doubles that are not finite. *)
Inductive float_arg :=
| Finite (x : number)
| Infinity (negative : bool)
| NaN.

(** [int(x)]: truncation towards zero. *)
Definition int (x : number) : Z :=
  match x with
  | Int n => n
  | Float q => Z.quot (Qnum q) (Zpos (Qden q))
  end.

(** What the interpreter supplies: the text [str(x)] of a float, and the
    sum and the product of two floats (the double nearest to the exact
    result, which need not be that result: [0.1 + 5] is not). *)
Class Runtime := {
  float_repr : Q -> string;
  float_add : Q -> Q -> Q;
  float_mul : Q -> Q -> Q;
}.

(** [x + k] for an integer literal [k]: exact on an [int]; on a [float]
    the literal is converted and the floats are added. *)
Definition add_int `{Runtime} (x : number) (k : Z) : number :=
  match x with
  | Int n => Int (n + k)
  | Float q => Float (float_add q (inject_Z k))
  end.

(** [str(x)], also what an f-string prints for [{x}]. *)
Definition str `{Runtime} (x : number) : string :=
  match x with
  | Int n => PyStr.str_int n
  | Float q => float_repr q
  end.

(** The exceptions the code raises, catches or lets through.  Every one
    but [CancelledError] is a subclass of [Exception]. *)
Inductive exn :=
| RuntimeError (msg : string)
| ValueError (msg : string)
| FileNotFoundError (msg : string)
| ImportError (msg : string)
| IndexError (msg : string)
| OverflowError (msg : string)
| TimeoutError                                  (* raised by asyncio.wait_for *)
| NotFound (msg : string)                       (* docker.errors.NotFound *)
| ImageNotFound (msg : string)                  (* docker.errors.ImageNotFound *)
| ContainerError (exit_status : Z) (msg : string) (* docker.errors.ContainerError *)
| OtherException (msg : string)                 (* APIError, DaytonaError, OSError, ... *)
| CancelledError.

Definition is_Exception (e : exn) : bool :=
  match e with CancelledError => false | _ => true end.

(** [isinstance(e, docker.errors.NotFound)]: [ImageNotFound] is a
    subclass of [NotFound]. *)
Definition is_NotFound (e : exn) : bool :=
  match e with NotFound _ | ImageNotFound _ => true | _ => false end.

(** [str(e)]. *)
Definition exn_str (e : exn) : string :=
  match e with
  | RuntimeError m | ValueError m | FileNotFoundError m | ImportError m
  | IndexError m | OverflowError m | NotFound m | ImageNotFound m | ContainerError _ m
  | OtherException m => m
  | TimeoutError | CancelledError => EmptyString
  end.

(** A call either returns a value or raises. *)
Inductive outcome (A : Type) :=
| Return (a : A)
| Raise (e : exn).
Arguments Return {A} a.
Arguments Raise {A} e.

(** Computations over a state [St]: the fields of the object and whatever
    else the call can change. *)
Definition M (St A : Type) : Type := St -> outcome A * St.

Section Ops.
Context {St : Type}.

Definition ret {A} (a : A) : M St A := fun s => (Return a, s).

Definition raise {A} (e : exn) : M St A := fun s => (Raise e, s).

Definition bind {A B} (m : M St A) (k : A -> M St B) : M St B :=
  fun s => match m s with
           | (Return a, s') => k a s'
           | (Raise e, s') => (Raise e, s')
           end.

Definition get : M St St := fun s => (Return s, s).

Definition modify (f : St -> St) : M St unit := fun s => (Return tt, f s).

(** [try: m  except ...: h]: [h e] is the handler of the first clause
    that matches [e], if any. *)
Definition try_except {A} (m : M St A) (h : exn -> option (M St A)) : M St A :=
  fun s => match m s with
           | (Return a, s') => (Return a, s')
           | (Raise e, s') =>
               match h e with
               | Some k => k s'
               | None => (Raise e, s')
               end
           end.

(** [try: m  finally: f]: [f] runs on both exits; when [f] raises, its
    exception replaces the outcome of [m]. *)
Definition try_finally {A} (m : M St A) (f : M St unit) : M St A :=
  fun s => let (r, s') := m s in
           match f s' with
           | (Return _, s'') => (r, s'')
           | (Raise e, s'') => (Raise e, s'')
           end.
End Ops.

(** A dict literal with string keys, in the order it is written. *)
Inductive value :=
| VInt (n : Z)
| VStr (s : string)
| VBool (b : bool).

Definition dict := list (string * value).

(** [d.get(k)]. *)
Fixpoint dict_get (d : dict) (k : string) : option value :=
  match d with
  | [] => None
  | (k', v) :: d' => if String.eqb k k' then Some v else dict_get d' k
  end.

End Py.

Declare Scope py_scope.
Delimit Scope py_scope with py.
Notation "x <- m ;; k" := (Py.bind m (fun x => k))
  (at level 100, m at next level, right associativity) : py_scope.
Notation "m ;;; k" := (Py.bind m (fun _ => k))
  (at level 100, right associativity) : py_scope.
Open Scope py_scope.

(** ** sandbox/base.py *)

Module Base.
Import Py.

Definition WORKSPACE_ROOT : string := "/workspace".
Definition WORKSPACE_INPUT : string := WORKSPACE_ROOT +:+ "/input".
Definition WORKSPACE_OUTPUT : string := WORKSPACE_ROOT +:+ "/output".
Definition WORKSPACE_TEMP : string := WORKSPACE_ROOT +:+ "/temp".
Definition WORKSPACE_DOWNLOADS : string := WORKSPACE_ROOT +:+ "/downloads".

Definition WORKSPACE_INIT_COMMAND : string :=
  "mkdir -p " +:+ WORKSPACE_INPUT +:+ " " +:+ WORKSPACE_OUTPUT +:+ " "
    +:+ WORKSPACE_TEMP +:+ " " +:+ WORKSPACE_DOWNLOADS.

Record CommandResult := {
  exit_code : Z;
  stdout : string;
  stderr : string;
}.

(** The [success] property. *)
Definition success (r : CommandResult) : bool := exit_code r =? 0.

Definition to_dict (r : CommandResult) : dict :=
  [ ("exit_code", VInt (exit_code r));
    ("stdout", VStr (stdout r));
    ("stderr", VStr (stderr r));
    ("success", VBool (success r)) ].

(** The abstract class [BaseSandbox]: the five operations every backend
    implements, over the backend's own state. *)
Class BaseSandbox (St : Type) := {
  start : M St unit;
  cleanup : M St unit;
  run_command : string -> string -> number -> option (gmap string string)
                -> M St CommandResult;
  read_file : string -> M St string;
  write_file : string -> string -> M St unit;
}.

End Base.

(** ** shlex.quote, as the backends use it *)

Module Shlex.

(** The characters outside the class [[^\w@%+=:,./-]] with [re.ASCII]. *)
Definition is_safe (c : ascii) : bool :=
  let n := nat_of_ascii c in
  ((48 <=? n) && (n <=? 57) || (65 <=? n) && (n <=? 90)
   || (97 <=? n) && (n <=? 122) || (n =? 95)
   || (n =? 64) || (n =? 37) || (n =? 43) || (n =? 61) || (n =? 58)
   || (n =? 44) || (n =? 46) || (n =? 47) || (n =? 45))%nat.

(** [_find_unsafe(s) is None]. *)
Fixpoint all_safe (s : string) : bool :=
  match s with
  | EmptyString => true
  | String c s' => is_safe c && all_safe s'
  end.

Definition dquote : string := String "034" EmptyString.

Definition quote (s : string) : string :=
  if negb (PyStr.truthy s) then "''"
  else if all_safe s then s
  else "'" +:+ PyStr.replace_char "'" ("'" +:+ dquote +:+ "'" +:+ dquote +:+ "'") s
           +:+ "'".

End Shlex.

(** ** sandbox/docker_sandbox.py *)

Module DockerSandbox.
Import Py Base.

Definition DEFAULT_IMAGE : string := "python:3.12-slim".
Definition DEFAULT_WORK_DIR : string := WORKSPACE_ROOT.

(** The keyword arguments of [containers.create]. *)
Record container_config := {
  cc_image : string;
  cc_name : string;
  cc_detach : bool;
  cc_tty : bool;
  cc_stdin_open : bool;
  cc_working_dir : string;
  cc_mem_limit : string;
  cc_nano_cpus : Z;
  cc_network_mode : string;
  cc_command : string;
  cc_auto_remove : bool;
  cc_environment : gmap string string;
  cc_volumes : option (gmap string (gmap string string));
}.

(** What [exec_run(..., demux=True)] returns: the exit code and the two
    output streams, each absent or already decoded as UTF-8 text. *)
Record exec_result := {
  er_exit_code : Z;
  er_stdout : option string;
  er_stderr : option string;
}.

(** A member of the archive [get_archive] returns; [tm_file] is what
    [extractfile] gives, decoded: nothing for a member that is not a
    regular file. *)
Record tar_member := {
  tm_name : string;
  tm_file : option string;
}.

(** The calls the class makes on the Docker SDK.  [ExecRun] carries the
    bound of the [asyncio.wait_for] around it. *)
Inductive call :=
| FromEnv
| ImagesGet (image : string)
| ImagesPull (image : string)
| ContainersCreate (config : container_config)
| ContainerStart
| ContainerRemove (force : bool)
| ClientClose
| ExecRun (cmd workdir : string) (environment : option (gmap string string))
          (wait_for : number)
| GetArchive (path : string)
| PutArchive (dir_path name data : string).

Definition answer (c : call) : Type :=
  match c with
  | ExecRun _ _ _ _ => exec_result
  | GetArchive _ => list tar_member
  | _ => unit
  end.

(** The engine: what each call answers, given the calls made before. *)
Class World := { engine : list call -> forall c : call, outcome (answer c) }.

Inductive DockerClient := docker_client.
Inductive Container := container (name : string).

(** The fields of a [DockerSandbox], and the calls made so far. *)
Record t := {
  _image : string;
  _memory_limit : string;
  _cpu_limit : Q;
  _network_enabled : bool;
  _work_dir : string;
  _container_name : string;
  _auto_remove : bool;
  _environment : gmap string string;
  _volumes : gmap string (gmap string string);
  _client : option DockerClient;
  _container : option Container;
  calls : list call;
}.

Definition set_client (v : option DockerClient) (s : t) : t :=
  {| _image := _image s; _memory_limit := _memory_limit s;
     _cpu_limit := _cpu_limit s; _network_enabled := _network_enabled s;
     _work_dir := _work_dir s; _container_name := _container_name s;
     _auto_remove := _auto_remove s; _environment := _environment s;
     _volumes := _volumes s; _client := v; _container := _container s;
     calls := calls s |}.

Definition set_container (v : option Container) (s : t) : t :=
  {| _image := _image s; _memory_limit := _memory_limit s;
     _cpu_limit := _cpu_limit s; _network_enabled := _network_enabled s;
     _work_dir := _work_dir s; _container_name := _container_name s;
     _auto_remove := _auto_remove s; _environment := _environment s;
     _volumes := _volumes s; _client := _client s; _container := v;
     calls := calls s |}.

Definition record_call (c : call) (s : t) : t :=
  {| _image := _image s; _memory_limit := _memory_limit s;
     _cpu_limit := _cpu_limit s; _network_enabled := _network_enabled s;
     _work_dir := _work_dir s; _container_name := _container_name s;
     _auto_remove := _auto_remove s; _environment := _environment s;
     _volumes := _volumes s; _client := _client s;
     _container := _container s; calls := calls s ++ [c] |}.

(** [__init__]; [uuid8] stands for [uuid.uuid4().hex[:8]]. *)
Definition init (uuid8 : string) (image memory_limit : string) (cpu_limit : Q)
    (network_enabled : bool) (work_dir : string)
    (container_name : option string) (auto_remove : bool)
    (environment : option (gmap string string))
    (volumes : option (gmap string (gmap string string))) : t :=
  {| _image := image; _memory_limit := memory_limit;
     _cpu_limit := cpu_limit; _network_enabled := network_enabled;
     _work_dir := work_dir;
     _container_name :=
       match container_name with
       | Some n => if PyStr.truthy n then n else "sandbox_" +:+ uuid8
       | None => "sandbox_" +:+ uuid8
       end;
     _auto_remove := auto_remove;
     _environment := default ∅ environment;
     _volumes := default ∅ volumes;
     _client := None; _container := None; calls := [] |}.

Section Methods.
Context `{Runtime} `{World}.

(** One call on the SDK: recorded, and answered by the engine. *)
Definition perform (c : call) : M t (answer c) :=
  fun s => (engine (calls s) c, record_call c s).

Definition run_command (command working_dir : string) (timeout : number)
    (env : option (gmap string string)) : M t CommandResult :=
  s <- get ;;
  match _container s with
  | None => raise (RuntimeError "Sandbox not started")
  | Some _ =>
      let timeout_int := int timeout in
      let wrapped_command :=
        "timeout " +:+ PyStr.str_int timeout_int +:+ " /bin/bash -c "
          +:+ Shlex.quote command in
      try_except
        (exec_result <- perform (ExecRun wrapped_command working_dir env
                                         (add_int timeout 5)) ;;
         let exit_code := er_exit_code exec_result in
         let stdout := default EmptyString (er_stdout exec_result) in
         let stderr := default EmptyString (er_stderr exec_result) in
         if exit_code =? 124 then
           ret {| exit_code := -1;
                  stdout := stdout;
                  stderr := PyStr.strip
                    ("Command timed out after " +:+ PyStr.str_int timeout_int
                       +:+ " seconds" +:+ String "010" stderr) |}
         else
           ret {| exit_code := exit_code; stdout := stdout; stderr := stderr |})
        (fun e =>
           match e with
           | TimeoutError =>
               Some (ret {| exit_code := -1;
                            stdout := EmptyString;
                            stderr := "Command timed out after "
                                        +:+ str timeout +:+ " seconds" |})
           | ContainerError exit_status _ =>
               Some (ret {| exit_code := exit_status;
                            stdout := EmptyString;
                            stderr := exn_str e |})
           | _ =>
               if is_Exception e
               then Some (ret {| exit_code := -1;
                                 stdout := EmptyString;
                                 stderr := exn_str e |})
               else None
           end)
  end.

(** [run_command] for every [float] a caller can pass.  [int(timeout)]
    stands before the [try]: for a timeout that is not finite it raises,
    and nothing is handed to the engine. *)
Definition run_command_float (command working_dir : string)
    (timeout : float_arg) (env : option (gmap string string))
    : M t CommandResult :=
  s <- get ;;
  match _container s with
  | None => raise (RuntimeError "Sandbox not started")
  | Some _ =>
      match timeout with
      | Finite x => run_command command working_dir x env
      | Infinity _ =>
          raise (OverflowError "cannot convert float infinity to integer")
      | NaN => raise (ValueError "cannot convert float NaN to integer")
      end
  end.

Definition start : M t unit :=
  try_except
    (perform FromEnv ;;;
     modify (set_client (Some docker_client)) ;;;
     s <- get ;;
     try_except (perform (ImagesGet (_image s)))
       (fun e => match e with
                 | ImageNotFound _ => Some (perform (ImagesPull (_image s)))
                 | _ => None
                 end) ;;;
     let container_config :=
       {| cc_image := _image s;
          cc_name := _container_name s;
          cc_detach := true;
          cc_tty := true;
          cc_stdin_open := true;
          cc_working_dir := _work_dir s;
          cc_mem_limit := _memory_limit s;
          cc_nano_cpus :=
            int (Float (float_mul (_cpu_limit s) (inject_Z (10 ^ 9))));
          cc_network_mode := if _network_enabled s then "bridge" else "none";
          cc_command := "/bin/bash";
          cc_auto_remove := _auto_remove s;
          cc_environment := _environment s;
          cc_volumes := if decide (_volumes s = ∅) then None
                        else Some (_volumes s) |} in
     perform (ContainersCreate container_config) ;;;
     modify (set_container (Some (container (_container_name s)))) ;;;
     perform ContainerStart ;;;
     run_command WORKSPACE_INIT_COMMAND "/workspace" (Int 120) None ;;;
     ret tt)
    (fun e =>
       if is_Exception e
       then Some (s <- get ;;
                  match _client s with
                  | Some _ => perform ClientClose ;;; modify (set_client None)
                  | None => ret tt
                  end ;;;
                  raise e)
       else None).

Definition cleanup : M t unit :=
  s <- get ;;
  match _container s with
  | None => ret tt
  | Some _ =>
      try_finally
        (try_except
           (perform (ContainerRemove true) ;;;
            modify (set_container None))
           (fun e =>
              if is_NotFound e then Some (modify (set_container None))
              else if is_Exception e then Some (raise e)
              else None))
        (s' <- get ;;
         match _client s' with
         | Some _ => perform ClientClose ;;; modify (set_client None)
         | None => ret tt
         end)
  end.

Definition read_file (path : string) : M t string :=
  s <- get ;;
  match _container s with
  | None => raise (RuntimeError "Sandbox not started")
  | Some _ =>
      try_except
        (members <- perform (GetArchive path) ;;
         match members with
         | [] => raise (IndexError "list index out of range")
         | member :: _ =>
             match tm_file member with
             | Some data => ret data
             | None => raise (FileNotFoundError ("File not found: " +:+ path))
             end
         end)
        (fun e =>
           if is_NotFound e
           then Some (raise (FileNotFoundError ("File not found: " +:+ path)))
           else if is_Exception e then Some (raise e)
           else None)
  end.

Definition write_file (path content : string) : M t unit :=
  s <- get ;;
  match _container s with
  | None => raise (RuntimeError "Sandbox not started")
  | Some _ =>
      try_except
        (let parts := PyStr.split "/" path in
         let name := List.last parts EmptyString in
         let joined := PyStr.join "/" (List.removelast parts) in
         let dir_path := if PyStr.truthy joined then joined else "/" in
         run_command ("mkdir -p " +:+ Shlex.quote dir_path)
                     "/workspace" (Int 120) None ;;;
         perform (PutArchive dir_path name content) ;;;
         ret tt)
        (fun e => if is_Exception e then Some (raise e) else None)
  end.

#[export] Instance sandbox : BaseSandbox t := {
  Base.start := start;
  Base.cleanup := cleanup;
  Base.run_command := run_command;
  Base.read_file := read_file;
  Base.write_file := write_file;
}.
End Methods.

End DockerSandbox.

(** ** sandbox/daytona_sandbox.py *)

Module DaytonaSandbox.
Import Py Base.

Definition DEFAULT_IMAGE : string := "daytonaio/workspace:latest".

(** [CreateSandboxFromImageParams]. *)
Record create_params := {
  cp_image : string;
  cp_cpu : Z;
  cp_memory : Z;
  cp_disk : Z;
  cp_auto_stop_interval : Z;
}.

(** What [process.exec] returns: the exit code and [result], the text
    the command printed (possibly absent). *)
Record exec_response := {
  xr_exit_code : Z;
  xr_result : option string;
}.

(** The calls the class makes on the Daytona SDK.  [ProcessExec] carries
    the [timeout] given to the SDK and the bound of the
    [asyncio.wait_for] around the call. *)
Inductive call :=
| NewClient (api_key : string)
| Create (params : create_params)
| Delete
| ProcessExec (command cwd : string) (env : option (gmap string string))
              (timeout : Z) (wait_for : number)
| DownloadFile (path : string)
| UploadFile (data path : string).

(** [Create] answers the identifier of the new workspace, [DownloadFile]
    the bytes of the file decoded as UTF-8 text. *)
Definition answer (c : call) : Type :=
  match c with
  | Create _ => string
  | ProcessExec _ _ _ _ _ => exec_response
  | DownloadFile _ => string
  | _ => unit
  end.

Class World := { api : list call -> forall c : call, outcome (answer c) }.

Inductive DaytonaClient := daytona_client.
Inductive Sandbox := sandbox_obj (id : string).

Record t := {
  _api_key : string;
  _server_url : string;
  _target : string;
  _image : string;
  _cpu : Z;
  _memory : Z;
  _disk : Z;
  _auto_stop_interval : Z;
  _client : option DaytonaClient;
  _sandbox : option Sandbox;
  calls : list call;
}.

Definition set_client (v : option DaytonaClient) (s : t) : t :=
  {| _api_key := _api_key s; _server_url := _server_url s;
     _target := _target s; _image := _image s; _cpu := _cpu s;
     _memory := _memory s; _disk := _disk s;
     _auto_stop_interval := _auto_stop_interval s;
     _client := v; _sandbox := _sandbox s; calls := calls s |}.

Definition set_sandbox (v : option Sandbox) (s : t) : t :=
  {| _api_key := _api_key s; _server_url := _server_url s;
     _target := _target s; _image := _image s; _cpu := _cpu s;
     _memory := _memory s; _disk := _disk s;
     _auto_stop_interval := _auto_stop_interval s;
     _client := _client s; _sandbox := v; calls := calls s |}.

Definition record_call (c : call) (s : t) : t :=
  {| _api_key := _api_key s; _server_url := _server_url s;
     _target := _target s; _image := _image s; _cpu := _cpu s;
     _memory := _memory s; _disk := _disk s;
     _auto_stop_interval := _auto_stop_interval s;
     _client := _client s; _sandbox := _sandbox s;
     calls := calls s ++ [c] |}.

(** [__init__]. *)
Definition init (api_key server_url target image : string)
    (cpu memory disk auto_stop_interval : Z) : t :=
  {| _api_key := api_key; _server_url := server_url; _target := target;
     _image := image; _cpu := cpu; _memory := memory; _disk := disk;
     _auto_stop_interval := auto_stop_interval;
     _client := None; _sandbox := None; calls := [] |}.

Section Methods.
Context `{Runtime} `{World}.

Definition perform (c : call) : M t (answer c) :=
  fun s => (api (calls s) c, record_call c s).

Definition _get_client : M t DaytonaClient :=
  s <- get ;;
  match _client s with
  | Some c => ret c
  | None =>
      try_except
        (perform (NewClient (_api_key s)) ;;;
         modify (set_client (Some daytona_client)))
        (fun e =>
           match e with
           | ImportError _ =>
               Some (raise (ImportError
                 ("daytona-sdk package is required for DaytonaSandbox. "
                    +:+ "Install it with: pip install daytona-sdk")))
           | _ => None
           end) ;;;
      ret daytona_client
  end.

Definition run_command (command working_dir : string) (timeout : number)
    (env : option (gmap string string)) : M t CommandResult :=
  s <- get ;;
  match _sandbox s with
  | None => raise (RuntimeError "Sandbox not started")
  | Some _ =>
      try_except
        (result <- perform (ProcessExec command working_dir env
                                        (int timeout) timeout) ;;
         ret {| exit_code := xr_exit_code result;
                stdout := default EmptyString (xr_result result);
                stderr := EmptyString |})
        (fun e =>
           match e with
           | TimeoutError =>
               Some (ret {| exit_code := -1;
                            stdout := EmptyString;
                            stderr := "Command timed out after "
                                        +:+ str timeout +:+ " seconds" |})
           | _ =>
               if is_Exception e
               then Some (ret {| exit_code := -1;
                                 stdout := EmptyString;
                                 stderr := exn_str e |})
               else None
           end)
  end.

Definition start : M t unit :=
  try_except
    (_get_client ;;;
     s <- get ;;
     let params :=
       {| cp_image := _image s;
          cp_cpu := _cpu s;
          cp_memory := _memory s;
          cp_disk := _disk s;
          cp_auto_stop_interval := _auto_stop_interval s |} in
     id <- perform (Create params) ;;
     modify (set_sandbox (Some (sandbox_obj id))) ;;;
     run_command WORKSPACE_INIT_COMMAND "/workspace" (Int 120) None ;;;
     ret tt)
    (fun e => if is_Exception e then Some (raise e) else None).

Definition cleanup : M t unit :=
  s <- get ;;
  match _sandbox s with
  | None => ret tt
  | Some _ =>
      try_finally
        (try_except
           (perform Delete ;;;
            modify (set_sandbox None))
           (fun e => if is_Exception e then Some (raise e) else None))
        (modify (set_client None))
  end.

Definition read_file (path : string) : M t string :=
  s <- get ;;
  match _sandbox s with
  | None => raise (RuntimeError "Sandbox not started")
  | Some _ =>
      try_except
        (perform (DownloadFile path))
        (fun e =>
           if is_Exception e
           then Some (if PyStr.contains "not found" (PyStr.lower (exn_str e))
                      then raise (FileNotFoundError ("File not found: " +:+ path))
                      else raise e)
           else None)
  end.

Definition write_file (path content : string) : M t unit :=
  s <- get ;;
  match _sandbox s with
  | None => raise (RuntimeError "Sandbox not started")
  | Some _ =>
      try_except
        (let dir_path :=
           PyStr.join "/" (List.removelast (PyStr.split "/" path)) in
         (if PyStr.truthy dir_path
          then run_command ("mkdir -p " +:+ Shlex.quote dir_path)
                           "/workspace" (Int 120) None ;;; ret tt
          else ret tt) ;;;
         perform (UploadFile content path) ;;;
         ret tt)
        (fun e => if is_Exception e then Some (raise e) else None)
  end.

#[export] Instance sandbox : BaseSandbox t := {
  Base.start := start;
  Base.cleanup := cleanup;
  Base.run_command := run_command;
  Base.read_file := read_file;
  Base.write_file := write_file;
}.
End Methods.

End DaytonaSandbox.

(** ** sandbox/factory.py *)

Module Factory.

Definition DEFAULT_PASS_ENV_VARS : list string := ["TAVILY_API_KEY"].

Record DockerSandboxConfig := {
  image : string;
  memory_limit : string;
  cpu_limit : Q;
  network_enabled : bool;
  work_dir : string;
  auto_remove : bool;
  environment : option (gmap string string);
  pass_env_vars : option (list string);
  volumes : option (gmap string string);
}.

Record DaytonaSandboxConfig := {
  api_key : string;
  server_url : string;
  target : string;
  dt_image : string;
  cpu : Z;
  memory : Z;
  disk : Z;
  auto_stop_interval : Z;
}.

Inductive SandboxConfig :=
| Docker (config : DockerSandboxConfig)
| Daytona (config : DaytonaSandboxConfig).

(** One round of the loop over [pass_vars]; [environ] is [os.environ]. *)
Definition pass_var (environ : gmap string string)
    (env : gmap string string) (var_name : string) : gmap string string :=
  match env !! var_name with
  | Some _ => env
  | None =>
      match environ !! var_name with
      | Some value => if PyStr.truthy value then <[var_name := value]> env else env
      | None => env
      end
  end.

Definition _build_environment (environ : gmap string string)
    (config : DockerSandboxConfig) : gmap string string :=
  let env := default ∅ (environment config) in
  let pass_vars :=
    match pass_env_vars config with
    | Some vars => vars
    | None => DEFAULT_PASS_ENV_VARS
    end in
  fold_left (pass_var environ) pass_vars env.

(** [create_sandbox]; [environ] is the host environment and [uuid8] the
    random part of the container name. *)
Definition create_sandbox (environ : gmap string string) (uuid8 : string)
    (config : SandboxConfig) : DockerSandbox.t + DaytonaSandbox.t :=
  match config with
  | Docker config =>
      let environment := _build_environment environ config in
      let volumes :=
        match volumes config with
        | Some v =>
            if decide (v = ∅) then None
            else Some ((fun container_path : string =>
                          {[ "bind" := container_path; "mode" := "rw" ]}) <$> v)
        | None => None
        end in
      inl (DockerSandbox.init uuid8 (image config) (memory_limit config)
             (cpu_limit config) (network_enabled config) (work_dir config)
             None (auto_remove config) (Some environment) volumes)
  | Daytona config =>
      inr (DaytonaSandbox.init (api_key config) (server_url config)
             (target config) (dt_image config) (cpu config) (memory config)
             (disk config) (auto_stop_interval config))
  end.

End Factory.

(** ** posixpath.normpath and pathlib.PurePosixPath, as the tools use them *)

Module PosixPath.

(** One round of the loop of [normpath] over the components. *)
Definition norm_step (initial_slashes : nat) (new_comps : list string)
    (comp : string) : list string :=
  if String.eqb comp "" || String.eqb comp "." then new_comps
  else if negb (String.eqb comp "..")
          || (Nat.eqb initial_slashes 0 && bool_decide (new_comps = []))
          || (negb (bool_decide (new_comps = []))
              && String.eqb (List.last new_comps "") "..")
       then new_comps ++ [comp]
       else List.removelast new_comps.

Definition normpath (path : string) : string :=
  if String.eqb path "" then "."
  else
    let initial_slashes : nat :=
      if PyStr.startswith "/" path then
        if PyStr.startswith "//" path && negb (PyStr.startswith "///" path)
        then 2%nat else 1%nat
      else 0%nat in
    let comps := PyStr.split "/" path in
    let new_comps := fold_left (norm_step initial_slashes) comps [] in
    let joined := PyStr.join "/" new_comps in
    let path' :=
      match initial_slashes with
      | 0%nat => joined
      | 1%nat => "/" +:+ joined
      | _ => "//" +:+ joined
      end in
    if PyStr.truthy path' then path' else ".".

(** A parsed pure POSIX path: the root (empty, one slash or two) and the
    components after it. *)
Record PurePosixPath := {
  root : string;
  parts : list string;
}.

#[export] Instance PurePosixPath_eq_dec : EqDecision PurePosixPath.
Proof. solve_decision. Defined.

(** [posixpath.splitroot]: exactly two leading slashes are kept, one or
    three and more are one. *)
Definition splitroot (p : string) : string * string :=
  if negb (PyStr.startswith "/" p) then ("", p)
  else if negb (PyStr.startswith "//" p) || PyStr.startswith "///" p
       then ("/", PyStr.drop 1 p)
       else ("//", PyStr.drop 2 p).

(** [PurePosixPath(p)]: empty and [.] components are dropped. *)
Definition parse (p : string) : PurePosixPath :=
  let (r, rel) := splitroot p in
  {| root := r;
     parts := List.filter (fun x => PyStr.truthy x && negb (String.eqb x "."))
                          (PyStr.split "/" rel) |}.

Definition is_absolute (p : PurePosixPath) : bool := PyStr.truthy (root p).

(** [p.parents]: entry [idx] keeps all but the last [idx + 1]
    components, down to the bare root. *)
Definition parents (p : PurePosixPath) : list PurePosixPath :=
  map (fun k => {| root := root p; parts := firstn k (parts p) |})
      (rev (seq 0 (List.length (parts p)))).

(** [str(p)] and [p.as_posix()]. *)
Definition as_posix (p : PurePosixPath) : string :=
  let s := root p +:+ PyStr.join "/" (parts p) in
  if PyStr.truthy s then s else ".".

(** A component as [normpath] leaves them: not empty, not [.], and
    without a slash inside. *)
Fixpoint no_slash (s : string) : bool :=
  match s with
  | EmptyString => true
  | String c s' => negb (Ascii.eqb c "/") && no_slash s'
  end.

Definition clean (comp : string) : bool :=
  PyStr.truthy comp && negb (String.eqb comp ".") && no_slash comp.

End PosixPath.

(** ** tools/sandbox/executor.py *)

Module Executor.
Import Py.

(** [SandboxToolExecutor]; its [sandbox] is the state the tools run over. *)
Record SandboxToolExecutor := {
  max_output_chars : Z;
  default_timeout : number;
}.

Definition truncate (executor : SandboxToolExecutor) (text : string) : string :=
  Common.truncate_output text (max_output_chars executor).

End Executor.

(** ** tools/sandbox/file_ops.py *)

Module FileOps.
Import Py Base PosixPath Executor.

Definition ALLOWED_BASE_PATHS : list PurePosixPath := [parse "/workspace"].

(** The text of [[str(p) for p in ALLOWED_BASE_PATHS]]: a list of quoted
    strings (none of the roots needs escaping). *)
Definition allowed_repr : string :=
  "[" +:+ PyStr.join ", " (map (fun p => "'" +:+ as_posix p +:+ "'")
                               ALLOWED_BASE_PATHS) +:+ "]".

(** [normalized == base or base in normalized.parents] for some base. *)
Definition within_allowed (normalized : PurePosixPath) : bool :=
  existsb (fun base => bool_decide (normalized = base)
                       || existsb (fun a => bool_decide (a = base))
                                  (parents normalized))
          ALLOWED_BASE_PATHS.

Definition _validate_path (path : string) : outcome string :=
  let normalized := parse (normpath path) in
  if negb (is_absolute normalized) then
    Raise (ValueError ("Path must be absolute, got: '" +:+ path +:+ "'"))
  else if negb (within_allowed normalized) then
    Raise (ValueError ("Path '" +:+ path +:+ "' is outside allowed directories. "
                         +:+ "Allowed: " +:+ allowed_repr))
  else Return (as_posix normalized).

Section Tools.
Context {St : Type} `{BaseSandbox St}.

(** A pure call inside a computation. *)
Definition lift {A} (o : outcome A) : M St A := fun s => (o, s).

Definition read_file (executor : SandboxToolExecutor) (path : string)
    : M St dict :=
  try_except
    (validated_path <- lift (_validate_path path) ;;
     content <- Base.read_file validated_path ;;
     ret [ ("status", VStr "success");
           ("content", VStr (truncate executor content));
           ("path", VStr validated_path) ])
    (fun e =>
       match e with
       | ValueError _ =>
           Some (ret [ ("status", VStr "error"); ("error", VStr (exn_str e)) ])
       | FileNotFoundError _ =>
           Some (ret [ ("status", VStr "error");
                       ("error", VStr ("File not found: " +:+ path)) ])
       | _ =>
           if is_Exception e
           then Some (ret [ ("status", VStr "error");
                            ("error", VStr (exn_str e)) ])
           else None
       end).

Definition write_file (executor : SandboxToolExecutor) (path content : string)
    : M St dict :=
  try_except
    (validated_path <- lift (_validate_path path) ;;
     Base.write_file validated_path content ;;;
     ret [ ("status", VStr "success");
           ("path", VStr validated_path);
           ("size", VInt (PyStr.len content)) ])
    (fun e =>
       if is_Exception e
       then Some (ret [ ("status", VStr "error"); ("error", VStr (exn_str e)) ])
       else None).
End Tools.

End FileOps.

(** ** A recording wrapper around a sandbox

    The contract is abstract; to say which of its operations a tool reaches,
    a sandbox is wrapped so that every contract call is recorded before it
    runs, the way the test suite's mocks record theirs. *)

Module Spy.
Import Py Base.

Inductive contract_call :=
| Start
| Cleanup
| RunCommand (command working_dir : string) (timeout : number)
             (env : option (gmap string string))
| ReadFile (path : string)
| WriteFile (path content : string).

Record spied (St : Type) := {
  inner : St;
  seen : list contract_call;
}.
Arguments inner {St} _.
Arguments seen {St} _.

Section Wrap.
Context {St : Type} `{BaseSandbox St}.

Definition recording {A} (c : contract_call) (m : M St A) : M (spied St) A :=
  fun s => let (r, s') := m (inner s) in
           (r, {| inner := s'; seen := seen s ++ [c] |}).

#[export] Instance sandbox : BaseSandbox (spied St) := {
  Base.start := recording Start Base.start;
  Base.cleanup := recording Cleanup Base.cleanup;
  Base.run_command command working_dir timeout env :=
    recording (RunCommand command working_dir timeout env)
              (Base.run_command command working_dir timeout env);
  Base.read_file path := recording (ReadFile path) (Base.read_file path);
  Base.write_file path content :=
    recording (WriteFile path content) (Base.write_file path content);
}.
End Wrap.

End Spy.

(** ** tools/sandbox/executor.py: listing the generated files *)

Module ExecutorFiles.
Import Py Base Executor.

Section Methods.
Context {St : Type} `{BaseSandbox St}.

(** [SandboxToolExecutor.list_generated_files]. *)
Definition list_generated_files (executor : SandboxToolExecutor)
    : M St (list string) :=
  try_except
    (result <- Base.run_command "ls -1 /workspace/output" "/workspace"
                                (default_timeout executor) None ;;
     if success result then
       let files :=
         List.map PyStr.strip
           (List.filter (fun f => PyStr.truthy (PyStr.strip f))
                        (PyStr.split "010" (PyStr.strip (stdout result)))) in
       ret (List.map (fun f => "/workspace/output/" +:+ f) files)
     else ret [])
    (fun e => if is_Exception e then Some (ret []) else None).

End Methods.

End ExecutorFiles.

(** ** tools/sandbox/execution.py *)

Module Execution.
Import Py Base Executor.

(** [DEFAULT_SCRIPT_PATH] of [sandbox/base.py]. *)
Definition DEFAULT_SCRIPT_PATH : string := WORKSPACE_TEMP +:+ "/_script.py".

(** The values of the dicts these tools return. *)
Inductive result_value :=
| RStr (s : string)
| RInt (n : Z)
| RList (l : list string).

Definition result_dict := list (string * result_value).

(** Truth value of a number: non-zero. *)
Definition number_truthy (x : number) : bool :=
  match x with
  | Int n => negb (n =? 0)
  | Float q => negb (Qnum q =? 0)
  end.

(** [timeout or default]. *)
Definition timeout_or (timeout : option number) (default : number) : number :=
  match timeout with
  | Some t => if number_truthy t then t else default
  | None => default
  end.

Section Tools.
Context {St : Type} `{BaseSandbox St}.

Definition execute_shell (executor : SandboxToolExecutor)
    (command working_dir : string) (timeout : option number)
    : M St result_dict :=
  result <- Base.run_command command working_dir
              (timeout_or timeout (default_timeout executor)) None ;;
  ret [ ("status", RStr (if success result then "success" else "error"));
        ("stdout", RStr (truncate executor (stdout result)));
        ("stderr", RStr (truncate executor (stderr result)));
        ("exit_code", RInt (exit_code result)) ].

Definition execute_python (executor : SandboxToolExecutor)
    (code : string) (timeout : option number) : M St result_dict :=
  written <-
    try_except
      (Base.write_file DEFAULT_SCRIPT_PATH code ;;; ret None)
      (fun e =>
         if is_Exception e
         then Some (ret (Some [ ("status", RStr "error");
                                ("stdout", RStr "");
                                ("stderr", RStr (truncate executor (exn_str e)));
                                ("generated_files", RList []) ]))
         else None) ;;
  match written with
  | Some failure => ret failure
  | None =>
      result <- Base.run_command
                  ("cd " +:+ WORKSPACE_ROOT +:+ " && python3 " +:+ DEFAULT_SCRIPT_PATH)
                  "/workspace"
                  (timeout_or timeout (default_timeout executor)) None ;;
      generated_files <- ExecutorFiles.list_generated_files executor ;;
      ret [ ("status", RStr (if success result then "success" else "error"));
            ("stdout", RStr (truncate executor (stdout result)));
            ("stderr", RStr (truncate executor (stderr result)));
            ("generated_files", RList generated_files) ]
  end.

End Tools.

End Execution.

(** ** tools/sandbox/browser.py: escaping a selector *)

Module Browser.

Definition backslash : string := String "092" EmptyString.

(** [re.sub(r'[\r\n]', ' ', s)]. *)
Fixpoint blank_newlines (s : string) : string :=
  match s with
  | EmptyString => EmptyString
  | String c s' =>
      String (if Ascii.eqb c "013" || Ascii.eqb c "010" then " "%char else c)
             (blank_newlines s')
  end.

Definition _escape_css_selector (selector : string) : string :=
  let escaped :=
    PyStr.replace_char "034" (backslash +:+ Shlex.dquote)
      (PyStr.replace_char "092" (backslash +:+ backslash) selector) in
  blank_newlines escaped.

End Browser.

(** ** sandbox/base.py: use as a context manager *)

Module ContextManager.
Import Py Base.

Section Protocol.
Context {St : Type} `{BaseSandbox St}.

(** [__aenter__]: starts the sandbox (and returns it). *)
Definition __aenter__ : M St unit := Base.start.

(** [__aexit__]: cleans up and returns [None], so that an exception of the
    block is not suppressed. *)
Definition __aexit__ : M St unit := Base.cleanup.

(** [async with sandbox: body]: the block runs once [__aenter__] has
    returned, and [__aexit__] runs when the block is left, whichever way. *)
Definition async_with {A} (body : M St A) : M St A :=
  __aenter__ ;;; try_finally body __aexit__.

End Protocol.

End ContextManager.

(** ** Reading back what the escaping functions write

    Neither reader is part of the package: the first follows the lexical
    rules of a Python string literal in double quotes, the second the
    quoting rules of a POSIX shell word.  They are what the escaped texts
    are handed to.  The character U+0000 is read by neither: a Python
    source file cannot hold it, and neither can a command line. *)

Module Readers.

(** A text without U+0000. *)
Fixpoint no_nul (s : string) : bool :=
  match s with
  | EmptyString => true
  | String c s' => negb (Ascii.eqb c "000") && no_nul s'
  end.

(** The text denoted by the body of a Python literal in double quotes,
    for bodies that use no escape but backslash-backslash and
    backslash-quote; nothing when the body holds a bare quote, a line
    break, U+0000 or another escape. *)
Fixpoint python_literal (body : string) : option string :=
  match body with
  | EmptyString => Some EmptyString
  | String c rest =>
      if Ascii.eqb c "092" then
        match rest with
        | String d rest' =>
            if Ascii.eqb d "092" || Ascii.eqb d "034"
            then option_map (String d) (python_literal rest')
            else None
        | EmptyString => None
        end
      else if Ascii.eqb c "034" || Ascii.eqb c "010" || Ascii.eqb c "013"
              || Ascii.eqb c "000"
      then None
      else option_map (String c) (python_literal rest)
  end.




End Readers.

(** ** Doubles

    The sum and the product of two finite doubles by the rules of
    IEEE 754 binary64 (round to nearest, ties to even), as the Standard
    Library specifies them.  A double is given by the rational it denotes,
    whose denominator is a power of two. *)

Module Doubles.

Definition prec : Z := 53.
Definition emax : Z := 1024.

Definition of_Q (q : Q) : spec_float :=
  binary_normalize prec emax (Qnum q) (- Z.log2 (Zpos (Qden q))) false.

(** The rational a finite double denotes, in lowest terms (and zero for
    the values that are not finite, which the examples do not reach). *)
Definition to_Q (f : spec_float) : Q :=
  match f with
  | S754_finite s m e =>
      let n := if s then Zneg m else Zpos m in
      Qred (if 0 <=? e then inject_Z (n * 2 ^ e)
            else Qmake n (Z.to_pos (2 ^ (- e))))
  | _ => 0%Q
  end.

Definition add (a b : Q) : Q := to_Q (SFadd prec emax (of_Q a) (of_Q b)).

Definition mul (a b : Q) : Q := to_Q (SFmul prec emax (of_Q a) (of_Q b)).

(** The double written [0.1]. *)
Definition tenth : Q := Qmake 3602879701896397 (2 ^ 55)%positive.

End Doubles.

(** ** Engines and instances used in examples *)

Module Fixtures.
Import Py.

(** A runtime that prints the two floats the examples use the way Python
    does ([str(2.5)] is [2.5], [str(0.5)] is [0.5]), and that adds and
    multiplies doubles as IEEE 754 has it. *)
Definition sample_runtime : Runtime :=
  {| float_repr := fun q =>
       if Qeq_bool q (5 # 2) then "2.5"
       else if Qeq_bool q (1 # 2) then "0.5"
       else EmptyString;
     float_add := Doubles.add;
     float_mul := Doubles.mul |}.

(** A Docker engine on which every call succeeds and every command exits
    with [0]. *)
Definition docker_ok : DockerSandbox.World :=
  {| DockerSandbox.engine := fun _ c =>
       match c as c0 return outcome (DockerSandbox.answer c0) with
       | DockerSandbox.ExecRun _ _ _ _ =>
           Return {| DockerSandbox.er_exit_code := 0;
                     DockerSandbox.er_stdout := Some "ok";
                     DockerSandbox.er_stderr := None |}
       | DockerSandbox.GetArchive path =>
           Return [ {| DockerSandbox.tm_name := path;
                       DockerSandbox.tm_file := Some "data" |} ]
       | _ => Return tt
       end |}.

(** A Docker engine on which the container is created but cannot be
    started (the image has no [/bin/bash], say), and on which commands in
    it cannot be run. *)
Definition docker_no_start : DockerSandbox.World :=
  {| DockerSandbox.engine := fun _ c =>
       match c as c0 return outcome (DockerSandbox.answer c0) with
       | DockerSandbox.ContainerStart =>
           Raise (OtherException "OCI runtime create failed")
       | DockerSandbox.ExecRun _ _ _ _ =>
           Raise (OtherException "container is not running")
       | DockerSandbox.GetArchive _ =>
           Raise (NotFound "no such file")
       | _ => Return tt
       end |}.

(** A Docker engine whose [exec_run] answers [r] and whose other calls
    succeed. *)
Definition docker_exec (r : outcome DockerSandbox.exec_result)
    : DockerSandbox.World :=
  {| DockerSandbox.engine := fun _ c =>
       match c as c0 return outcome (DockerSandbox.answer c0) with
       | DockerSandbox.ExecRun _ _ _ _ => r
       | DockerSandbox.GetArchive _ => Return []
       | _ => Return tt
       end |}.

(** What [exec_run] answers when the [timeout] utility stopped the
    command. *)
Definition exec_124 : outcome DockerSandbox.exec_result :=
  Return {| DockerSandbox.er_exit_code := 124;
            DockerSandbox.er_stdout := None;
            DockerSandbox.er_stderr := None |}.

(** A Daytona API whose [process.exec] answers [r] and whose other calls
    succeed. *)
Definition daytona_exec (r : outcome DaytonaSandbox.exec_response)
    : DaytonaSandbox.World :=
  {| DaytonaSandbox.api := fun _ c =>
       match c as c0 return outcome (DaytonaSandbox.answer c0) with
       | DaytonaSandbox.Create _ => Return "ws-1"
       | DaytonaSandbox.ProcessExec _ _ _ _ _ => r
       | DaytonaSandbox.DownloadFile _ => Return "data"
       | _ => Return tt
       end |}.

(** A freshly constructed sandbox of each kind, with the default
    parameters. *)
Definition docker_fresh : DockerSandbox.t :=
  DockerSandbox.init "0a1b2c3d" DockerSandbox.DEFAULT_IMAGE "512m" 1 true
    DockerSandbox.DEFAULT_WORK_DIR None false None None.

Definition daytona_fresh : DaytonaSandbox.t :=
  DaytonaSandbox.init "test-key" "https://api.daytona.io" "us"
    DaytonaSandbox.DEFAULT_IMAGE 2 4 10 30.

(** The same with the instance handle set, as [start] leaves them. *)
Definition docker_started : DockerSandbox.t :=
  DockerSandbox.set_container
    (Some (DockerSandbox.container "sandbox_0a1b2c3d"))
    (DockerSandbox.set_client (Some DockerSandbox.docker_client) docker_fresh).

Definition daytona_started : DaytonaSandbox.t :=
  DaytonaSandbox.set_sandbox (Some (DaytonaSandbox.sandbox_obj "ws-1"))
    (DaytonaSandbox.set_client (Some DaytonaSandbox.daytona_client) daytona_fresh).

Definition executor : Executor.SandboxToolExecutor :=
  {| Executor.max_output_chars := Common.DEFAULT_MAX_OUTPUT_CHARS;
     Executor.default_timeout := Int 120 |}.

(** The test suite's [mock_sandbox]: a sandbox without state whose file
    operations answer what the test sets up. *)
Record mock := {
  mock_read_file : outcome string;
  mock_write_file : outcome unit;
  mock_run_command : outcome Base.CommandResult;
}.

Definition mock_sandbox (m : mock) : Base.BaseSandbox unit :=
  {| Base.start := ret tt;
     Base.cleanup := ret tt;
     Base.run_command _ _ _ _ := fun s => (mock_run_command m, s);
     Base.read_file _ := fun s => (mock_read_file m, s);
     Base.write_file _ _ := fun s => (mock_write_file m, s) |}.

Definition mock_default : mock :=
  {| mock_read_file := Return "";
     mock_write_file := Return tt;
     mock_run_command :=
       Return {| Base.exit_code := 0; Base.stdout := ""; Base.stderr := "" |} |}.

(** ["A" * 100]. *)
Definition A100 : string := string_of_list_ascii (repeat "A"%char 100).

(** A Docker engine that refuses to remove the container. *)
Definition docker_remove_fails : DockerSandbox.World :=
  {| DockerSandbox.engine := fun _ c =>
       match c as c0 return outcome (DockerSandbox.answer c0) with
       | DockerSandbox.ContainerRemove _ =>
           Raise (OtherException "removal of container is already in progress")
       | DockerSandbox.ExecRun _ _ _ _ =>
           Return {| DockerSandbox.er_exit_code := 1;
                     DockerSandbox.er_stdout := None;
                     DockerSandbox.er_stderr := Some "mkdir: permission denied" |}
       | DockerSandbox.GetArchive _ => Return []
       | _ => Return tt
       end |}.

(** A Daytona API that has lost the sandbox: files are not found, and the
    deletion fails. *)
Definition daytona_gone : DaytonaSandbox.World :=
  {| DaytonaSandbox.api := fun _ c =>
       match c as c0 return outcome (DaytonaSandbox.answer c0) with
       | DaytonaSandbox.Create _ => Return "ws-1"
       | DaytonaSandbox.ProcessExec _ _ _ _ _ =>
           Raise (OtherException "sandbox is not running")
       | DaytonaSandbox.DownloadFile _ =>
           Raise (OtherException "404 File Not Found")
       | DaytonaSandbox.Delete => Raise (OtherException "sandbox is busy")
       | _ => Return tt
       end |}.

(** A Docker configuration with one volume and one explicit variable. *)
Definition docker_config : Factory.DockerSandboxConfig :=
  {| Factory.image := "python:3.12-slim";
     Factory.memory_limit := "512m";
     Factory.cpu_limit := 1;
     Factory.network_enabled := false;
     Factory.work_dir := "/workspace";
     Factory.auto_remove := false;
     Factory.environment := Some {[ "MODE" := "test" ]};
     Factory.pass_env_vars := None;
     Factory.volumes := Some {[ "/srv/data" := "/workspace/input" ]} |}.

End Fixtures.

(** * Properties *)

(** ** Strings *)

Section StringFacts.
Implicit Types a b c s t : string.

Lemma append_cons x a b : String x a +:+ b = String x (a +:+ b).
Proof. reflexivity. Qed.

Lemma append_nil_l s : "" +:+ s = s.
Proof. reflexivity. Qed.

Lemma append_nil_r s : s +:+ "" = s.
Proof.
  induction s as [|x s IH]; [reflexivity|].
  now rewrite append_cons, IH.
Qed.

Lemma append_assoc a b c : (a +:+ b) +:+ c = a +:+ (b +:+ c).
Proof.
  induction a as [|x a IH]; [reflexivity|].
  now rewrite !append_cons, IH.
Qed.

Lemma length_append a b :
  String.length (a +:+ b) = (String.length a + String.length b)%nat.
Proof.
  induction a as [|x a IH]; [reflexivity|].
  rewrite append_cons. simpl. now rewrite IH.
Qed.

Lemma len_append a b : PyStr.len (a +:+ b) = PyStr.len a + PyStr.len b.
Proof. unfold PyStr.len. rewrite length_append. lia. Qed.

Lemma len_nonneg s : 0 <= PyStr.len s.
Proof. unfold PyStr.len. lia. Qed.

Lemma length_take n s :
  String.length (PyStr.take n s) = Nat.min n (String.length s).
Proof.
  revert s. induction n as [|n IH]; intros [|x s]; simpl; try reflexivity.
  now rewrite IH.
Qed.

Lemma take_all n s : (String.length s <= n)%nat -> PyStr.take n s = s.
Proof.
  revert s. induction n as [|n IH]; intros [|x s] Hle; simpl in *;
    try reflexivity; try lia.
  rewrite IH; [reflexivity | lia].
Qed.

(** Taking no more than the length of the first part ignores the second. *)
Lemma take_append n a b :
  (n <= String.length a)%nat -> PyStr.take n (a +:+ b) = PyStr.take n a.
Proof.
  revert a. induction n as [|n IH]; intros a Hle; [reflexivity|].
  destruct a as [|x a]; simpl in Hle; [lia|].
  rewrite append_cons. simpl. rewrite IH; [reflexivity | lia].
Qed.

Lemma take_take n s : PyStr.take n (PyStr.take n s) = PyStr.take n s.
Proof.
  revert s. induction n as [|n IH]; intros [|x s]; simpl; try reflexivity.
  now rewrite IH.
Qed.

Lemma append_cancel_r a b c : a +:+ c = b +:+ c -> a = b.
Proof.
  revert b. induction a as [|x a IH]; intros [|y b] E.
  - reflexivity.
  - exfalso. apply (f_equal String.length) in E.
    rewrite append_nil_l, append_cons in E. simpl in E.
    rewrite length_append in E. lia.
  - exfalso. apply (f_equal String.length) in E.
    rewrite append_nil_l, append_cons in E. simpl in E.
    rewrite length_append in E. lia.
  - rewrite !append_cons in E. injection E as -> E. f_equal. now apply IH.
Qed.

Lemma str_int_inj n m : PyStr.str_int n = PyStr.str_int m -> n = m.
Proof.
  unfold PyStr.str_int. intros E.
  assert (E' : Some (Z.to_int n) = Some (Z.to_int m)).
  { rewrite <- !NilEmpty.isi. now rewrite E. }
  injection E' as E'.
  rewrite <- (DecimalZ.of_to n), <- (DecimalZ.of_to m). now rewrite E'.
Qed.

Lemma slice_to_nonneg s k :
  0 <= k -> PyStr.slice_to s k = PyStr.take (Z.to_nat k) s.
Proof. unfold PyStr.slice_to. intros Hk. now rewrite (Zle_imp_le_bool _ _ Hk). Qed.

Lemma len_slice_to s k :
  0 <= k <= PyStr.len s -> PyStr.len (PyStr.slice_to s k) = k.
Proof.
  intros [Hk Hle]. rewrite slice_to_nonneg by assumption.
  unfold PyStr.len in *. rewrite length_take. lia.
Qed.

End StringFacts.

(** ** tools/common.py: output truncation *)

Lemma marker_inj n m : Common.marker n = Common.marker m -> n = m.
Proof.
  unfold Common.marker. intros E.
  apply String.app_inj in E. apply append_cancel_r in E.
  now apply str_int_inj.
Qed.

Lemma truncate_output_gt text max_chars :
  PyStr.len text > max_chars ->
  Common.truncate_output text max_chars
  = PyStr.slice_to text max_chars +:+ Common.marker (PyStr.len text).
Proof.
  intros Hgt. unfold Common.truncate_output.
  destruct (PyStr.len text >? max_chars) eqn:E; [reflexivity|].
  rewrite Z.gtb_ltb, Z.ltb_ge in E. lia.
Qed.

Lemma truncate_output_le text max_chars :
  PyStr.len text <= max_chars ->
  Common.truncate_output text max_chars = text.
Proof.
  intros Hle. unfold Common.truncate_output.
  destruct (PyStr.len text >? max_chars) eqn:E; [|reflexivity].
  rewrite Z.gtb_ltb, Z.ltb_lt in E. lia.
Qed.

Lemma marker_len_pos n : 0 < PyStr.len (Common.marker n).
Proof.
  unfold Common.marker, PyStr.len. rewrite append_cons.
  simpl String.length. lia.
Qed.

(** C10.  A text no longer than [max_chars] is returned unchanged; the
    marker is appended only when the length strictly exceeds [max_chars]:
    an output that differs from the input comes from a longer input, and
    then it is the slice followed by the marker. *)
Theorem truncate_output_within_limit (text : string) (max_chars : Z) :
  (PyStr.len text <= max_chars ->
   Common.truncate_output text max_chars = text)
  /\ (Common.truncate_output text max_chars <> text ->
      PyStr.len text > max_chars
      /\ Common.truncate_output text max_chars
         = PyStr.slice_to text max_chars +:+ Common.marker (PyStr.len text)).
Proof.
  split.
  - apply truncate_output_le.
  - intros Hne.
    destruct (Z_le_gt_dec (PyStr.len text) max_chars) as [Hle|Hgt].
    + exfalso. apply Hne. now apply truncate_output_le.
    + split; [assumption | now apply truncate_output_gt].
Qed.

Lemma truncate_output_within_limit_witness :
  PyStr.len "Short text" <= 100
  /\ Common.truncate_output "Short text" 100 = "Short text"
  /\ PyStr.len "Longer text" > 6
  /\ Common.truncate_output "Longer text" 6
     = PyStr.slice_to "Longer text" 6 +:+ Common.marker (PyStr.len "Longer text").
Proof.
  split; [vm_compute; discriminate|].
  split.
  - apply (proj1 (truncate_output_within_limit "Short text" 100)).
    vm_compute; discriminate.
  - apply (proj2 (truncate_output_within_limit "Longer text" 6)).
    vm_compute; discriminate.
Defined.

(** C2, as stated, fails: truncating an already truncated text truncates
    again and changes the count in the marker; and for a negative
    [max_chars] the slice counts from the end, so the length is not
    [max_chars + len(marker)]. *)
Lemma truncate_output_claim_fails :
  (PyStr.len "AAAA" > 2
   /\ Common.truncate_output (Common.truncate_output "AAAA" 2) 2
      <> Common.truncate_output "AAAA" 2)
  /\ (PyStr.len "abc" > -1
      /\ PyStr.len (Common.truncate_output "abc" (-1))
         <> -1 + PyStr.len (Common.marker (PyStr.len "abc"))).
Proof. repeat split; vm_compute; discriminate. Qed.

(** C2 (amended).  For a text longer than a non-negative [max_chars], the
    output is the first [max_chars] characters followed by the marker that
    reports the original length, so its length is
    [max_chars + len(marker)].  Truncating the output again keeps the same
    first [max_chars] characters and writes a marker that reports the
    length of the first output; this is the first output again exactly
    when the original length was already [max_chars + len(marker)]. *)
Theorem truncate_output_long_input (text : string) (max_chars : Z) :
  0 <= max_chars < PyStr.len text ->
  let out := Common.truncate_output text max_chars in
  out = PyStr.slice_to text max_chars +:+ Common.marker (PyStr.len text)
  /\ PyStr.len out = max_chars + PyStr.len (Common.marker (PyStr.len text))
  /\ Common.truncate_output out max_chars
     = PyStr.slice_to text max_chars +:+ Common.marker (PyStr.len out)
  /\ (Common.truncate_output out max_chars = out
      <-> PyStr.len text
          = max_chars + PyStr.len (Common.marker (PyStr.len text))).
Proof.
  intros [Hmax Hlt] out.
  assert (Hout : out = PyStr.slice_to text max_chars
                         +:+ Common.marker (PyStr.len text)).
  { apply truncate_output_gt. lia. }
  clearbody out.
  assert (Hlen : PyStr.len out
                 = max_chars + PyStr.len (Common.marker (PyStr.len text))).
  { rewrite Hout, len_append, len_slice_to; lia. }
  assert (Hagain : Common.truncate_output out max_chars
                   = PyStr.slice_to text max_chars
                       +:+ Common.marker (PyStr.len out)).
  { rewrite truncate_output_gt.
    2:{ pose proof (marker_len_pos (PyStr.len text)). lia. }
    f_equal. rewrite Hout, !slice_to_nonneg by assumption.
    rewrite take_append.
    - apply take_take.
    - rewrite length_take. unfold PyStr.len in Hlt. lia. }
  repeat split; try assumption.
  - intros E. rewrite Hagain in E. rewrite Hout in E at 2.
    apply String.app_inj, marker_inj in E. lia.
  - intros E. rewrite Hagain, Hlen, <- E. now symmetry.
Qed.

Lemma truncate_output_long_input_witness :
  PyStr.len (Common.truncate_output "AAAA" 2)
  = 2 + PyStr.len (Common.marker (PyStr.len "AAAA")).
Proof.
  apply (truncate_output_long_input "AAAA" 2). vm_compute.
  split; [discriminate | reflexivity].
Defined.

(** ** sandbox/base.py: the command result *)

(** C5.  [success] is true exactly when [exit_code] is [0]; it is false
    for every other exit code, [-1] included; [to_dict] reports the same
    value under the key [success]. *)
Theorem success_iff_exit_code_zero (r : Base.CommandResult) :
  (Base.success r = true <-> Base.exit_code r = 0)
  /\ (Base.exit_code r <> 0 -> Base.success r = false)
  /\ (Base.exit_code r = -1 -> Base.success r = false)
  /\ Py.dict_get (Base.to_dict r) "success" = Some (Py.VBool (Base.success r)).
Proof.
  unfold Base.success. repeat split.
  - apply Z.eqb_eq.
  - apply Z.eqb_eq.
  - apply Z.eqb_neq.
  - intros ->. reflexivity.
Qed.

Lemma success_iff_exit_code_zero_witness :
  Base.success {| Base.exit_code := -1; Base.stdout := ""; Base.stderr := "x" |}
  = false.
Proof.
  apply (proj1 (proj2 (success_iff_exit_code_zero _))). simpl. discriminate.
Defined.

(** ** sandbox/factory.py: the environment handed to the container *)

Section BuildEnvironment.
Variable environ : gmap string string.

Lemma truthy_nonempty (v : string) : PyStr.truthy v = true <-> v <> "".
Proof. destruct v; simpl; split; intros; congruence. Qed.

(** What one round of the loop does to the map. *)
Lemma pass_var_lookup (env : gmap string string) (x k : string) (v : string) :
  Factory.pass_var environ env x !! k = Some v <->
  env !! k = Some v
  \/ (k = x /\ env !! k = None /\ environ !! k = Some v /\ v <> "").
Proof.
  unfold Factory.pass_var.
  destruct (env !! x) as [w|] eqn:Ex.
  { split; [auto|]. intros [?|(-> & ? & _)]; [assumption | congruence]. }
  destruct (environ !! x) as [w|] eqn:Hx.
  2:{ split; [auto|]. intros [?|(-> & _ & ? & _)]; [assumption | congruence]. }
  destruct (PyStr.truthy w) eqn:Hw.
  - apply truthy_nonempty in Hw. rewrite lookup_insert_Some. split.
    + intros [[<- <-]|[Hne Hk]]; [right | left]; auto.
    + intros [Hk|(-> & _ & Hv & _)].
      * right. split; [|assumption]. intros <-. congruence.
      * left. split; congruence.
  - split; [auto|]. intros [?|(-> & _ & Hv & Hne)]; [assumption|].
    exfalso. apply truthy_nonempty in Hne. congruence.
Qed.

(** The same for the whole loop, from any starting map. *)
Lemma pass_vars_lookup (vars : list string) (env : gmap string string)
    (k v : string) :
  fold_left (Factory.pass_var environ) vars env !! k = Some v <->
  env !! k = Some v
  \/ (k ∈ vars /\ env !! k = None /\ environ !! k = Some v /\ v <> "").
Proof.
  revert env. induction vars as [|x vars IH]; intros env; simpl.
  - split; [auto|]. intros [?|(Hin & _)]; [assumption|].
    now apply elem_of_nil in Hin.
  - rewrite IH. rewrite pass_var_lookup. split.
    + intros [[Hk|(-> & Hn & Hv & Hne)]|(Hin & Hn & Hv & Hne)].
      * now left.
      * right. repeat split; try assumption. apply elem_of_cons. now left.
      * right. repeat split; try assumption.
        -- apply elem_of_cons. now right.
        -- destruct (env !! k) as [w|] eqn:Ek; [|reflexivity].
           assert (Factory.pass_var environ env x !! k = Some w) as Hc
             by (apply pass_var_lookup; now left).
           congruence.
    + intros [Hk|(Hin & Hn & Hv & Hne)]; [now do 2 left|].
      apply elem_of_cons in Hin as [->|Hin].
      * left. right. auto.
      * destruct (decide (k = x)) as [->|Hkx]; [left; right; auto|].
        right. repeat split; try assumption.
        destruct (Factory.pass_var environ env x !! k) as [w|] eqn:Ek;
          [|reflexivity].
        apply pass_var_lookup in Ek as [Ek|(-> & _)]; congruence.
Qed.

End BuildEnvironment.

(** C8.  In the map [_build_environment] returns, every explicit entry is
    kept with its explicit value; and every entry is either an explicit
    one or the non-empty host value of a name that is on the pass-through
    list (the configured [pass_env_vars], or [["TAVILY_API_KEY"]] when none
    is configured) and absent from the explicit map.  So a host variable
    that is not on the list, or whose name is explicitly set, is never
    copied.  This map is the environment of the Docker sandbox the factory
    creates. *)
Theorem build_environment_allow_list (environ : gmap string string)
    (config : Factory.DockerSandboxConfig) (k v : string) :
  let explicit : gmap string string := default ∅ (Factory.environment config) in
  let allow : list string :=
    match Factory.pass_env_vars config with
    | Some vars => vars
    | None => ["TAVILY_API_KEY"]
    end in
  let env := Factory._build_environment environ config in
  (explicit !! k = Some v -> env !! k = Some v)
  /\ (env !! k = Some v ->
      explicit !! k = Some v
      \/ (k ∈ allow /\ explicit !! k = None /\ environ !! k = Some v /\ v <> ""))
  /\ (k ∉ allow -> env !! k = explicit !! k)
  /\ (forall uuid8 : string,
        exists sb : DockerSandbox.t,
          Factory.create_sandbox environ uuid8 (Factory.Docker config) = inl sb
          /\ DockerSandbox._environment sb = env).
Proof.
  intros explicit allow env.
  assert (Hchar : forall w, env !! k = Some w <->
            explicit !! k = Some w
            \/ (k ∈ allow /\ explicit !! k = None
                /\ environ !! k = Some w /\ w <> "")).
  { intros w. unfold env, Factory._build_environment.
    apply pass_vars_lookup. }
  split; [|split; [|split]].
  - intros Hk. apply Hchar. now left.
  - apply Hchar.
  - intros Hnot. apply option_eq. intros w. rewrite Hchar. split.
    + intros [?|(? & _)]; [assumption | contradiction].
    + now left.
  - intros uuid8. eexists. split; reflexivity.
Qed.

Lemma build_environment_allow_list_witness :
  let environ : gmap string string :=
    {[ "TAVILY_API_KEY" := "tvly-host"; "AWS_SECRET" := "hunter2" ]} in
  let config :=
    {| Factory.image := "python:3.12-slim"; Factory.memory_limit := "512m";
       Factory.cpu_limit := 1; Factory.network_enabled := true;
       Factory.work_dir := "/workspace"; Factory.auto_remove := false;
       Factory.environment := Some {[ "MODE" := "test" ]};
       Factory.pass_env_vars := None; Factory.volumes := None |} in
  Factory._build_environment environ config !! "MODE" = Some "test"
  /\ Factory._build_environment environ config !! "AWS_SECRET" = None.
Proof.
  intros environ config. split.
  - apply (proj1 (build_environment_allow_list environ config "MODE" "test")).
    reflexivity.
  - rewrite (proj1 (proj2 (proj2 (build_environment_allow_list environ config
                                    "AWS_SECRET" "")))); [reflexivity|].
    simpl. intros Hin. apply list_elem_of_singleton in Hin. discriminate.
Defined.

(** ** posixpath and pathlib: the shape of a normalized path *)

Section PathFacts.
Import PosixPath.

Local Abbreviation slashless := (fun c : string => no_slash c = true).
Local Abbreviation is_clean := (fun c : string => clean c = true).

Lemma startswith_append a b : PyStr.startswith a (a +:+ b) = true.
Proof.
  induction a as [|x a IH]; [reflexivity|].
  rewrite append_cons. simpl. now rewrite Ascii.eqb_refl.
Qed.

Lemma split_no_sep w : no_slash w = true -> PyStr.split "/" w = [w].
Proof.
  induction w as [|x w IH]; [reflexivity|]. simpl.
  destruct (Ascii.eqb x "/"); simpl; [discriminate|].
  intros Hw. now rewrite IH.
Qed.

Lemma split_app_sep w rest :
  no_slash w = true ->
  PyStr.split "/" (w +:+ "/" +:+ rest) = w :: PyStr.split "/" rest.
Proof.
  induction w as [|x w IH].
  - reflexivity.
  - rewrite append_cons. simpl.
    destruct (Ascii.eqb x "/"); simpl; [discriminate|].
    intros Hw. now rewrite IH.
Qed.

Lemma join_cons2 sep w w' ws :
  PyStr.join sep (w :: w' :: ws) = w +:+ sep +:+ PyStr.join sep (w' :: ws).
Proof. reflexivity. Qed.

Lemma split_join comps :
  comps <> [] -> Forall slashless comps ->
  PyStr.split "/" (PyStr.join "/" comps) = comps.
Proof.
  induction comps as [|w ws IH]; [congruence|].
  intros _ Hall. inversion Hall as [|? ? Hw Hws]; subst.
  destruct ws as [|w' ws'].
  - now apply split_no_sep.
  - rewrite join_cons2, split_app_sep by assumption.
    f_equal. now apply IH.
Qed.

Lemma split_components s : Forall slashless (PyStr.split "/" s).
Proof.
  induction s as [|x s IH]; simpl.
  - now constructor.
  - destruct (Ascii.eqb x "/") eqn:Ex.
    + now constructor.
    + destruct (PyStr.split "/" s) as [|w ws].
      * constructor; [|constructor]. simpl. now rewrite Ex.
      * inversion IH; subst. constructor; [|assumption].
        simpl. now rewrite Ex.
Qed.

Lemma Forall_removelast {A} (P : A -> Prop) (l : list A) :
  Forall P l -> Forall P (List.removelast l).
Proof.
  induction 1 as [|x l Hx Hl IH]; simpl; [constructor|].
  destruct l; [constructor|]. now constructor.
Qed.

Lemma clean_slashless c : clean c = true -> no_slash c = true.
Proof. unfold clean. intros Hc. now apply andb_prop in Hc as [_ ?]. Qed.

Lemma norm_step_clean i acc comp :
  Forall is_clean acc -> no_slash comp = true ->
  Forall is_clean (norm_step i acc comp).
Proof.
  intros Hacc Hcomp. unfold norm_step.
  destruct (String.eqb comp "" || String.eqb comp ".") eqn:E; [assumption|].
  apply orb_false_elim in E as [E1 E2].
  match goal with |- context [if ?b then _ else _] => destruct b end.
  - apply Forall_app. split; [assumption|]. constructor; [|constructor].
    unfold clean. rewrite E2, Hcomp. destruct comp; [discriminate|reflexivity].
  - now apply Forall_removelast.
Qed.

Lemma norm_loop_clean i comps acc :
  Forall is_clean acc -> Forall slashless comps ->
  Forall is_clean (fold_left (norm_step i) comps acc).
Proof.
  revert acc. induction comps as [|c comps IH]; intros acc Hacc Hall; simpl.
  - assumption.
  - inversion Hall; subst. apply IH; [|assumption]. now apply norm_step_clean.
Qed.

(** What [normpath] returns: [.], a relative path of clean components,
    or a root of one or two slashes followed by clean components; the
    latter exactly when the argument starts with a slash. *)
Lemma normpath_shape p :
  (normpath p = "." /\ PyStr.startswith "/" p = false)
  \/ (exists comps, comps <> [] /\ Forall is_clean comps
        /\ normpath p = PyStr.join "/" comps
        /\ PyStr.startswith "/" p = false)
  \/ (exists r comps, (r = "/" \/ r = "//") /\ Forall is_clean comps
        /\ normpath p = r +:+ PyStr.join "/" comps
        /\ PyStr.startswith "/" p = true).
Proof.
  unfold normpath. destruct (String.eqb p "") eqn:Ep.
  { apply String.eqb_eq in Ep. subst. now left. }
  destruct (PyStr.startswith "/" p) eqn:Es.
  - right. right.
    match goal with
    | |- context [fold_left (norm_step ?i) ?cs []] =>
        pose proof (norm_loop_clean i cs [] (List.Forall_nil _) (split_components p))
          as Hclean;
        set (comps := fold_left (norm_step i) cs []) in *
    end.
    destruct (PyStr.startswith "//" p && negb (PyStr.startswith "///" p)).
    + exists "//", comps. repeat split; auto.
    + exists "/", comps. repeat split; auto.
  - match goal with
    | |- context [fold_left (norm_step ?i) ?cs []] =>
        pose proof (norm_loop_clean i cs [] (List.Forall_nil _) (split_components p))
          as Hclean;
        set (comps := fold_left (norm_step i) cs []) in *
    end.
    destruct (PyStr.truthy (PyStr.join "/" comps)) eqn:Et; [|now left].
    right. left. exists comps. repeat split; auto.
    intros ->. discriminate.
Qed.

Lemma clean_head c : clean c = true -> PyStr.startswith "/" c = false.
Proof.
  intros Hc. apply clean_slashless in Hc.
  destruct c as [|x c]; [reflexivity|].
  cbn [no_slash] in Hc. apply andb_prop in Hc as [Hx _].
  change (PyStr.startswith "/" (String x c))
    with (if Ascii.eqb "/" x then true else false).
  rewrite Ascii.eqb_sym. now destruct (Ascii.eqb x "/").
Qed.

Lemma join_clean_head comps :
  Forall is_clean comps -> PyStr.startswith "/" (PyStr.join "/" comps) = false.
Proof.
  intros Hall. destruct comps as [|w ws]; [reflexivity|].
  inversion Hall as [|? ? Hw _]; subst.
  pose proof (clean_head w Hw) as Hh.
  destruct ws as [|w' ws']; [assumption|].
  rewrite join_cons2. destruct w as [|x w]; [discriminate|].
  rewrite append_cons. exact Hh.
Qed.

Lemma filter_all {A} (f : A -> bool) (l : list A) :
  Forall (fun x => f x = true) l -> List.filter f l = l.
Proof.
  induction 1 as [|x l Hx Hl IH]; simpl; [reflexivity|].
  now rewrite Hx, IH.
Qed.

Lemma parse_parts_of_join comps :
  Forall is_clean comps ->
  List.filter (fun x => PyStr.truthy x && negb (String.eqb x "."))
              (PyStr.split "/" (PyStr.join "/" comps)) = comps.
Proof.
  intros Hall. destruct comps as [|w ws] eqn:Ec; [reflexivity|].
  rewrite <- Ec in *. rewrite split_join.
  - apply filter_all. eapply Forall_impl; [exact Hall|].
    intros c Hc. unfold clean in Hc.
    now apply andb_prop in Hc as [? _].
  - now subst.
  - eapply Forall_impl; [exact Hall|]. apply clean_slashless.
Qed.

Lemma splitroot_one j :
  PyStr.startswith "/" j = false -> splitroot ("/" +:+ j) = ("/", j).
Proof.
  intros Hj. unfold splitroot. change ("/" +:+ j) with (String "/" j).
  change (PyStr.startswith "/" (String "/" j)) with true.
  change (PyStr.startswith "//" (String "/" j)) with (PyStr.startswith "/" j).
  now rewrite Hj.
Qed.

Lemma splitroot_two j :
  PyStr.startswith "/" j = false -> splitroot ("//" +:+ j) = ("//", j).
Proof.
  intros Hj. unfold splitroot.
  change ("//" +:+ j) with (String "/" (String "/" j)).
  change (PyStr.startswith "/" (String "/" (String "/" j))) with true.
  change (PyStr.startswith "//" (String "/" (String "/" j))) with true.
  change (PyStr.startswith "///" (String "/" (String "/" j)))
    with (PyStr.startswith "/" j).
  now rewrite Hj.
Qed.

Lemma parse_rooted r comps :
  r = "/" \/ r = "//" -> Forall is_clean comps ->
  parse (r +:+ PyStr.join "/" comps) = {| root := r; parts := comps |}.
Proof.
  intros Hr Hall. pose proof (join_clean_head comps Hall) as Hj.
  pose proof (parse_parts_of_join comps Hall) as Hp.
  unfold parse.
  destruct Hr as [-> | ->];
    [rewrite splitroot_one by assumption | rewrite splitroot_two by assumption];
    now rewrite Hp.
Qed.

Lemma parse_relative s : PyStr.startswith "/" s = false -> root (parse s) = "".
Proof. intros Hs. unfold parse, splitroot. now rewrite Hs. Qed.

Lemma firstn_singleton {A} (k : nat) (l : list A) (x : A) :
  firstn k l = [x] -> exists rest, l = x :: rest.
Proof.
  destruct k as [|k]; [discriminate|].
  destruct l as [|y l]; [discriminate|]. simpl.
  intros E. injection E as -> _. now exists l.
Qed.

(** The component-aware test: a path passes only if it is rooted at one
    slash and its first component is [workspace]. *)
Lemma within_allowed_parts n :
  FileOps.within_allowed n = true ->
  root n = "/" /\ exists rest, parts n = "workspace" :: rest.
Proof.
  unfold FileOps.within_allowed, FileOps.ALLOWED_BASE_PATHS.
  replace (parse "/workspace") with {| root := "/"; parts := ["workspace"] |}
    by reflexivity.
  simpl existsb. rewrite orb_false_r. intros Hw.
  apply orb_prop in Hw as [Hw|Hw].
  - apply bool_decide_eq_true in Hw. subst. simpl. split; [reflexivity|].
    now exists [].
  - apply existsb_exists in Hw as (a & Hin & Ha).
    apply bool_decide_eq_true in Ha. subst a.
    unfold parents in Hin. apply in_map_iff in Hin as (k & E & _).
    injection E as Hroot Hparts. split; [assumption|].
    now apply firstn_singleton in Hparts.
Qed.

(** A path that passes normalizes to [/workspace] or to a text that
    starts with [/workspace/]. *)
Lemma within_allowed_normpath p :
  FileOps.within_allowed (parse (normpath p)) = true ->
  normpath p = "/workspace"
  \/ PyStr.startswith "/workspace/" (normpath p) = true.
Proof.
  intros Hw. apply within_allowed_parts in Hw as [Hroot [rest Hparts]].
  destruct (normpath_shape p)
    as [[E _]|[(comps & _ & Hc & E & Hs)|(r & comps & Hr & Hc & E & _)]].
  - rewrite E in Hroot. discriminate.
  - rewrite E in Hroot.
    rewrite parse_relative in Hroot by (now apply join_clean_head).
    discriminate.
  - rewrite E in Hroot, Hparts. rewrite parse_rooted in Hroot, Hparts by assumption.
    simpl in Hroot, Hparts. subst r comps. rewrite E.
    destruct rest as [|w ws]; [now left|]. right.
    rewrite join_cons2. reflexivity.
Qed.

Lemma is_absolute_normpath p :
  is_absolute (parse (normpath p)) = PyStr.startswith "/" p.
Proof.
  destruct (normpath_shape p)
    as [[E Hs]|[(comps & Hne & Hc & E & Hs)|(r & comps & Hr & Hc & E & Hs)]];
    rewrite E, Hs.
  - reflexivity.
  - unfold is_absolute. rewrite parse_relative; [reflexivity|].
    now apply join_clean_head.
  - rewrite parse_rooted by assumption. now destruct Hr as [-> | ->].
Qed.

(** An absolute normalized path prints as it was parsed. *)
Lemma as_posix_parse_normpath p :
  is_absolute (parse (normpath p)) = true ->
  as_posix (parse (normpath p)) = normpath p.
Proof.
  rewrite is_absolute_normpath. intros Habs.
  destruct (normpath_shape p)
    as [[_ Hs]|[(comps & _ & _ & _ & Hs)|(r & comps & Hr & Hc & E & _)]];
    try congruence.
  rewrite E, parse_rooted by assumption. unfold as_posix. simpl.
  now destruct Hr as [-> | ->].
Qed.

(** What [_validate_path] lets through is the normalized path, and it is
    [/workspace] or lies below it. *)
Lemma validate_path_accepts p q :
  FileOps._validate_path p = Py.Return q ->
  q = normpath p
  /\ (q = "/workspace" \/ PyStr.startswith "/workspace/" q = true).
Proof.
  unfold FileOps._validate_path.
  destruct (is_absolute (parse (normpath p))) eqn:Habs; [|discriminate].
  destruct (FileOps.within_allowed (parse (normpath p))) eqn:Hw; [|discriminate].
  simpl. intros [= <-].
  rewrite as_posix_parse_normpath by assumption.
  split; [reflexivity|]. now apply within_allowed_normpath.
Qed.

Lemma contains_suffix a b : PyStr.contains b (a +:+ b) = true.
Proof.
  induction a as [|x a IH].
  - rewrite append_nil_l. destruct b; simpl.
    + reflexivity.
    + rewrite Ascii.eqb_refl.
      pose proof (startswith_append b "") as Hb. rewrite append_nil_r in Hb.
      now rewrite Hb.
  - rewrite append_cons. simpl.
    destruct (PyStr.startswith b (String x (a +:+ b))); [reflexivity|assumption].
Qed.

End PathFacts.

(** ** tools/sandbox/file_ops.py: path validation *)

Section FileTools.
Import Py.
Context {St : Type} `{Base.BaseSandbox St}.

(** The two ways [_validate_path] rejects a path. *)
Lemma validate_path_rejects (p : string) :
  FileOps.within_allowed (PosixPath.parse (PosixPath.normpath p)) = false ->
  FileOps._validate_path p
  = Raise (ValueError
      (if PosixPath.is_absolute (PosixPath.parse (PosixPath.normpath p))
       then "Path '" +:+ p +:+ "' is outside allowed directories. "
              +:+ "Allowed: ['/workspace']"
       else "Path must be absolute, got: '" +:+ p +:+ "'")).
Proof.
  intros Hout. unfold FileOps._validate_path. rewrite Hout.
  now destruct (PosixPath.is_absolute _).
Qed.

Lemma read_file_of_rejected (executor : Executor.SandboxToolExecutor)
    (p msg : string) (s : St) :
  FileOps._validate_path p = Raise (ValueError msg) ->
  FileOps.read_file executor p s
  = (Return [ ("status", VStr "error"); ("error", VStr msg) ], s).
Proof.
  intros E. unfold FileOps.read_file, try_except, bind, FileOps.lift.
  now rewrite E.
Qed.

Lemma write_file_of_rejected (executor : Executor.SandboxToolExecutor)
    (p content msg : string) (s : St) :
  FileOps._validate_path p = Raise (ValueError msg) ->
  FileOps.write_file executor p content s
  = (Return [ ("status", VStr "error"); ("error", VStr msg) ], s).
Proof.
  intros E. unfold FileOps.write_file, try_except, bind, FileOps.lift.
  now rewrite E.
Qed.

Lemma outside_message_reports_roots (p : string) :
  PyStr.contains "['/workspace']"
    ("Path '" +:+ p +:+ "' is outside allowed directories. Allowed: ['/workspace']")
  = true.
Proof.
  replace ("Path '" +:+ p
             +:+ "' is outside allowed directories. Allowed: ['/workspace']")
    with (("Path '" +:+ p +:+ "' is outside allowed directories. Allowed: ")
            +:+ "['/workspace']").
  - apply contains_suffix.
  - now rewrite !append_assoc.
Qed.

(** Rejection, stated on the text of the normalized path: whatever
    normalizes to neither [/workspace] nor something below it is refused,
    with one of two messages. *)
Lemma validate_path_outside (p : string) :
  PosixPath.normpath p <> "/workspace" ->
  PyStr.startswith "/workspace/" (PosixPath.normpath p) = false ->
  FileOps._validate_path p
  = Raise (ValueError
      (if PyStr.startswith "/" p
       then "Path '" +:+ p
              +:+ "' is outside allowed directories. Allowed: ['/workspace']"
       else "Path must be absolute, got: '" +:+ p +:+ "'")).
Proof.
  intros Hne Hpre. rewrite validate_path_rejects.
  - now rewrite is_absolute_normpath.
  - destruct (FileOps.within_allowed _) eqn:Hw; [|reflexivity].
    apply within_allowed_normpath in Hw as [Hw|Hw]; congruence.
Qed.

(** Whatever the path, [read_file] reaches the sandbox at most once, and
    only with a normalized path that is [/workspace] or below it. *)
Lemma read_file_reaches_workspace_only
    (executor : Executor.SandboxToolExecutor) (p : string)
    (s : Spy.spied St) :
  let after := snd (@FileOps.read_file _ Spy.sandbox executor p s) in
  Spy.seen after = Spy.seen s
  \/ exists q, Spy.seen after = Spy.seen s ++ [Spy.ReadFile q]
               /\ (q = "/workspace" \/ PyStr.startswith "/workspace/" q = true).
Proof.
  unfold FileOps.read_file, try_except, bind, FileOps.lift, ret.
  destruct (FileOps._validate_path p) as [q|e] eqn:Hv.
  - right. exists q. apply validate_path_accepts in Hv as [_ Hq].
    split; [|assumption].
    simpl. unfold Spy.recording.
    destruct (Base.read_file q (Spy.inner s)) as [[content|e] s1]; simpl;
      [reflexivity|].
    destruct e; reflexivity.
  - left. destruct e; reflexivity.
Qed.

(** The same for [write_file]. *)
Lemma write_file_reaches_workspace_only
    (executor : Executor.SandboxToolExecutor) (p content : string)
    (s : Spy.spied St) :
  let after := snd (@FileOps.write_file _ Spy.sandbox executor p content s) in
  Spy.seen after = Spy.seen s
  \/ exists q, Spy.seen after = Spy.seen s ++ [Spy.WriteFile q content]
               /\ (q = "/workspace" \/ PyStr.startswith "/workspace/" q = true).
Proof.
  unfold FileOps.write_file, try_except, bind, FileOps.lift, ret.
  destruct (FileOps._validate_path p) as [q|e] eqn:Hv.
  - right. exists q. apply validate_path_accepts in Hv as [_ Hq].
    split; [|assumption].
    simpl. unfold Spy.recording.
    destruct (Base.write_file q content (Spy.inner s)) as [[[]|e] s1]; simpl;
      [reflexivity|].
    destruct e; reflexivity.
  - left. destruct e; reflexivity.
Qed.

End FileTools.

(** C1, as stated, fails for relative paths: they are refused without
    reaching the sandbox, but the message says that the path must be
    absolute and does not mention the allowed roots. *)
Lemma relative_path_error_omits_allowed_roots :
  let s0 : Spy.spied DockerSandbox.t :=
    {| Spy.inner := Fixtures.docker_started; Spy.seen := [] |} in
  let read :=
    @FileOps.read_file _
      (@Spy.sandbox _ (@DockerSandbox.sandbox Fixtures.sample_runtime
                                               Fixtures.docker_ok))
      Fixtures.executor "tmp/x" s0 in
  PosixPath.normpath "tmp/x" <> "/workspace"
  /\ PyStr.startswith "/workspace/" (PosixPath.normpath "tmp/x") = false
  /\ read = (Py.Return [ ("status", Py.VStr "error");
                         ("error", Py.VStr "Path must be absolute, got: 'tmp/x'") ],
             s0)
  /\ PyStr.contains "/workspace" "Path must be absolute, got: 'tmp/x'" = false.
Proof. repeat split; vm_compute; discriminate. Qed.

(** C1 (amended).  A path whose normalization is neither [/workspace] nor
    below it is refused by both file tools: the result has status [error],
    the sandbox is left as it was and none of its operations is invoked.
    When the path is absolute (it starts with a slash) the message names
    the path and lists the allowed roots; when it is relative the message
    says that the path must be absolute. *)
Theorem file_tools_reject_outside_workspace
    {St : Type} `{Base.BaseSandbox St}
    (executor : Executor.SandboxToolExecutor) (p content : string)
    (s : Spy.spied St) :
  PosixPath.normpath p <> "/workspace" ->
  PyStr.startswith "/workspace/" (PosixPath.normpath p) = false ->
  let msg :=
    if PyStr.startswith "/" p
    then "Path '" +:+ p
           +:+ "' is outside allowed directories. Allowed: ['/workspace']"
    else "Path must be absolute, got: '" +:+ p +:+ "'" in
  let refused : Py.dict :=
    [ ("status", Py.VStr "error"); ("error", Py.VStr msg) ] in
  @FileOps.read_file _ Spy.sandbox executor p s = (Py.Return refused, s)
  /\ @FileOps.write_file _ Spy.sandbox executor p content s
     = (Py.Return refused, s)
  /\ Spy.seen (snd (@FileOps.read_file _ Spy.sandbox executor p s)) = Spy.seen s
  /\ Spy.seen (snd (@FileOps.write_file _ Spy.sandbox executor p content s))
     = Spy.seen s
  /\ (PyStr.startswith "/" p = true ->
      PyStr.contains "['/workspace']" msg = true).
Proof.
  intros Hne Hpre msg refused.
  pose proof (validate_path_outside p Hne Hpre) as Hv. fold msg in Hv.
  assert (Hr : @FileOps.read_file _ Spy.sandbox executor p s
               = (Py.Return refused, s))
    by (now apply read_file_of_rejected).
  assert (Hw : @FileOps.write_file _ Spy.sandbox executor p content s
               = (Py.Return refused, s))
    by (now apply write_file_of_rejected).
  rewrite Hr, Hw. repeat split.
  intros Habs. unfold msg. rewrite Habs. apply outside_message_reports_roots.
Qed.

Lemma file_tools_reject_outside_workspace_witness :
  let s0 : Spy.spied DockerSandbox.t :=
    {| Spy.inner := Fixtures.docker_started; Spy.seen := [] |} in
  @FileOps.read_file _
    (@Spy.sandbox _ (@DockerSandbox.sandbox Fixtures.sample_runtime
                                             Fixtures.docker_ok))
    Fixtures.executor "/workspace2/x" s0
  = (Py.Return
       [ ("status", Py.VStr "error");
         ("error", Py.VStr ("Path '/workspace2/x' is outside allowed "
                              +:+ "directories. Allowed: ['/workspace']")) ],
     s0).
Proof.
  intros s0.
  apply (@file_tools_reject_outside_workspace _
           (@DockerSandbox.sandbox Fixtures.sample_runtime Fixtures.docker_ok)
           Fixtures.executor "/workspace2/x" "" s0).
  - vm_compute. discriminate.
  - vm_compute. reflexivity.
Defined.

(** Paths of the three kinds the claim names. *)
Example validate_path_examples :
  FileOps._validate_path "/workspace/a/../b" = Py.Return "/workspace/b"
  /\ FileOps._validate_path "/workspace/../etc/passwd"
     = Py.Raise (Py.ValueError
         ("Path '/workspace/../etc/passwd' is outside allowed directories. "
            +:+ "Allowed: ['/workspace']"))
  /\ FileOps._validate_path "/workspace2/x"
     = Py.Raise (Py.ValueError
         ("Path '/workspace2/x' is outside allowed directories. "
            +:+ "Allowed: ['/workspace']"))
  /\ FileOps._validate_path "workspace/x"
     = Py.Raise (Py.ValueError "Path must be absolute, got: 'workspace/x'").
Proof. repeat split. Qed.

(** ** The backends: what [run_command] does on a started sandbox *)

Section DockerFacts.
Import Py Base DockerSandbox.
Context `{Runtime} `{World}.

(** On a sandbox that has its container, [run_command] makes exactly one
    engine call and turns each possible answer into its outcome. *)
Lemma docker_run_command_started (s : t) (c0 : Container)
    (command working_dir : string) (timeout : number)
    (env : option (gmap string string)) :
  _container s = Some c0 ->
  let request :=
    ExecRun ("timeout " +:+ PyStr.str_int (int timeout) +:+ " /bin/bash -c "
               +:+ Shlex.quote command)
            working_dir env (add_int timeout 5) in
  run_command command working_dir timeout env s
  = (match engine (calls s) request with
     | Return r =>
         Return
           (if er_exit_code r =? 124
            then {| exit_code := -1;
                    stdout := default "" (er_stdout r);
                    stderr := PyStr.strip
                      ("Command timed out after " +:+ PyStr.str_int (int timeout)
                         +:+ " seconds" +:+ String "010" (default "" (er_stderr r))) |}
            else {| exit_code := er_exit_code r;
                    stdout := default "" (er_stdout r);
                    stderr := default "" (er_stderr r) |})
     | Raise TimeoutError =>
         Return {| exit_code := -1; stdout := "";
                   stderr := "Command timed out after " +:+ str timeout
                               +:+ " seconds" |}
     | Raise (ContainerError exit_status msg) =>
         Return {| exit_code := exit_status; stdout := ""; stderr := msg |}
     | Raise CancelledError => Raise CancelledError
     | Raise e => Return {| exit_code := -1; stdout := ""; stderr := exn_str e |}
     end,
     record_call request s).
Proof.
  intros Hc request.
  unfold run_command, bind, get, try_except, perform. rewrite Hc.
  fold request.
  destruct (engine (calls s) request) as [r|e].
  - now destruct (er_exit_code r =? 124).
  - now destruct e.
Qed.

End DockerFacts.

Section DaytonaFacts.
Import Py Base DaytonaSandbox.
Context `{Runtime} `{World}.

(** The same for the cloud backend. *)
Lemma daytona_run_command_started (s : t) (sb : Sandbox)
    (command working_dir : string) (timeout : number)
    (env : option (gmap string string)) :
  _sandbox s = Some sb ->
  let request := ProcessExec command working_dir env (int timeout) timeout in
  run_command command working_dir timeout env s
  = (match api (calls s) request with
     | Return r =>
         Return {| exit_code := xr_exit_code r;
                   stdout := default "" (xr_result r);
                   stderr := "" |}
     | Raise TimeoutError =>
         Return {| exit_code := -1; stdout := "";
                   stderr := "Command timed out after " +:+ str timeout
                               +:+ " seconds" |}
     | Raise CancelledError => Raise CancelledError
     | Raise e => Return {| exit_code := -1; stdout := ""; stderr := exn_str e |}
     end,
     record_call request s).
Proof.
  intros Hc request.
  unfold run_command, bind, get, try_except, perform. rewrite Hc.
  fold request.
  destruct (api (calls s) request) as [r|e]; [reflexivity|].
  now destruct e.
Qed.

End DaytonaFacts.

(** ** Stripping a message that ends in a letter *)

Section StripFacts.

Lemma lstrip_nonspace c s :
  PyStr.isspace c = false -> PyStr.lstrip (String c s) = String c s.
Proof. intros Hc. simpl. now rewrite Hc. Qed.

Lemma rstrip_cons_nonempty c s :
  PyStr.rstrip s <> "" -> PyStr.rstrip (String c s) = String c (PyStr.rstrip s).
Proof. intros Hs. simpl. now destruct (PyStr.rstrip s). Qed.

(** Nothing is stripped from a text up to its last non-space character. *)
Lemma rstrip_append a c b :
  PyStr.isspace c = false ->
  PyStr.rstrip (a +:+ String c b) = a +:+ String c (PyStr.rstrip b).
Proof.
  intros Hc. induction a as [|x a IH].
  - rewrite !append_nil_l. simpl. rewrite Hc. now destruct (PyStr.rstrip b).
  - rewrite !append_cons. rewrite rstrip_cons_nonempty; rewrite IH.
    + reflexivity.
    + destruct a; [rewrite append_nil_l | rewrite append_cons]; discriminate.
Qed.

(** The stderr of a command the [timeout] utility stopped: the message,
    then what the command wrote to stderr, stripped at the end. *)
Lemma strip_timeout_message (n : string) (err : string) :
  PyStr.strip ("Command timed out after " +:+ n +:+ " seconds" +:+ String "010" err)
  = "Command timed out after " +:+ n +:+ " seconds"
      +:+ PyStr.rstrip (String "010" err).
Proof.
  unfold PyStr.strip.
  replace ("Command timed out after " +:+ n +:+ " seconds" +:+ String "010" err)
    with (String "C" ("ommand timed out after " +:+ n +:+ " seconds"
                        +:+ String "010" err)) by reflexivity.
  rewrite lstrip_nonspace by reflexivity.
  replace (String "C" ("ommand timed out after " +:+ n +:+ " seconds"
                         +:+ String "010" err))
    with (("Command timed out after " +:+ n +:+ " second")
            +:+ String "s" (String "010" err)).
  2:{ rewrite !append_assoc. reflexivity. }
  rewrite rstrip_append by reflexivity.
  rewrite !append_assoc. reflexivity.
Qed.

End StripFacts.

(** ** Lifecycle: the instance handle *)

(** Closes a goal [run = (Return v, s') -> P s'] once [run] is a value. *)
Ltac by_outcome :=
  let E := fresh "E" in
  intros E; inversion E; subst; simpl; auto.

Section DockerLifecycle.
Import Py Base DockerSandbox.
Context `{Runtime} `{World}.

Lemma docker_not_started (s : t) (command working_dir : string)
    (timeout : number) (env : option (gmap string string))
    (path content : string) :
  _container s = None ->
  run_command command working_dir timeout env s
  = (Raise (RuntimeError "Sandbox not started"), s)
  /\ read_file path s = (Raise (RuntimeError "Sandbox not started"), s)
  /\ write_file path content s = (Raise (RuntimeError "Sandbox not started"), s).
Proof.
  intros Hc. unfold run_command, read_file, write_file, bind, get, raise.
  now rewrite Hc.
Qed.

Lemma docker_cleanup_clears (s s' : t) :
  cleanup s = (Return tt, s') -> _container s' = None.
Proof.
  unfold cleanup, bind, get, try_finally, try_except, perform, modify, ret, raise.
  destruct (_container s) eqn:Hc; [|now intros [= <-]].
  destruct (engine (calls s) (ContainerRemove true)) as [[]|e]; simpl;
    [| destruct (is_NotFound e); [|destruct (is_Exception e)]; simpl ];
    (destruct (_client s); simpl;
     [ match goal with
       | |- context [engine ?l ClientClose] =>
           destruct (engine l ClientClose) as [[]|?]
       end |];
     simpl; by_outcome).
Qed.

Lemma docker_cleanup_without_container (s : t) :
  _container s = None -> cleanup s = (Return tt, s).
Proof. intros Hc. unfold cleanup, bind, get, ret. now rewrite Hc. Qed.

End DockerLifecycle.

Section DaytonaLifecycle.
Import Py Base DaytonaSandbox.
Context `{Runtime} `{World}.

Lemma daytona_not_started (s : t) (command working_dir : string)
    (timeout : number) (env : option (gmap string string))
    (path content : string) :
  _sandbox s = None ->
  run_command command working_dir timeout env s
  = (Raise (RuntimeError "Sandbox not started"), s)
  /\ read_file path s = (Raise (RuntimeError "Sandbox not started"), s)
  /\ write_file path content s = (Raise (RuntimeError "Sandbox not started"), s).
Proof.
  intros Hc. unfold run_command, read_file, write_file, bind, get, raise.
  now rewrite Hc.
Qed.

Lemma daytona_cleanup_clears (s s' : t) :
  cleanup s = (Return tt, s') -> _sandbox s' = None.
Proof.
  unfold cleanup, bind, get, try_finally, try_except, perform, modify, ret, raise.
  destruct (_sandbox s) eqn:Hc; [|now intros [= <-]].
  destruct (api (calls s) Delete) as [[]|e]; simpl;
    [| destruct (is_Exception e); simpl ]; by_outcome.
Qed.

Lemma daytona_cleanup_without_sandbox (s : t) :
  _sandbox s = None -> cleanup s = (Return tt, s).
Proof. intros Hc. unfold cleanup, bind, get, ret. now rewrite Hc. Qed.

(** On a sandbox that has its handle, [run_command] lets nothing through
    but a cancellation. *)
Lemma daytona_run_command_raises_only_cancel (s s' : t) (sb : Sandbox)
    (command working_dir : string) (timeout : number)
    (env : option (gmap string string)) (e : exn) :
  _sandbox s = Some sb ->
  run_command command working_dir timeout env s = (Raise e, s') ->
  e = CancelledError.
Proof.
  intros Hs. rewrite (daytona_run_command_started s sb) by assumption.
  destruct (api _ _) as [r|e']; [discriminate|].
  destruct e'; intros E; inversion E; reflexivity.
Qed.

(** A [start] that fails with an [Exception] failed before the handle was
    assigned: the handle is as it was. *)
Lemma daytona_get_client_keeps_handle (s s0 : t) (r : outcome DaytonaClient) :
  _get_client s = (r, s0) -> _sandbox s0 = _sandbox s.
Proof.
  unfold _get_client, try_except, bind, get, modify, ret, raise, perform.
  destruct (_client s); [now inversion 1|].
  destruct (api (calls s) (NewClient (_api_key s))) as [[]|e1]; simpl.
  - now inversion 1.
  - destruct e1; now inversion 1.
Qed.

Lemma daytona_failed_start_keeps_handle (s s' : t) (e : exn) :
  start s = (Raise e, s') -> is_Exception e = true -> _sandbox s' = _sandbox s.
Proof.
  unfold start, try_except, bind, get, modify, ret, raise.
  destruct (_get_client s) as [[c|e0] s0] eqn:Hg;
    apply daytona_get_client_keeps_handle in Hg.
  - unfold perform.
    destruct (api (calls s0) (Create _)) as [id|e1]; simpl.
    + match goal with
      | |- context [run_command ?c ?w ?t ?v ?st] =>
          destruct (run_command c w t v st) as [[r|e2] s2] eqn:Hr
      end; simpl.
      * discriminate.
      * apply daytona_run_command_raises_only_cancel with (sb := sandbox_obj id)
          in Hr; [|reflexivity].
        subst e2. simpl. inversion 1. discriminate.
    + destruct (is_Exception e1); inversion 1; subst; intros _; exact Hg.
  - simpl. destruct (is_Exception e0); inversion 1; subst; intros _; exact Hg.
Qed.

End DaytonaLifecycle.

(** ** The claims about the backends *)

Section BackendClaims.
Import Py Base.
Context {rt : Runtime} {dw : DockerSandbox.World} {yw : DaytonaSandbox.World}.

(** C3 (amended).  On a started sandbox of either backend, when the
    caller-side wait expires, [run_command] returns the result with exit
    code [-1], empty stdout and stderr [Command timed out after <timeout>
    seconds], where [<timeout>] is the timeout as it was given.  On the
    Docker backend an exit code of [124] from the [timeout] utility is
    turned into a result with exit code [-1] whose stderr starts with
    [Command timed out after <int(timeout)> seconds], the timeout
    truncated to an integer, followed by what the command wrote to
    stderr.  For an integer timeout both messages report the timeout
    itself. *)
Theorem run_command_timeout_is_a_result
    (command working_dir : string) (timeout : number)
    (env : option (gmap string string)) :
  (forall s : DockerSandbox.t,
     DockerSandbox._container s <> None ->
     let request :=
       DockerSandbox.ExecRun
         ("timeout " +:+ PyStr.str_int (int timeout) +:+ " /bin/bash -c "
            +:+ Shlex.quote command)
         working_dir env (add_int timeout 5) in
     (DockerSandbox.engine (DockerSandbox.calls s) request = Raise TimeoutError ->
      fst (DockerSandbox.run_command command working_dir timeout env s)
      = Return {| exit_code := -1; stdout := "";
                  stderr := "Command timed out after " +:+ str timeout
                              +:+ " seconds" |})
     /\ (forall r,
           DockerSandbox.engine (DockerSandbox.calls s) request = Return r ->
           DockerSandbox.er_exit_code r = 124 ->
           fst (DockerSandbox.run_command command working_dir timeout env s)
           = Return {| exit_code := -1;
                       stdout := default "" (DockerSandbox.er_stdout r);
                       stderr := "Command timed out after "
                                   +:+ PyStr.str_int (int timeout) +:+ " seconds"
                                   +:+ PyStr.rstrip
                                         (String "010"
                                            (default "" (DockerSandbox.er_stderr r))) |}))
  /\ (forall s : DaytonaSandbox.t,
        DaytonaSandbox._sandbox s <> None ->
        DaytonaSandbox.api (DaytonaSandbox.calls s)
          (DaytonaSandbox.ProcessExec command working_dir env (int timeout) timeout)
        = Raise TimeoutError ->
        fst (DaytonaSandbox.run_command command working_dir timeout env s)
        = Return {| exit_code := -1; stdout := "";
                    stderr := "Command timed out after " +:+ str timeout
                                +:+ " seconds" |})
  /\ (forall n : Z,
        timeout = Int n ->
        str timeout = PyStr.str_int n
        /\ PyStr.str_int (int timeout) = PyStr.str_int n).
Proof.
  split; [|split].
  - intros s Hs request.
    destruct (DockerSandbox._container s) as [c0|] eqn:Hc; [|contradiction].
    rewrite (docker_run_command_started s c0) by assumption.
    fold request. split.
    + intros E. now rewrite E.
    + intros r E H124. rewrite E. simpl. rewrite H124. simpl.
      now rewrite strip_timeout_message.
  - intros s Hs E.
    destruct (DaytonaSandbox._sandbox s) as [sb|] eqn:Hc; [|contradiction].
    rewrite (daytona_run_command_started s sb) by assumption.
    now rewrite E.
  - intros n ->. split; reflexivity.
Qed.

(** C4 (amended).  On a started sandbox, when the command cannot be
    dispatched (the engine or the API raises an [Exception] other than the
    wait's [TimeoutError]), [run_command] does not raise: it returns a
    result with empty stdout and the text of the error in stderr, with
    exit code [-1] (on Docker, the [exit_status] of a [ContainerError]).
    A command that ran is returned with its own exit code (on Docker,
    unless that code is [124]). *)
Theorem run_command_dispatch_failure_is_a_result
    (command working_dir : string) (timeout : number)
    (env : option (gmap string string)) (e : exn) :
  is_Exception e = true -> e <> TimeoutError ->
  (forall s : DockerSandbox.t,
     DockerSandbox._container s <> None ->
     let request :=
       DockerSandbox.ExecRun
         ("timeout " +:+ PyStr.str_int (int timeout) +:+ " /bin/bash -c "
            +:+ Shlex.quote command)
         working_dir env (add_int timeout 5) in
     (DockerSandbox.engine (DockerSandbox.calls s) request = Raise e ->
      fst (DockerSandbox.run_command command working_dir timeout env s)
      = Return {| exit_code := match e with
                               | ContainerError exit_status _ => exit_status
                               | _ => -1
                               end;
                  stdout := "";
                  stderr := exn_str e |})
     /\ (forall r,
           DockerSandbox.engine (DockerSandbox.calls s) request = Return r ->
           DockerSandbox.er_exit_code r <> 124 ->
           fst (DockerSandbox.run_command command working_dir timeout env s)
           = Return {| exit_code := DockerSandbox.er_exit_code r;
                       stdout := default "" (DockerSandbox.er_stdout r);
                       stderr := default "" (DockerSandbox.er_stderr r) |}))
  /\ (forall s : DaytonaSandbox.t,
        DaytonaSandbox._sandbox s <> None ->
        let request :=
          DaytonaSandbox.ProcessExec command working_dir env (int timeout)
                                     timeout in
        (DaytonaSandbox.api (DaytonaSandbox.calls s) request = Raise e ->
         fst (DaytonaSandbox.run_command command working_dir timeout env s)
         = Return {| exit_code := -1; stdout := ""; stderr := exn_str e |})
        /\ (forall r,
              DaytonaSandbox.api (DaytonaSandbox.calls s) request = Return r ->
              fst (DaytonaSandbox.run_command command working_dir timeout env s)
              = Return {| exit_code := DaytonaSandbox.xr_exit_code r;
                          stdout := default "" (DaytonaSandbox.xr_result r);
                          stderr := "" |})).
Proof.
  intros He Hne. split.
  - intros s Hs request.
    destruct (DockerSandbox._container s) as [c0|] eqn:Hc; [|contradiction].
    rewrite (docker_run_command_started s c0) by assumption.
    fold request. split.
    + intros E. rewrite E. destruct e; try reflexivity; easy.
    + intros r E H124. rewrite E. simpl.
      now destruct (Z.eqb_spec (DockerSandbox.er_exit_code r) 124).
  - intros s Hs request.
    destruct (DaytonaSandbox._sandbox s) as [sb|] eqn:Hc; [|contradiction].
    rewrite (daytona_run_command_started s sb) by assumption.
    fold request. split.
    + intros E. rewrite E. destruct e; try reflexivity; easy.
    + intros r E. now rewrite E.
Qed.

(** C9 (amended).  On a started Docker sandbox and for a timeout that is
    an [int] or a finite [float], [run_command] makes one engine call:
    [exec_run] of [timeout int(t) /bin/bash -c <quoted command>], awaited
    for [t + 5] seconds, which for a float is the sum as floats are added.
    For a fractional timeout between 0 and 1 the wrapper is [timeout 0]:
    the duration given to the utility inside the container is zero (which
    that utility takes for no limit; this is its behaviour, not the
    program's), and the wait of [t + 5] seconds is the only bound the
    program itself sets. *)
Theorem docker_run_command_wraps_with_timeout
    (s : DockerSandbox.t) (command working_dir : string) (timeout : number)
    (env : option (gmap string string)) :
  DockerSandbox._container s <> None ->
  let run :=
    DockerSandbox.run_command_float command working_dir (Finite timeout) env s in
  run = DockerSandbox.run_command command working_dir timeout env s
  /\ DockerSandbox.calls (snd run)
     = DockerSandbox.calls s
         ++ [ DockerSandbox.ExecRun
                ("timeout " +:+ PyStr.str_int (int timeout) +:+ " /bin/bash -c "
                   +:+ Shlex.quote command)
                working_dir env (add_int timeout 5) ]
  /\ (forall q : Q,
        timeout = Float q -> (0 < q)%Q -> (q < 1)%Q ->
        DockerSandbox.calls (snd run)
        = DockerSandbox.calls s
            ++ [ DockerSandbox.ExecRun
                   ("timeout 0 /bin/bash -c " +:+ Shlex.quote command)
                   working_dir env (Float (float_add q (inject_Z 5))) ]).
Proof.
  intros Hs run.
  destruct (DockerSandbox._container s) as [c0|] eqn:Hc; [|contradiction].
  assert (Hrun : run
                 = DockerSandbox.run_command command working_dir timeout env s).
  { unfold run, DockerSandbox.run_command_float, bind, get. now rewrite Hc. }
  assert (Hcalls : DockerSandbox.calls (snd run)
    = DockerSandbox.calls s
        ++ [ DockerSandbox.ExecRun
               ("timeout " +:+ PyStr.str_int (int timeout) +:+ " /bin/bash -c "
                  +:+ Shlex.quote command)
               working_dir env (add_int timeout 5) ]).
  { rewrite Hrun. now rewrite (docker_run_command_started s c0) by assumption. }
  split; [exact Hrun|]. split; [exact Hcalls|].
  intros q -> Hpos Hlt1.
  assert (Hint : int (Float q) = 0).
  { simpl. apply Z.quot_small. unfold Qlt in *. simpl in *. lia. }
  rewrite Hcalls, Hint. reflexivity.
Qed.

(** C6 (amended).  On either backend, while the instance handle is unset,
    [run_command], [read_file] and [write_file] raise
    [RuntimeError("Sandbox not started")] and do nothing else.  The handle
    is unset on a newly constructed instance and after a [cleanup] that
    returned. *)
Theorem operations_need_instance_handle
    (command working_dir : string) (timeout : number)
    (env : option (gmap string string)) (path content : string) :
  (forall s : DockerSandbox.t,
     DockerSandbox._container s = None ->
     DockerSandbox.run_command command working_dir timeout env s
     = (Raise (RuntimeError "Sandbox not started"), s)
     /\ DockerSandbox.read_file path s
        = (Raise (RuntimeError "Sandbox not started"), s)
     /\ DockerSandbox.write_file path content s
        = (Raise (RuntimeError "Sandbox not started"), s))
  /\ (forall s : DaytonaSandbox.t,
        DaytonaSandbox._sandbox s = None ->
        DaytonaSandbox.run_command command working_dir timeout env s
        = (Raise (RuntimeError "Sandbox not started"), s)
        /\ DaytonaSandbox.read_file path s
           = (Raise (RuntimeError "Sandbox not started"), s)
        /\ DaytonaSandbox.write_file path content s
           = (Raise (RuntimeError "Sandbox not started"), s))
  /\ (forall uuid8 image memory_limit cpu_limit network_enabled work_dir
             container_name auto_remove environment volumes,
        DockerSandbox._container
          (DockerSandbox.init uuid8 image memory_limit cpu_limit
             network_enabled work_dir container_name auto_remove environment
             volumes) = None)
  /\ (forall api_key server_url target image cpu memory disk auto_stop_interval,
        DaytonaSandbox._sandbox
          (DaytonaSandbox.init api_key server_url target image cpu memory disk
             auto_stop_interval) = None)
  /\ (forall s s' : DockerSandbox.t,
        DockerSandbox.cleanup s = (Return tt, s') ->
        DockerSandbox._container s' = None)
  /\ (forall s s' : DaytonaSandbox.t,
        DaytonaSandbox.cleanup s = (Return tt, s') ->
        DaytonaSandbox._sandbox s' = None).
Proof.
  split; [|split; [|split; [|split; [|split]]]].
  - intros s Hs. now apply docker_not_started.
  - intros s Hs. now apply daytona_not_started.
  - reflexivity.
  - reflexivity.
  - apply docker_cleanup_clears.
  - apply daytona_cleanup_clears.
Qed.

(** C7.  On either backend, after a [cleanup] that returned, a second
    [cleanup] returns at once and leaves the object as it is: the handle
    is already cleared and no call reaches the engine or the API. *)
Theorem cleanup_twice_is_noop :
  (forall s s' : DockerSandbox.t,
     DockerSandbox.cleanup s = (Return tt, s') ->
     DockerSandbox._container s' = None
     /\ DockerSandbox.cleanup s' = (Return tt, s')
     /\ DockerSandbox.calls (snd (DockerSandbox.cleanup s'))
        = DockerSandbox.calls s')
  /\ (forall s s' : DaytonaSandbox.t,
        DaytonaSandbox.cleanup s = (Return tt, s') ->
        DaytonaSandbox._sandbox s' = None
        /\ DaytonaSandbox.cleanup s' = (Return tt, s')
        /\ DaytonaSandbox.calls (snd (DaytonaSandbox.cleanup s'))
           = DaytonaSandbox.calls s').
Proof.
  split; intros s s' Hclean.
  - apply docker_cleanup_clears in Hclean.
    rewrite (docker_cleanup_without_container s' Hclean). auto.
  - apply daytona_cleanup_clears in Hclean.
    rewrite (daytona_cleanup_without_sandbox s' Hclean). auto.
Qed.

End BackendClaims.

(** ** The backend claims on concrete engines *)

Section BackendExamples.
Import Py Base Fixtures.

(** C3, as stated, fails on the Docker backend for a fractional timeout:
    with a timeout of 2.5 seconds and exit code 124, stderr reports 2
    seconds, not the configured 2.5. *)
Lemma docker_timeout_message_truncates_timeout :
  fst (@DockerSandbox.run_command sample_runtime (docker_exec exec_124)
         "sleep 10" "/workspace" (Float (5 # 2)) None docker_started)
  = Return {| exit_code := -1; stdout := "";
              stderr := "Command timed out after 2 seconds" |}
  /\ @str sample_runtime (Float (5 # 2)) = "2.5"
  /\ PyStr.contains "2.5" "Command timed out after 2 seconds" = false.
Proof. repeat split. Qed.

Lemma run_command_timeout_is_a_result_witness :
  fst (@DockerSandbox.run_command sample_runtime (docker_exec (Raise TimeoutError))
         "sleep 10" "/workspace" (Int 2) None docker_started)
  = Return {| exit_code := -1; stdout := "";
              stderr := "Command timed out after 2 seconds" |}
  /\ fst (@DockerSandbox.run_command sample_runtime (docker_exec exec_124)
            "sleep 10" "/workspace" (Int 2) None docker_started)
     = Return {| exit_code := -1; stdout := "";
                 stderr := "Command timed out after 2 seconds" |}
  /\ fst (@DaytonaSandbox.run_command sample_runtime
            (daytona_exec (Raise TimeoutError))
            "sleep 10" "/workspace" (Int 2) None daytona_started)
     = Return {| exit_code := -1; stdout := "";
                 stderr := "Command timed out after 2 seconds" |}.
Proof.
  split; [|split].
  - apply (proj1 (proj1 (@run_command_timeout_is_a_result sample_runtime
             (docker_exec (Raise TimeoutError)) (daytona_exec (Raise TimeoutError))
             "sleep 10" "/workspace" (Int 2) None)
             docker_started ltac:(simpl; discriminate))).
    reflexivity.
  - apply (proj2 (proj1 (@run_command_timeout_is_a_result sample_runtime
             (docker_exec exec_124) (daytona_exec (Raise TimeoutError))
             "sleep 10" "/workspace" (Int 2) None)
             docker_started ltac:(simpl; discriminate))
             {| DockerSandbox.er_exit_code := 124;
                DockerSandbox.er_stdout := None;
                DockerSandbox.er_stderr := None |});
      reflexivity.
  - apply (proj1 (proj2 (@run_command_timeout_is_a_result sample_runtime
             (docker_exec exec_124) (daytona_exec (Raise TimeoutError))
             "sleep 10" "/workspace" (Int 2) None))
             daytona_started ltac:(simpl; discriminate)).
    reflexivity.
Defined.

(** C4, as stated, fails on both backends: when the engine or the API
    raises, [run_command] returns a result with exit code [-1] and the
    error text in stderr; nothing is raised to the caller. *)
Lemma dispatch_failure_does_not_raise :
  fst (@DockerSandbox.run_command sample_runtime
         (docker_exec (Raise (OtherException "engine unreachable")))
         "ls" "/workspace" (Int 120) None docker_started)
  = Return {| exit_code := -1; stdout := ""; stderr := "engine unreachable" |}
  /\ fst (@DaytonaSandbox.run_command sample_runtime
            (daytona_exec (Raise (OtherException "Command failed")))
            "invalid_command" "/workspace" (Int 120) None daytona_started)
     = Return {| exit_code := -1; stdout := ""; stderr := "Command failed" |}.
Proof. split; reflexivity. Qed.

Lemma run_command_dispatch_failure_is_a_result_witness :
  fst (@DockerSandbox.run_command sample_runtime
         (docker_exec (Raise (ContainerError 125 "cannot exec")))
         "ls" "/workspace" (Int 120) None docker_started)
  = Return {| exit_code := 125; stdout := ""; stderr := "cannot exec" |}.
Proof.
  apply (proj1 (proj1 (@run_command_dispatch_failure_is_a_result sample_runtime
           (docker_exec (Raise (ContainerError 125 "cannot exec")))
           (daytona_exec (Raise (ContainerError 125 "cannot exec")))
           "ls" "/workspace" (Int 120) None (ContainerError 125 "cannot exec")
           ltac:(reflexivity) ltac:(discriminate))
           docker_started ltac:(simpl; discriminate))).
  reflexivity.
Defined.

(** C9, as stated, fails for a timeout that is not finite: with
    [float("inf")] the call raises [OverflowError] at [int(timeout)], and
    no command is executed in the container. *)
Lemma nonfinite_timeout_executes_nothing :
  @DockerSandbox.run_command_float sample_runtime docker_ok
    "sleep 10" "/workspace" (Infinity false) None docker_started
  = (Raise (OverflowError "cannot convert float infinity to integer"),
     docker_started).
Proof. reflexivity. Qed.

(** With a timeout of [0.1] the wrapper is [timeout 0], and the wait is
    the double [0.1 + 5], which is not the exact sum. *)
Lemma docker_run_command_wraps_with_timeout_witness :
  DockerSandbox.calls
    (snd (@DockerSandbox.run_command_float sample_runtime docker_ok
            "sleep 10" "/workspace" (Finite (Float Doubles.tenth)) None
            docker_started))
  = [ DockerSandbox.ExecRun "timeout 0 /bin/bash -c 'sleep 10'" "/workspace"
        None (Float (2871044762448691 # 562949953421312)) ]
  /\ ~ (2871044762448691 # 562949953421312 == Doubles.tenth + 5)%Q.
Proof.
  pose proof (@docker_run_command_wraps_with_timeout sample_runtime docker_ok
                docker_started "sleep 10" "/workspace" (Float Doubles.tenth)
                None ltac:(simpl; discriminate)) as (_ & _ & Hfraction).
  specialize (Hfraction Doubles.tenth eq_refl ltac:(reflexivity)
                ltac:(reflexivity)).
  split.
  - rewrite Hfraction. vm_compute. reflexivity.
  - vm_compute. discriminate.
Defined.

(** The figures the container is created with are the interpreter's:
    with a CPU limit of [0.3] the product [0.3 * 1e9] is the double
    [300000000.0], although [0.3] itself lies below three tenths. *)
Example nano_cpus_of_three_tenths :
  int (Float (@float_mul sample_runtime (5404319552844595 # 18014398509481984)
                (inject_Z (10 ^ 9))))
  = 300000000
  /\ int (Float ((5404319552844595 # 18014398509481984) * inject_Z (10 ^ 9)))
     = 299999999.
Proof. split; vm_compute; reflexivity. Qed.

(** C6, as stated, fails on the Docker backend: when [start] fails after
    the container was created (here the engine cannot start it), [start]
    raises, but the handle stays set, and a later [run_command] returns a
    result and [read_file] raises [FileNotFoundError]; neither raises the
    not-started error. *)
Lemma failed_start_leaves_handle_set :
  let after := @DockerSandbox.start sample_runtime docker_no_start docker_fresh in
  fst after = Raise (OtherException "OCI runtime create failed")
  /\ DockerSandbox._container (snd after)
     = Some (DockerSandbox.container "sandbox_0a1b2c3d")
  /\ fst (@DockerSandbox.run_command sample_runtime docker_no_start
            "echo hello" "/workspace" (Int 120) None (snd after))
     = Return {| exit_code := -1; stdout := "";
                 stderr := "container is not running" |}
  /\ fst (@DockerSandbox.read_file docker_no_start "/workspace/a.txt" (snd after))
     = Raise (FileNotFoundError "File not found: /workspace/a.txt").
Proof. repeat split. Qed.

Lemma operations_need_instance_handle_witness :
  @DockerSandbox.run_command sample_runtime docker_ok
    "echo hello" "/workspace" (Int 120) None docker_fresh
  = (Raise (RuntimeError "Sandbox not started"), docker_fresh)
  /\ @DaytonaSandbox.run_command sample_runtime (daytona_exec (Raise TimeoutError))
       "echo hello" "/workspace" (Int 120) None daytona_fresh
     = (Raise (RuntimeError "Sandbox not started"), daytona_fresh).
Proof.
  split.
  - apply (proj1 (@operations_need_instance_handle sample_runtime docker_ok
             (daytona_exec (Raise TimeoutError))
             "echo hello" "/workspace" (Int 120) None "" "")
             docker_fresh eq_refl).
  - apply (proj1 (proj2 (@operations_need_instance_handle sample_runtime docker_ok
             (daytona_exec (Raise TimeoutError))
             "echo hello" "/workspace" (Int 120) None "" ""))
             daytona_fresh eq_refl).
Defined.

Lemma cleanup_twice_is_noop_witness :
  let once := @DockerSandbox.cleanup docker_ok docker_started in
  fst once = Return tt
  /\ @DockerSandbox.cleanup docker_ok (snd once) = (Return tt, snd once)
  /\ DockerSandbox.calls (snd once)
     = [DockerSandbox.ContainerRemove true; DockerSandbox.ClientClose].
Proof.
  intros once. split; [reflexivity|]. split; [|reflexivity].
  apply (proj1 (@cleanup_twice_is_noop docker_ok
                  (daytona_exec (Raise TimeoutError)))
               docker_started (snd once) eq_refl).
Defined.

End BackendExamples.

(** ** Scenarios of the test suite, replayed on the model *)

Section TestSuite.
Import Py Base Fixtures.

(** [test_truncate_long_text]. *)
Example test_truncate_long_text :
  let result := Common.truncate_output A100 20 in
  PyStr.len result < 100
  /\ PyStr.contains "truncated" result = true
  /\ PyStr.contains "100 total chars" result = true.
Proof. repeat split. Qed.

(** [test_read_file_success]. *)
Example test_read_file_success :
  let sandbox :=
    mock_sandbox {| mock_read_file := Return "File content here";
                    mock_write_file := Return tt;
                    mock_run_command := mock_run_command mock_default |} in
  fst (@FileOps.read_file _ sandbox executor "/workspace/test.txt" tt)
  = Return [ ("status", VStr "success");
             ("content", VStr "File content here");
             ("path", VStr "/workspace/test.txt") ].
Proof. reflexivity. Qed.

(** [test_read_file_not_found] and [test_read_file_other_error]. *)
Example test_read_file_errors :
  let failing e :=
    mock_sandbox {| mock_read_file := Raise e;
                    mock_write_file := Return tt;
                    mock_run_command := mock_run_command mock_default |} in
  fst (@FileOps.read_file _ (failing (FileNotFoundError "No such file"))
         executor "/workspace/nonexistent.txt" tt)
  = Return [ ("status", VStr "error");
             ("error", VStr "File not found: /workspace/nonexistent.txt") ]
  /\ fst (@FileOps.read_file _ (failing (OtherException "Access denied"))
            executor "/workspace/protected.txt" tt)
     = Return [ ("status", VStr "error"); ("error", VStr "Access denied") ].
Proof. split; reflexivity. Qed.

(** [test_read_file_path_traversal_blocked] and
    [test_write_file_path_traversal_blocked]. *)
Example test_path_traversal_blocked :
  let message :=
    "Path '/etc/passwd' is outside allowed directories. Allowed: ['/workspace']" in
  fst (@FileOps.read_file _ (mock_sandbox mock_default) executor "/etc/passwd" tt)
  = Return [ ("status", VStr "error"); ("error", VStr message) ]
  /\ fst (@FileOps.write_file _ (mock_sandbox mock_default) executor
            "/etc/passwd" "content" tt)
     = Return [ ("status", VStr "error"); ("error", VStr message) ]
  /\ PyStr.contains "outside allowed directories" message = true.
Proof. repeat split. Qed.

(** [test_write_file_success]. *)
Example test_write_file_success :
  fst (@FileOps.write_file _ (mock_sandbox mock_default) executor
         "/workspace/output.txt" "Hello World" tt)
  = Return [ ("status", VStr "success");
             ("path", VStr "/workspace/output.txt");
             ("size", VInt 11) ].
Proof. reflexivity. Qed.

(** [test_cleanup] of the Daytona tests: one [delete], and the handle is
    cleared. *)
Example test_daytona_cleanup :
  let after :=
    snd (@DaytonaSandbox.cleanup (daytona_exec (Raise TimeoutError))
           daytona_started) in
  DaytonaSandbox.calls after = [DaytonaSandbox.Delete]
  /\ DaytonaSandbox._sandbox after = None.
Proof. split; reflexivity. Qed.

(** [test_timeout] of the Docker integration tests: the command does not
    succeed. *)
Example test_docker_timeout :
  match fst (@DockerSandbox.run_command sample_runtime (docker_exec exec_124)
               "sleep 10" "/workspace" (Int 2) None docker_started) with
  | Return result => success result = false
  | Raise _ => False
  end.
Proof. reflexivity. Qed.

End TestSuite.

(** * Further properties of the tool layer *)

(** ** Output truncation *)

Lemma marker_len n :
  PyStr.len (Common.marker n) = 30 + PyStr.len (PyStr.str_int n).
Proof.
  unfold Common.marker, PyStr.len. rewrite append_cons.
  simpl String.length. rewrite !length_append. simpl String.length. lia.
Qed.

Lemma take_min n s :
  PyStr.take (Nat.min n (String.length s)) s = PyStr.take n s.
Proof.
  revert s. induction n as [|n IH]; intros [|x s]; simpl; try reflexivity.
  now rewrite IH.
Qed.

(** Whatever the text, the output of [truncate_output] for a non-negative
    limit is at most [max_chars] characters longer than the marker (30
    characters and the digits of the original length), and it starts with
    the same [min(max_chars, len(text))] characters as the text. *)
Theorem truncate_output_bounded (text : string) (max_chars : Z) :
  0 <= max_chars ->
  let out := Common.truncate_output text max_chars in
  PyStr.len out <= max_chars + 30 + PyStr.len (PyStr.str_int (PyStr.len text))
  /\ PyStr.take (Z.to_nat max_chars) out = PyStr.take (Z.to_nat max_chars) text.
Proof.
  intros Hmax out. unfold out.
  pose proof (len_nonneg (PyStr.str_int (PyStr.len text))) as Hd.
  destruct (Z_le_gt_dec (PyStr.len text) max_chars) as [Hle|Hgt].
  - rewrite truncate_output_le by assumption. split; [lia|reflexivity].
  - rewrite truncate_output_gt by assumption.
    rewrite len_append, marker_len, len_slice_to by lia.
    split; [lia|].
    rewrite slice_to_nonneg by assumption.
    rewrite take_append.
    + apply take_take.
    + rewrite length_take. unfold PyStr.len in Hgt. lia.
Qed.

Lemma truncate_output_bounded_witness :
  PyStr.len (Common.truncate_output Fixtures.A100 20) <= 20 + 30 + 3.
Proof.
  apply (proj1 (truncate_output_bounded Fixtures.A100 20 ltac:(lia))).
Defined.

(** ** Path validation: which paths pass, and what comes back *)

Section PathValidation.
Import PosixPath.

Local Abbreviation cleanly := (fun c : string => clean c = true).
Local Abbreviation not_dotdot := (fun c : string => c <> "..").

Lemma startswith_inv a s :
  PyStr.startswith a s = true -> exists rest, s = a +:+ rest.
Proof.
  revert s. induction a as [|x a IH]; intros s Hs.
  - now exists s.
  - destruct s as [|y s]; [discriminate|]. simpl in Hs.
    destruct (Ascii.eqb x y) eqn:Exy; [|discriminate].
    apply Ascii.eqb_eq in Exy. subst y.
    destruct (IH s Hs) as [rest ->]. now exists rest.
Qed.

Lemma split_nonempty sep s : PyStr.split sep s <> [].
Proof.
  destruct s as [|x s]; simpl; [discriminate|].
  destruct (Ascii.eqb x sep); [discriminate|].
  now destruct (PyStr.split sep s).
Qed.

Lemma within_allowed_below (x : string) (xs : list string) :
  FileOps.within_allowed {| root := "/"; parts := "workspace" :: x :: xs |} = true.
Proof.
  unfold FileOps.within_allowed, FileOps.ALLOWED_BASE_PATHS.
  replace (parse "/workspace") with {| root := "/"; parts := ["workspace"] |}
    by reflexivity.
  simpl existsb. rewrite orb_false_r.
  apply existsb_exists. exists {| root := "/"; parts := ["workspace"] |}.
  split; [|now apply bool_decide_eq_true].
  unfold parents. apply in_map_iff. exists 1%nat. split; [reflexivity|].
  apply List.in_rev. rewrite List.rev_involutive. apply in_seq. simpl. lia.
Qed.

(** A normalized path that reads [/workspace], or starts with
    [/workspace/], passes the component-wise test. *)
Lemma within_allowed_of_text p :
  normpath p = "/workspace"
  \/ PyStr.startswith "/workspace/" (normpath p) = true ->
  FileOps.within_allowed (parse (normpath p)) = true
  /\ PyStr.startswith "/" p = true.
Proof.
  intros Htext.
  assert (Hslash : PyStr.startswith "/" (normpath p) = true).
  { destruct Htext as [-> | H]; [reflexivity|].
    apply startswith_inv in H as [rest ->]. reflexivity. }
  assert (Hone : PyStr.startswith "//" (normpath p) = false).
  { destruct Htext as [-> | H]; [reflexivity|].
    apply startswith_inv in H as [rest ->]. reflexivity. }
  destruct (normpath_shape p)
    as [[E _]|[(comps & _ & Hc & E & _)|(r & comps & Hr & Hc & E & Hs)]].
  - rewrite E in Hslash. discriminate.
  - rewrite E, join_clean_head in Hslash by assumption. discriminate.
  - split; [|assumption].
    destruct Hr as [-> | ->]; [|rewrite E in Hone; discriminate].
    rewrite E, parse_rooted by auto.
    assert (Hsl : Forall (fun c => no_slash c = true) comps).
    { eapply Forall_impl; [exact Hc|]. apply clean_slashless. }
    rewrite E in Htext. change ("/" +:+ PyStr.join "/" comps)
      with (String "/" (PyStr.join "/" comps)) in Htext.
    destruct Htext as [Hj | Hj].
    + injection Hj as Hj.
      destruct comps as [|c cs]; [discriminate|].
      pose proof (split_join (c :: cs) ltac:(discriminate) Hsl) as Hsp.
      rewrite Hj in Hsp. simpl in Hsp. rewrite <- Hsp. reflexivity.
    + change (PyStr.startswith "/workspace/" (String "/" (PyStr.join "/" comps)))
        with (PyStr.startswith "workspace/" (PyStr.join "/" comps)) in Hj.
      apply startswith_inv in Hj as [rest Hj].
      destruct comps as [|c cs]; [discriminate|].
      pose proof (split_join (c :: cs) ltac:(discriminate) Hsl) as Hsp.
      rewrite Hj in Hsp.
      change ("workspace/" +:+ rest) with ("workspace" +:+ "/" +:+ rest) in Hsp.
      rewrite split_app_sep in Hsp by reflexivity.
      rewrite <- Hsp.
      destruct (PyStr.split "/" rest) as [|x xs] eqn:Er.
      * now apply split_nonempty in Er.
      * apply within_allowed_below.
Qed.

(** A path whose normalization reads as one under [/workspace] passes. *)
Lemma validate_path_of_text (p : string) :
  normpath p = "/workspace"
  \/ PyStr.startswith "/workspace/" (normpath p) = true ->
  FileOps._validate_path p = Py.Return (normpath p).
Proof.
  intros Htext. apply within_allowed_of_text in Htext as [Hw Habs].
  unfold FileOps._validate_path.
  rewrite Hw. rewrite is_absolute_normpath, Habs. simpl.
  rewrite as_posix_parse_normpath; [reflexivity|].
  now rewrite is_absolute_normpath.
Qed.

(** [_validate_path] lets a path through exactly when its normalization
    reads [/workspace] or starts with [/workspace/], and what it returns
    is that normalization. *)
Theorem validate_path_exact (p : string) :
  (normpath p = "/workspace"
   \/ PyStr.startswith "/workspace/" (normpath p) = true
   <-> FileOps._validate_path p = Py.Return (normpath p))
  /\ (forall q, FileOps._validate_path p = Py.Return q -> q = normpath p).
Proof.
  split; [split|].
  - apply validate_path_of_text.
  - intros Hv. apply validate_path_accepts in Hv as [_ Hq]. exact Hq.
  - intros q Hv. now apply validate_path_accepts in Hv as [Hq _].
Qed.

End PathValidation.

Lemma validate_path_exact_witness :
  FileOps._validate_path "/workspace/a/../b" = Py.Return "/workspace/b".
Proof.
  apply (proj1 (proj1 (validate_path_exact "/workspace/a/../b"))).
  right. reflexivity.
Defined.

Section NormpathAgain.
Import PosixPath.

Local Abbreviation cleanly := (fun c : string => clean c = true).
Local Abbreviation not_dotdot := (fun c : string => c <> "..").

Lemma last_in {A} (l : list A) (d : A) : l <> [] -> In (List.last l d) l.
Proof.
  induction l as [|x l IH]; [congruence|]. intros _.
  destruct l as [|y l]; [now left|].
  right. apply IH. discriminate.
Qed.

(** With a leading slash, the loop of [normpath] never keeps a [..]. *)
Lemma norm_step_no_dotdot i acc comp :
  i <> 0%nat -> Forall not_dotdot acc -> Forall not_dotdot (norm_step i acc comp).
Proof.
  intros Hi Hacc. unfold norm_step.
  destruct (String.eqb comp "" || String.eqb comp "."); [assumption|].
  destruct (String.eqb comp "..") eqn:Ed; simpl.
  - destruct (Nat.eqb_spec i 0); [contradiction|]. simpl.
    destruct (bool_decide (acc = [])) eqn:Ea; simpl.
    + now apply Forall_removelast.
    + destruct (String.eqb (List.last acc "") "..") eqn:El.
      * exfalso. apply String.eqb_eq in El.
        apply bool_decide_eq_false in Ea.
        pose proof (last_in acc "" Ea) as Hin.
        rewrite List.Forall_forall in Hacc. now apply (Hacc _ Hin).
      * now apply Forall_removelast.
  - apply Forall_app. split; [assumption|]. constructor; [|constructor].
    now apply String.eqb_neq.
Qed.

Lemma norm_loop_no_dotdot i comps acc :
  i <> 0%nat -> Forall not_dotdot acc ->
  Forall not_dotdot (fold_left (norm_step i) comps acc).
Proof.
  intros Hi. revert acc. induction comps as [|c comps IH]; intros acc Hacc; simpl.
  - assumption.
  - apply IH. now apply norm_step_no_dotdot.
Qed.

(** On components that are already clean and hold no [..], the loop only
    appends. *)
Lemma norm_loop_append i comps acc :
  Forall cleanly comps -> Forall not_dotdot comps ->
  fold_left (norm_step i) comps acc = acc ++ comps.
Proof.
  revert acc. induction comps as [|c comps IH]; intros acc Hc Hd; simpl.
  - now rewrite app_nil_r.
  - inversion Hc as [|? ? Hc1 Hc2]; inversion Hd as [|? ? Hd1 Hd2]; subst.
    rewrite IH by assumption.
    replace (norm_step i acc c) with (acc ++ [c]).
    + now rewrite <- app_assoc.
    + unfold norm_step. unfold clean in Hc1.
      apply andb_prop in Hc1 as [Hc1 _]. apply andb_prop in Hc1 as [Ht Hdot].
      destruct c as [|x c]; [discriminate|].
      apply negb_true_iff in Hdot. rewrite Hdot.
      apply String.eqb_neq in Hd1. rewrite Hd1. reflexivity.
Qed.

Lemma norm_step_skip_empty i acc : norm_step i acc "" = acc.
Proof. reflexivity. Qed.

(** A root followed by clean components without [..] is its own
    normalization. *)
Lemma normpath_of_normal r comps :
  r = "/" \/ r = "//" -> Forall cleanly comps -> Forall not_dotdot comps ->
  normpath (r +:+ PyStr.join "/" comps) = r +:+ PyStr.join "/" comps.
Proof.
  intros Hr Hc Hd. pose proof (join_clean_head comps Hc) as Hj.
  assert (Hsl : Forall (fun c => no_slash c = true) comps).
  { eapply Forall_impl; [exact Hc|]. apply clean_slashless. }
  assert (Hloop : forall i,
    PyStr.join "/" (fold_left (norm_step i)
                      (PyStr.split "/" (PyStr.join "/" comps)) [])
    = PyStr.join "/" comps).
  { intros i. destruct comps as [|c cs]; [reflexivity|].
    rewrite split_join by (assumption || discriminate).
    now rewrite norm_loop_append. }
  unfold normpath.
  destruct Hr as [-> | ->].
  - change ("/" +:+ PyStr.join "/" comps) with (String "/" (PyStr.join "/" comps)).
    change (PyStr.startswith "/" (String "/" (PyStr.join "/" comps))) with true.
    change (PyStr.startswith "//" (String "/" (PyStr.join "/" comps)))
      with (PyStr.startswith "/" (PyStr.join "/" comps)).
    rewrite Hj.
    change (PyStr.split "/" (String "/" (PyStr.join "/" comps)))
      with ("" :: PyStr.split "/" (PyStr.join "/" comps)).
    cbn [String.eqb andb fold_left]. rewrite norm_step_skip_empty, Hloop.
    reflexivity.
  - change ("//" +:+ PyStr.join "/" comps)
      with (String "/" (String "/" (PyStr.join "/" comps))).
    change (PyStr.startswith "/" (String "/" (String "/" (PyStr.join "/" comps))))
      with true.
    change (PyStr.startswith "//" (String "/" (String "/" (PyStr.join "/" comps))))
      with true.
    change (PyStr.startswith "///" (String "/" (String "/" (PyStr.join "/" comps))))
      with (PyStr.startswith "/" (PyStr.join "/" comps)).
    rewrite Hj.
    change (PyStr.split "/" (String "/" (String "/" (PyStr.join "/" comps))))
      with ("" :: "" :: PyStr.split "/" (PyStr.join "/" comps)).
    cbn [String.eqb andb negb fold_left]. rewrite !norm_step_skip_empty, Hloop.
    reflexivity.
Qed.

(** [normpath] is idempotent on absolute paths. *)
Lemma normpath_idempotent_absolute p :
  PyStr.startswith "/" p = true -> normpath (normpath p) = normpath p.
Proof.
  intros Habs.
  assert (Hshape : exists r comps,
    (r = "/" \/ r = "//") /\ Forall cleanly comps /\ Forall not_dotdot comps
    /\ normpath p = r +:+ PyStr.join "/" comps).
  { unfold normpath. destruct (String.eqb p "") eqn:Ep.
    { apply String.eqb_eq in Ep. subst. discriminate. }
    rewrite Habs.
    destruct (PyStr.startswith "//" p && negb (PyStr.startswith "///" p));
      match goal with
      | |- context [fold_left (norm_step ?i) ?cs []] =>
          pose proof (norm_loop_clean i cs [] (List.Forall_nil _)
                        (split_components p)) as Hclean;
          pose proof (norm_loop_no_dotdot i cs [] ltac:(discriminate)
                        (List.Forall_nil _)) as Hnd;
          set (comps := fold_left (norm_step i) cs []) in *
      end.
    - exists "//", comps. repeat split; auto.
    - exists "/", comps. repeat split; auto. }
  destruct Hshape as (r & comps & Hr & Hc & Hd & E).
  rewrite E. now apply normpath_of_normal.
Qed.

(** A validated path is valid, and validating it again changes nothing. *)
Theorem validate_path_stable (p q : string) :
  FileOps._validate_path p = Py.Return q ->
  FileOps._validate_path q = Py.Return q.
Proof.
  intros Hv. pose proof Hv as Hq.
  apply validate_path_accepts in Hq as [Hq Htext].
  assert (Habs : PyStr.startswith "/" p = true).
  { unfold FileOps._validate_path in Hv.
    rewrite is_absolute_normpath in Hv.
    now destruct (PyStr.startswith "/" p). }
  assert (Hn : normpath q = q).
  { subst q. now apply normpath_idempotent_absolute. }
  pose proof (validate_path_of_text q) as Hex.
  rewrite Hn in Hex. now apply Hex.
Qed.

End NormpathAgain.

Lemma validate_path_stable_witness :
  FileOps._validate_path "/workspace/b" = Py.Return "/workspace/b".
Proof.
  apply (validate_path_stable "/workspace//a/../b/." "/workspace/b").
  reflexivity.
Defined.

(** ** The file tools as a whole *)

Section FileToolsMore.
Import Py.
Context {St : Type} `{Base.BaseSandbox St}.

(** Whatever the path and whatever the sandbox does, each file tool
    reaches the sandbox at most once, and only with the normalized path,
    which is [/workspace] or starts with [/workspace/]. *)
Theorem file_tools_reach_workspace_only
    (executor : Executor.SandboxToolExecutor) (p content : string)
    (s : Spy.spied St) :
  let after_read := snd (@FileOps.read_file _ Spy.sandbox executor p s) in
  let after_write :=
    snd (@FileOps.write_file _ Spy.sandbox executor p content s) in
  let inside q :=
    q = PosixPath.normpath p
    /\ (q = "/workspace" \/ PyStr.startswith "/workspace/" q = true) in
  (Spy.seen after_read = Spy.seen s
   \/ exists q, Spy.seen after_read = Spy.seen s ++ [Spy.ReadFile q] /\ inside q)
  /\ (Spy.seen after_write = Spy.seen s
      \/ exists q, Spy.seen after_write = Spy.seen s ++ [Spy.WriteFile q content]
                   /\ inside q).
Proof.
  intros after_read after_write inside. split.
  - destruct (FileOps._validate_path p) as [q|e] eqn:Hv.
    + right. exists q. split; [|now apply validate_path_accepts].
      unfold after_read, FileOps.read_file, try_except, bind, FileOps.lift, ret.
      rewrite Hv. simpl. unfold Spy.recording.
      destruct (Base.read_file q (Spy.inner s)) as [[c|e] s1]; simpl;
        [reflexivity|]. destruct e; reflexivity.
    + left.
      unfold after_read, FileOps.read_file, try_except, bind, FileOps.lift, ret.
      rewrite Hv. destruct e; reflexivity.
  - destruct (FileOps._validate_path p) as [q|e] eqn:Hv.
    + right. exists q. split; [|now apply validate_path_accepts].
      unfold after_write, FileOps.write_file, try_except, bind, FileOps.lift, ret.
      rewrite Hv. simpl. unfold Spy.recording.
      destruct (Base.write_file q content (Spy.inner s)) as [[[]|e] s1]; simpl;
        [reflexivity|]. destruct e; reflexivity.
    + left.
      unfold after_write, FileOps.write_file, try_except, bind, FileOps.lift, ret.
      rewrite Hv. destruct e; reflexivity.
Qed.

(** The file tools turn every [Exception] into data: [read_file] either
    returns the success dict (the path passed validation and the sandbox
    returned the content, which is truncated) or a dict with status
    [error]; nothing but a cancellation is raised.  The same holds for
    [write_file]. *)
Theorem file_tools_always_answer
    (executor : Executor.SandboxToolExecutor) (p content : string) (s : St) :
  (match fst (FileOps.read_file executor p s) with
   | Return d =>
       (exists q text,
          FileOps._validate_path p = Return q
          /\ fst (Base.read_file q s) = Return text
          /\ d = [ ("status", VStr "success");
                   ("content", VStr (Common.truncate_output text
                                       (Executor.max_output_chars executor)));
                   ("path", VStr q) ])
       \/ (exists msg, d = [ ("status", VStr "error"); ("error", VStr msg) ])
   | Raise e => e = CancelledError
   end)
  /\ (match fst (FileOps.write_file executor p content s) with
      | Return d =>
          (exists q,
             FileOps._validate_path p = Return q
             /\ fst (Base.write_file q content s) = Return tt
             /\ d = [ ("status", VStr "success");
                      ("path", VStr q);
                      ("size", VInt (PyStr.len content)) ])
          \/ (exists msg, d = [ ("status", VStr "error"); ("error", VStr msg) ])
      | Raise e => e = CancelledError
      end).
Proof.
  split.
  - unfold FileOps.read_file, try_except, bind, FileOps.lift, ret.
    destruct (FileOps._validate_path p) as [q|e] eqn:Hv.
    + destruct (Base.read_file q s) as [[text|e] s1] eqn:Hr; simpl.
      * left. exists q, text. rewrite Hr. auto.
      * destruct e; simpl; try reflexivity; right; eauto.
    + destruct e; simpl; try reflexivity; right; eauto.
  - unfold FileOps.write_file, try_except, bind, FileOps.lift, ret.
    destruct (FileOps._validate_path p) as [q|e] eqn:Hv.
    + destruct (Base.write_file q content s) as [[[]|e] s1] eqn:Hr; simpl.
      * left. exists q. rewrite Hr. auto.
      * destruct e; simpl; try reflexivity; right; eauto.
    + destruct e; simpl; try reflexivity; right; eauto.
Qed.

End FileToolsMore.

(** ** Listing the generated files *)

Section StripMore.

Lemma lstrip_length s : (String.length (PyStr.lstrip s) <= String.length s)%nat.
Proof.
  induction s as [|c s IH]; simpl; [lia|].
  destruct (PyStr.isspace c); simpl; lia.
Qed.

Lemma lstrip_idem s : PyStr.lstrip (PyStr.lstrip s) = PyStr.lstrip s.
Proof.
  induction s as [|c s IH]; simpl; [reflexivity|].
  destruct (PyStr.isspace c) eqn:Ec; [assumption|]. simpl. now rewrite Ec.
Qed.

Lemma rstrip_idem s : PyStr.rstrip (PyStr.rstrip s) = PyStr.rstrip s.
Proof.
  induction s as [|c s IH]; simpl; [reflexivity|].
  destruct (PyStr.rstrip s) as [|a r] eqn:Er.
  - destruct (PyStr.isspace c) eqn:Ec; simpl; [reflexivity|]. now rewrite Ec.
  - change (PyStr.rstrip (String c (String a r)))
      with (match PyStr.rstrip (String a r) with
            | EmptyString =>
                if PyStr.isspace c then EmptyString else String c EmptyString
            | t => String c t
            end).
    now rewrite IH.
Qed.

(** Stripping the end of a text without leading space leaves it without
    leading space. *)
Lemma lstrip_rstrip t :
  PyStr.lstrip t = t -> PyStr.lstrip (PyStr.rstrip t) = PyStr.rstrip t.
Proof.
  destruct t as [|c t]; [reflexivity|]. intros Hl.
  assert (Hc : PyStr.isspace c = false).
  { simpl in Hl. destruct (PyStr.isspace c); [|reflexivity].
    pose proof (lstrip_length t) as Hlen. rewrite Hl in Hlen. simpl in Hlen. lia. }
  simpl. destruct (PyStr.rstrip t); rewrite ?Hc; simpl; now rewrite Hc.
Qed.

Lemma strip_fixed s :
  PyStr.lstrip (PyStr.strip s) = PyStr.strip s
  /\ PyStr.rstrip (PyStr.strip s) = PyStr.strip s.
Proof.
  unfold PyStr.strip. split.
  - apply lstrip_rstrip, lstrip_idem.
  - apply rstrip_idem.
Qed.

(** The characters of a text. *)
Local Abbreviation chars := list_ascii_of_string.

Lemma lstrip_chars x s : In x (chars (PyStr.lstrip s)) -> In x (chars s).
Proof.
  induction s as [|c s IH]; simpl; [auto|].
  destruct (PyStr.isspace c); simpl; auto.
Qed.

Lemma rstrip_chars x s : In x (chars (PyStr.rstrip s)) -> In x (chars s).
Proof.
  induction s as [|c s IH]; simpl; [auto|].
  destruct (PyStr.rstrip s) as [|a r].
  - destruct (PyStr.isspace c); simpl; [contradiction|]. intros [?|[]]. now left.
  - simpl. intros [?|Hin]; [now left|]. right. now apply IH.
Qed.

Lemma strip_chars x s : In x (chars (PyStr.strip s)) -> In x (chars s).
Proof. intros Hin. now apply lstrip_chars, rstrip_chars. Qed.

Lemma split_no_separator sep s :
  Forall (fun w => ~ In sep (chars w)) (PyStr.split sep s).
Proof.
  induction s as [|c s IH]; simpl.
  - constructor; [|constructor]. simpl. tauto.
  - destruct (Ascii.eqb c sep) eqn:Ec.
    + constructor; [|assumption]. simpl. tauto.
    + apply Ascii.eqb_neq in Ec. destruct (PyStr.split sep s) as [|w ws].
      * constructor; [|constructor]. simpl. intros [?|[]]. congruence.
      * inversion IH; subst. constructor; [|assumption].
        simpl. intros [?|?]; [congruence|contradiction].
Qed.

End StripMore.

Section GeneratedFiles.
Import Py Base.
Context {St : Type} `{BaseSandbox St}.

(** One request, and nothing raised but a cancellation. *)
Lemma list_generated_files_trace
    (executor : Executor.SandboxToolExecutor) (s : Spy.spied St) :
  let run := @ExecutorFiles.list_generated_files _ Spy.sandbox executor s in
  Spy.seen (snd run)
  = Spy.seen s ++ [ Spy.RunCommand "ls -1 /workspace/output" "/workspace"
                      (Executor.default_timeout executor) None ]
  /\ (forall e, fst run = Raise e -> e = CancelledError).
Proof.
  intros run.
  unfold run, ExecutorFiles.list_generated_files, try_except, bind, ret.
  simpl. unfold Spy.recording.
  destruct (Base.run_command _ _ _ _ (Spy.inner s)) as [[r|e] s1]; simpl.
  - destruct (success r); simpl; split; auto; discriminate.
  - destruct e; simpl; split; auto; try discriminate.
    now intros e [= <-].
Qed.

(** [list_generated_files] asks the sandbox once, for
    [ls -1 /workspace/output] under the executor's default timeout.  It
    raises nothing but a cancellation.  Every entry it returns is
    [/workspace/output/] followed by a name that is not empty, holds no
    line break and has no space at either end; and it returns the empty
    list when the command did not succeed or could not be run. *)
Theorem list_generated_files_answer
    (executor : Executor.SandboxToolExecutor) (s : Spy.spied St) :
  let run := @ExecutorFiles.list_generated_files _ Spy.sandbox executor s in
  let asked :=
    Base.run_command "ls -1 /workspace/output" "/workspace"
      (Executor.default_timeout executor) None (Spy.inner s) in
  Spy.seen (snd run)
  = Spy.seen s ++ [ Spy.RunCommand "ls -1 /workspace/output" "/workspace"
                      (Executor.default_timeout executor) None ]
  /\ match fst run with
     | Raise e => e = CancelledError
     | Return files =>
         Forall (fun f =>
                   exists name,
                     f = "/workspace/output/" +:+ name
                     /\ name <> ""
                     /\ ~ In "010"%char (list_ascii_of_string name)
                     /\ PyStr.lstrip name = name
                     /\ PyStr.rstrip name = name) files
         /\ (match fst asked with
             | Return result => success result = false -> files = []
             | Raise _ => files = []
             end)
     end.
Proof.
  intros run asked.
  unfold run, asked, ExecutorFiles.list_generated_files, try_except, bind, ret.
  simpl. unfold Spy.recording.
  destruct (Base.run_command _ _ _ _ (Spy.inner s)) as [[r|e] s1]; simpl.
  - destruct (success r) eqn:Hs; simpl.
    + split; [reflexivity|]. split; [|discriminate].
      apply List.Forall_forall. intros f Hf.
      apply in_map_iff in Hf as (name & <- & Hname).
      apply in_map_iff in Hname as (line & <- & Hline).
      apply filter_In in Hline as [Hline Hne].
      exists (PyStr.strip line). split; [reflexivity|]. split; [|split].
      * intros E. rewrite E in Hne. discriminate.
      * intros Hin. apply strip_chars in Hin.
        pose proof (split_no_separator "010" (PyStr.strip (stdout r))) as Hsp.
        rewrite List.Forall_forall in Hsp. now apply (Hsp line).
      * apply strip_fixed.
    + repeat split; auto.
  - destruct e; simpl; repeat split; auto.
Qed.

End GeneratedFiles.

(** ** The shell and Python tools *)

Section ExecutionTools.
Import Py Base.
Context {St : Type} `{BaseSandbox St}.

(** The timeout a tool hands to the sandbox: the override, unless it is
    absent or zero. *)
Lemma timeout_or_cases (timeout : option number) (default : number) :
  Execution.timeout_or timeout default
  = match timeout with
    | None => default
    | Some (Int n) => if n =? 0 then default else Int n
    | Some (Float q) => if Qnum q =? 0 then default else Float q
    end.
Proof.
  destruct timeout as [[n|q]|]; simpl; try reflexivity.
  - now destruct (n =? 0).
  - now destruct (Qnum q =? 0).
Qed.

(** [execute_shell] asks the sandbox once, with the command and working
    directory as given and with the timeout override, or the executor's
    default when the override is absent or zero.  It has no handler: what
    [run_command] raises, it raises.  Otherwise the status is [success]
    exactly when the exit code is 0, the exit code is passed on and both
    streams are truncated. *)
Theorem execute_shell_answer
    (executor : Executor.SandboxToolExecutor) (command working_dir : string)
    (timeout : option number) (s : Spy.spied St) :
  let effective :=
    match timeout with
    | None => Executor.default_timeout executor
    | Some (Int n) => if n =? 0 then Executor.default_timeout executor else Int n
    | Some (Float q) =>
        if Qnum q =? 0 then Executor.default_timeout executor else Float q
    end in
  let run :=
    @Execution.execute_shell _ Spy.sandbox executor command working_dir timeout s in
  Spy.seen (snd run)
  = Spy.seen s ++ [Spy.RunCommand command working_dir effective None]
  /\ match fst (Base.run_command command working_dir effective None (Spy.inner s)) with
     | Raise e => fst run = Raise e
     | Return result =>
         fst run
         = Return [ ("status",
                     Execution.RStr (if exit_code result =? 0
                                     then "success" else "error"));
                    ("stdout",
                     Execution.RStr (Common.truncate_output (stdout result)
                                       (Executor.max_output_chars executor)));
                    ("stderr",
                     Execution.RStr (Common.truncate_output (stderr result)
                                       (Executor.max_output_chars executor)));
                    ("exit_code", Execution.RInt (exit_code result)) ]
     end.
Proof.
  intros effective run.
  unfold run, Execution.execute_shell, bind, ret.
  rewrite timeout_or_cases. fold effective.
  simpl. unfold Spy.recording.
  destruct (Base.run_command command working_dir effective None (Spy.inner s))
    as [[r|e] s1]; simpl; auto.
Qed.

(** The recording wrapper changes nothing in what the listing answers. *)
Lemma list_generated_files_recorded
    (executor : Executor.SandboxToolExecutor) (s : Spy.spied St) :
  fst (@ExecutorFiles.list_generated_files _ Spy.sandbox executor s)
  = fst (ExecutorFiles.list_generated_files executor (Spy.inner s)).
Proof.
  unfold ExecutorFiles.list_generated_files, try_except, bind, ret.
  simpl. unfold Spy.recording.
  destruct (Base.run_command _ _ _ _ (Spy.inner s)) as [[r|e] s1]; simpl.
  - now destruct (success r).
  - now destruct (is_Exception e).
Qed.

(** [execute_python] first writes the code to the script path.  If that
    raises an [Exception], nothing is run: the answer is the error dict
    with the error text in stderr and no generated files.  Otherwise the
    script is run with [cd /workspace && python3 /workspace/temp/_script.py]
    and, once that returned, the output directory is listed, on the sandbox
    as the script left it.  What the listing returns is reported as the
    generated files, and what it raises, which can only be a cancellation,
    is raised; the status is [success] exactly when the script's exit code
    is 0, whatever the listing gives. *)
Theorem execute_python_answer
    (executor : Executor.SandboxToolExecutor) (code : string)
    (timeout : option number) (s : Spy.spied St) :
  let script := "/workspace/temp/_script.py" in
  let command := "cd /workspace && python3 /workspace/temp/_script.py" in
  let effective := Execution.timeout_or timeout (Executor.default_timeout executor) in
  let listing :=
    Spy.RunCommand "ls -1 /workspace/output" "/workspace"
      (Executor.default_timeout executor) None in
  let run := @Execution.execute_python _ Spy.sandbox executor code timeout s in
  let written := Base.write_file script code (Spy.inner s) in
  match fst written with
  | Raise e =>
      Spy.seen (snd run) = Spy.seen s ++ [Spy.WriteFile script code]
      /\ fst run
         = (if is_Exception e
            then Return [ ("status", Execution.RStr "error");
                          ("stdout", Execution.RStr "");
                          ("stderr",
                           Execution.RStr (Common.truncate_output (exn_str e)
                                             (Executor.max_output_chars executor)));
                          ("generated_files", Execution.RList []) ]
            else Raise e)
  | Return _ =>
      let ran :=
        Base.run_command command "/workspace" effective None (snd written) in
      match fst ran with
      | Raise e =>
          fst run = Raise e
          /\ Spy.seen (snd run)
             = Spy.seen s ++ [ Spy.WriteFile script code;
                               Spy.RunCommand command "/workspace" effective None ]
      | Return result =>
          Spy.seen (snd run)
          = Spy.seen s ++ [ Spy.WriteFile script code;
                            Spy.RunCommand command "/workspace" effective None;
                            listing ]
          /\ fst run
             = match fst (ExecutorFiles.list_generated_files executor (snd ran)) with
               | Raise e => Raise e
               | Return files =>
                   Return
                     [ ("status",
                        Execution.RStr (if exit_code result =? 0
                                        then "success" else "error"));
                       ("stdout",
                        Execution.RStr
                          (Common.truncate_output (stdout result)
                             (Executor.max_output_chars executor)));
                       ("stderr",
                        Execution.RStr
                          (Common.truncate_output (stderr result)
                             (Executor.max_output_chars executor)));
                       ("generated_files", Execution.RList files) ]
               end
          /\ (forall e, fst run = Raise e -> e = CancelledError)
      end
  end.
Proof.
  intros script command effective listing run written.
  assert (Hrun : run
    = let (w, s1) := Spy.recording (Spy.WriteFile script code)
                       (Base.write_file script code) s in
      match w with
      | Return _ =>
          let (c, s2) :=
            Spy.recording (Spy.RunCommand command "/workspace" effective None)
              (Base.run_command command "/workspace" effective None) s1 in
          match c with
          | Return result =>
              let (l, s3) :=
                @ExecutorFiles.list_generated_files _ Spy.sandbox executor s2 in
              match l with
              | Return files =>
                  (Return [ ("status",
                             Execution.RStr (if success result
                                             then "success" else "error"));
                            ("stdout",
                             Execution.RStr (Executor.truncate executor
                                               (stdout result)));
                            ("stderr",
                             Execution.RStr (Executor.truncate executor
                                               (stderr result)));
                            ("generated_files", Execution.RList files) ], s3)
              | Raise e => (Raise e, s3)
              end
          | Raise e => (Raise e, s2)
          end
      | Raise e =>
          if is_Exception e
          then (Return [ ("status", Execution.RStr "error");
                         ("stdout", Execution.RStr "");
                         ("stderr",
                          Execution.RStr (Executor.truncate executor (exn_str e)));
                         ("generated_files", Execution.RList []) ], s1)
          else (Raise e, s1)
      end).
  { unfold run, Execution.execute_python, bind, ret, try_except. simpl.
    destruct (Spy.recording _ _ s) as [[[]|e] s1]; simpl; [reflexivity|].
    now destruct e. }
  rewrite Hrun. clear Hrun. unfold written, Spy.recording.
  destruct (Base.write_file script code (Spy.inner s)) as [[[]|e] s1]; simpl.
  - destruct (Base.run_command command "/workspace" effective None s1)
      as [[r|e] s2]; simpl.
    + pose proof (list_generated_files_trace executor
                    {| Spy.inner := s2;
                       Spy.seen := (Spy.seen s ++ [Spy.WriteFile script code])
                                     ++ [Spy.RunCommand command "/workspace"
                                           effective None] |}) as [Hseen Hres].
      pose proof (list_generated_files_recorded executor
                    {| Spy.inner := s2;
                       Spy.seen := (Spy.seen s ++ [Spy.WriteFile script code])
                                     ++ [Spy.RunCommand command "/workspace"
                                           effective None] |}) as Hsame.
      simpl in Hseen, Hres, Hsame. rewrite <- Hsame.
      destruct (@ExecutorFiles.list_generated_files _ Spy.sandbox executor _)
        as [[files|e] s3]; simpl in *;
        (split; [rewrite Hseen; now rewrite <- !app_assoc|]);
        (split; [reflexivity|]).
      * discriminate.
      * intros e0 E. apply Hres. now inversion E.
    + split; [reflexivity|]. now rewrite <- app_assoc.
  - destruct (is_Exception e); simpl; auto.
Qed.

End ExecutionTools.

(** ** The tools on a sandbox that was not started *)

Section UnstartedTools.
Import Py Base.
Context {St : Type} `{BaseSandbox St}.

(** The tools over any sandbox whose operations refuse with [e] at [s]. *)
Lemma tools_on_refusing_sandbox
    (executor : Executor.SandboxToolExecutor) (s : St) (e : exn)
    (p q content command working_dir code : string) (timeout : option number) :
  is_Exception e = true ->
  (forall c w t v, Base.run_command c w t v s = (Raise e, s)) ->
  (forall path text, Base.write_file path text s = (Raise e, s)) ->
  FileOps._validate_path p = Return q ->
  FileOps.write_file executor p content s
  = (Return [ ("status", VStr "error"); ("error", VStr (exn_str e)) ], s)
  /\ Execution.execute_shell executor command working_dir timeout s = (Raise e, s)
  /\ Execution.execute_python executor code timeout s
     = (Return [ ("status", Execution.RStr "error");
                 ("stdout", Execution.RStr "");
                 ("stderr",
                  Execution.RStr (Common.truncate_output (exn_str e)
                                    (Executor.max_output_chars executor)));
                 ("generated_files", Execution.RList []) ], s)
  /\ ExecutorFiles.list_generated_files executor s = (Return [], s).
Proof.
  intros He Hrun Hwrite Hv. repeat split.
  - unfold FileOps.write_file, try_except, bind, FileOps.lift. rewrite Hv.
    rewrite Hwrite. now rewrite He.
  - unfold Execution.execute_shell, bind. now rewrite Hrun.
  - unfold Execution.execute_python, bind, try_except. rewrite Hwrite.
    now rewrite He.
  - unfold ExecutorFiles.list_generated_files, try_except, bind. rewrite Hrun.
    now rewrite He.
Qed.

End UnstartedTools.

(** On a sandbox of either backend whose handle is unset, the tools do
    not behave alike.  [file_write] and the Python tool answer with an
    error that says [Sandbox not started], and the listing of generated
    files is empty; the shell tool raises the [RuntimeError] to its
    caller.  None of them changes the sandbox or reaches the engine. *)
Theorem tools_on_unstarted_sandbox
    {rt : Py.Runtime} {dw : DockerSandbox.World} {yw : DaytonaSandbox.World}
    (executor : Executor.SandboxToolExecutor)
    (p q content command working_dir code : string)
    (timeout : option Py.number) :
  FileOps._validate_path p = Py.Return q ->
  let refused : Py.dict :=
    [ ("status", Py.VStr "error"); ("error", Py.VStr "Sandbox not started") ] in
  let script_failed : Execution.result_dict :=
    [ ("status", Execution.RStr "error");
      ("stdout", Execution.RStr "");
      ("stderr",
       Execution.RStr (Common.truncate_output "Sandbox not started"
                         (Executor.max_output_chars executor)));
      ("generated_files", Execution.RList []) ] in
  (forall s : DockerSandbox.t,
     DockerSandbox._container s = None ->
     @FileOps.write_file _ DockerSandbox.sandbox executor p content s
     = (Py.Return refused, s)
     /\ @Execution.execute_shell _ DockerSandbox.sandbox executor command
          working_dir timeout s
        = (Py.Raise (Py.RuntimeError "Sandbox not started"), s)
     /\ @Execution.execute_python _ DockerSandbox.sandbox executor code timeout s
        = (Py.Return script_failed, s)
     /\ @ExecutorFiles.list_generated_files _ DockerSandbox.sandbox executor s
        = (Py.Return [], s))
  /\ (forall s : DaytonaSandbox.t,
        DaytonaSandbox._sandbox s = None ->
        @FileOps.write_file _ DaytonaSandbox.sandbox executor p content s
        = (Py.Return refused, s)
        /\ @Execution.execute_shell _ DaytonaSandbox.sandbox executor command
             working_dir timeout s
           = (Py.Raise (Py.RuntimeError "Sandbox not started"), s)
        /\ @Execution.execute_python _ DaytonaSandbox.sandbox executor code
             timeout s
           = (Py.Return script_failed, s)
        /\ @ExecutorFiles.list_generated_files _ DaytonaSandbox.sandbox executor s
           = (Py.Return [], s)).
Proof.
  intros Hv refused script_failed. split; intros s Hs.
  - apply (@tools_on_refusing_sandbox _ DockerSandbox.sandbox executor s
             (Py.RuntimeError "Sandbox not started") p q); auto.
    + intros c w t v. now apply (docker_not_started s c w t v "" "").
    + intros path text.
      now apply (docker_not_started s "" "" (Py.Int 0) None path text).
  - apply (@tools_on_refusing_sandbox _ DaytonaSandbox.sandbox executor s
             (Py.RuntimeError "Sandbox not started") p q); auto.
    + intros c w t v. now apply (daytona_not_started s c w t v "" "").
    + intros path text.
      now apply (daytona_not_started s "" "" (Py.Int 0) None path text).
Qed.

Lemma tools_on_unstarted_sandbox_witness :
  @Execution.execute_shell _
    (@DockerSandbox.sandbox Fixtures.sample_runtime Fixtures.docker_ok)
    Fixtures.executor "ls" "/workspace" None Fixtures.docker_fresh
  = (Py.Raise (Py.RuntimeError "Sandbox not started"), Fixtures.docker_fresh).
Proof.
  apply (proj1 (@tools_on_unstarted_sandbox Fixtures.sample_runtime
           Fixtures.docker_ok (Fixtures.daytona_exec (Py.Raise Py.TimeoutError))
           Fixtures.executor "/workspace/a.txt" "/workspace/a.txt" "x" "ls"
           "/workspace" "print(1)" None eq_refl)
           Fixtures.docker_fresh eq_refl).
Defined.

(** ** Escaping: what is written reads back as what was meant *)

Section Escaping.

Lemma replace_char_append c r a b :
  PyStr.replace_char c r (a +:+ b)
  = PyStr.replace_char c r a +:+ PyStr.replace_char c r b.
Proof.
  induction a as [|x a IH]; [reflexivity|].
  rewrite append_cons. cbn [PyStr.replace_char].
  destruct (Ascii.eqb x c); rewrite IH.
  - now rewrite append_assoc.
  - now rewrite append_cons.
Qed.

Lemma blank_newlines_append a b :
  Browser.blank_newlines (a +:+ b)
  = Browser.blank_newlines a +:+ Browser.blank_newlines b.
Proof.
  induction a as [|x a IH]; [reflexivity|].
  rewrite append_cons. cbn [Browser.blank_newlines].
  now rewrite IH, append_cons.
Qed.

(** What [_escape_css_selector] writes for one character. *)
Lemma escape_css_selector_cons c s :
  Browser._escape_css_selector (String c s)
  = (if Ascii.eqb c "092" then Browser.backslash +:+ Browser.backslash
     else if Ascii.eqb c "034" then Browser.backslash +:+ Shlex.dquote
     else if Ascii.eqb c "013" || Ascii.eqb c "010" then " "
     else String c EmptyString)
    +:+ Browser._escape_css_selector s.
Proof.
  unfold Browser._escape_css_selector.
  cbn [PyStr.replace_char].
  destruct (Ascii.eqb c "092") eqn:Eb.
  - apply Ascii.eqb_eq in Eb. subst c.
    rewrite replace_char_append, blank_newlines_append. reflexivity.
  - cbn [PyStr.replace_char].
    destruct (Ascii.eqb c "034") eqn:Eq.
    + apply Ascii.eqb_eq in Eq. subst c.
      rewrite blank_newlines_append. reflexivity.
    + cbn [Browser.blank_newlines].
      now destruct (Ascii.eqb c "013" || Ascii.eqb c "010").
Qed.

(** For a selector without U+0000, the escaped selector is a well-formed
    body of a Python literal in double quotes (no bare quote, no line
    break, no dangling backslash), and the literal denotes the selector
    with its line breaks turned into spaces. *)
Theorem escape_css_selector_reads_back (selector : string) :
  Readers.no_nul selector = true ->
  Readers.python_literal (Browser._escape_css_selector selector)
  = Some (Browser.blank_newlines selector).
Proof.
  induction selector as [|c s IH]; [reflexivity|].
  cbn [Readers.no_nul]. intros Hnul.
  apply andb_prop in Hnul as [Hc Hs]. apply negb_true_iff in Hc.
  specialize (IH Hs).
  rewrite escape_css_selector_cons.
  cbn [Browser.blank_newlines].
  destruct (Ascii.eqb c "092") eqn:Eb.
  - apply Ascii.eqb_eq in Eb. subst c.
    change (Browser.backslash +:+ Browser.backslash)
      with (String "092" (String "092" "")).
    rewrite !append_cons, append_nil_l. cbn [Readers.python_literal].
    cbn [Ascii.eqb Bool.eqb orb]. now rewrite IH.
  - destruct (Ascii.eqb c "034") eqn:Eq.
    + apply Ascii.eqb_eq in Eq. subst c.
      change (Browser.backslash +:+ Shlex.dquote)
        with (String "092" (String "034" "")).
      rewrite !append_cons, append_nil_l. cbn [Readers.python_literal].
      cbn [Ascii.eqb Bool.eqb orb]. now rewrite IH.
    + destruct (Ascii.eqb c "013") eqn:Er; cbn [orb].
      * rewrite append_cons, append_nil_l. cbn [Readers.python_literal].
        cbn [Ascii.eqb Bool.eqb orb]. now rewrite IH.
      * destruct (Ascii.eqb c "010") eqn:En.
        -- rewrite append_cons, append_nil_l. cbn [Readers.python_literal].
           cbn [Ascii.eqb Bool.eqb orb]. now rewrite IH.
        -- rewrite append_cons, append_nil_l. cbn [Readers.python_literal].
           rewrite Eb, Eq, En, Er, Hc. cbn [orb]. now rewrite IH.
Qed.

End Escaping.

Section ShellQuoting.








End ShellQuoting.

(** * Further properties of the backends *)

(** Case analysis on the scrutinee of an innermost [match] of the goal. *)
Ltac case_scrutinee :=
  match goal with
  | |- context [match ?x with _ => _ end] =>
      lazymatch x with
      | context [match _ with _ => _ end] => fail
      | _ => destruct x eqn:?
      end
  end.

(** ** DockerSandbox.start *)

Section DockerStart.
Import Py Base DockerSandbox.
Context `{Runtime} `{World}.

(** Runs [start] from [s] through every answer the engine can give. *)
Ltac through_start s :=
  unfold start, try_except, bind, get, modify, ret, raise, perform;
  cbn -[run_command String.append Shlex.quote int add_int PyStr.str_int];
  repeat (first
    [ match goal with
      | |- context [run_command ?c ?w ?t ?v ?st] =>
          rewrite (docker_run_command_started st (container (_container_name s))
                     c w t v eq_refl)
      end
    | case_scrutinee ];
    cbn -[run_command String.append Shlex.quote int add_int PyStr.str_int];
    try (let E := fresh "E" in intros E; discriminate E)).

Lemma wrapped_with_default_timeout (x : string) :
  "timeout " +:+ PyStr.str_int 120 +:+ " /bin/bash -c " +:+ x
  = "timeout 120 /bin/bash -c " +:+ x.
Proof. reflexivity. Qed.

(** The trace of a [start] that returns, with the container parameters
    as the embedding computes them. *)
Lemma docker_start_trace (s s' : t) :
  start s = (Return tt, s') ->
  _client s' = Some docker_client
  /\ _container s' = Some (container (_container_name s))
  /\ calls s'
     = calls s ++ [FromEnv; ImagesGet (_image s)]
         ++ match engine (calls s ++ [FromEnv]) (ImagesGet (_image s)) with
            | Raise (ImageNotFound _) => [ImagesPull (_image s)]
            | _ => []
            end
         ++ [ ContainersCreate
                {| cc_image := _image s;
                   cc_name := _container_name s;
                   cc_detach := true;
                   cc_tty := true;
                   cc_stdin_open := true;
                   cc_working_dir := _work_dir s;
                   cc_mem_limit := _memory_limit s;
                   cc_nano_cpus :=
                     int (Float (float_mul (_cpu_limit s) (inject_Z (10 ^ 9))));
                   cc_network_mode :=
                     if _network_enabled s then "bridge" else "none";
                   cc_command := "/bin/bash";
                   cc_auto_remove := _auto_remove s;
                   cc_environment := _environment s;
                   cc_volumes := if decide (_volumes s = ∅) then None
                                 else Some (_volumes s) |};
              ContainerStart;
              ExecRun ("timeout 120 /bin/bash -c "
                         +:+ Shlex.quote WORKSPACE_INIT_COMMAND)
                      "/workspace" None (Int 125) ].
Proof.
  through_start s.
  all: intros E; inversion E; subst; clear E.
  all: split; [reflexivity|]; split; [reflexivity|].
  all: cbn -[run_command String.append Shlex.quote int add_int PyStr.str_int].
  all: rewrite wrapped_with_default_timeout; change (120 + 5) with 125.
  all: repeat rewrite <- app_assoc; reflexivity.
Qed.

(** When [start] returns, the client and the container handle are set,
    and the engine was asked, in this order: for a client, for the image
    (which is pulled exactly when the engine said it was not found), to
    create the container from the object's parameters, to start it, and
    to run the command that creates the workspace directories.  The CPU
    figure of the container is left open here. *)
Theorem docker_start_success (s s' : t) :
  start s = (Return tt, s') ->
  let config nano_cpus :=
    {| cc_image := _image s;
       cc_name := _container_name s;
       cc_detach := true;
       cc_tty := true;
       cc_stdin_open := true;
       cc_working_dir := _work_dir s;
       cc_mem_limit := _memory_limit s;
       cc_nano_cpus := nano_cpus;
       cc_network_mode := if _network_enabled s then "bridge" else "none";
       cc_command := "/bin/bash";
       cc_auto_remove := _auto_remove s;
       cc_environment := _environment s;
       cc_volumes := if decide (_volumes s = ∅) then None else Some (_volumes s) |} in
  let pulled :=
    match engine (calls s ++ [FromEnv]) (ImagesGet (_image s)) with
    | Raise (ImageNotFound _) => [ImagesPull (_image s)]
    | _ => []
    end in
  _client s' = Some docker_client
  /\ _container s' = Some (container (_container_name s))
  /\ exists nano_cpus,
       calls s'
       = calls s ++ [FromEnv; ImagesGet (_image s)] ++ pulled
           ++ [ ContainersCreate (config nano_cpus);
                ContainerStart;
                ExecRun ("timeout 120 /bin/bash -c "
                           +:+ Shlex.quote WORKSPACE_INIT_COMMAND)
                        "/workspace" None (Int 125) ].
Proof.
  intros Hstart config pulled.
  destruct (docker_start_trace s s' Hstart) as (Hclient & Hcontainer & Hcalls).
  split; [exact Hclient|]. split; [exact Hcontainer|].
  exists (int (Float (float_mul (_cpu_limit s) (inject_Z (10 ^ 9))))).
  exact Hcalls.
Qed.


(** A [start] that fails with an [Exception] leaves no client behind:
    provided closing the client does not itself fail, the client handle
    is unset afterwards. *)
Theorem docker_failed_start_releases_client (s s' : t) (e : exn) :
  (forall l, engine l ClientClose = Return tt) ->
  start s = (Raise e, s') -> is_Exception e = true ->
  _client s' = None.
Proof.
  intros Hclose.
  unfold start, try_except, bind, get, modify, ret, raise, perform.
  cbn -[run_command String.append Shlex.quote int add_int PyStr.str_int].
  repeat (first
    [ rewrite Hclose
    | match goal with
      | |- context [run_command ?c ?w ?t ?v ?st] =>
          rewrite (docker_run_command_started st (container (_container_name s))
                     c w t v eq_refl)
      end
    | case_scrutinee ];
    cbn -[run_command String.append Shlex.quote int add_int PyStr.str_int];
    try (let E := fresh "E" in intros E; discriminate E)).
  all: intros E He; inversion E; subst; clear E;
    first [reflexivity | discriminate He | congruence | (simpl; assumption)].
Qed.

(** [async with sandbox:] when [start] raises: the block does not run and
    [cleanup] is not called, so what [start] raised is raised and the
    object is left as [start] left it.  [start] itself never asks for a
    container to be removed: a container it had created by then stays. *)
Theorem docker_failed_start_is_not_cleaned_up {A : Type} (body : M t A)
    (s s' : t) (e : exn) :
  start s = (Raise e, s') ->
  ContextManager.async_with body s = (Raise e, s')
  /\ exists added,
       calls s' = calls s ++ added
       /\ forall force, ~ In (ContainerRemove force) added.
Proof.
  intros Hstart. split.
  - unfold ContextManager.async_with, ContextManager.__aenter__, bind.
    simpl. now rewrite Hstart.
  - revert Hstart. through_start s.
    all: intros E; inversion E; subst; clear E.
    all: cbn -[run_command String.append Shlex.quote int add_int PyStr.str_int].
    all: repeat rewrite <- app_assoc.
    all: eexists; split; [reflexivity|].
    all: intros force Hin.
    all: repeat (destruct Hin as [Hin|Hin]; [discriminate Hin|]).
    all: exact Hin.
Qed.

End DockerStart.

Lemma docker_start_success_witness :
  let s' := snd (@DockerSandbox.start Fixtures.sample_runtime Fixtures.docker_ok
                   Fixtures.docker_fresh) in
  DockerSandbox._client s' = Some DockerSandbox.docker_client
  /\ DockerSandbox._container s'
     = Some (DockerSandbox.container "sandbox_0a1b2c3d").
Proof.
  intros s'.
  pose proof (@docker_start_success Fixtures.sample_runtime Fixtures.docker_ok
                Fixtures.docker_fresh s' ltac:(vm_compute; reflexivity))
    as (Hclient & Hcontainer & _).
  split; assumption.
Defined.


Lemma docker_failed_start_releases_client_witness :
  DockerSandbox._client
    (snd (@DockerSandbox.start Fixtures.sample_runtime Fixtures.docker_no_start
            Fixtures.docker_fresh))
  = None.
Proof.
  apply (@docker_failed_start_releases_client Fixtures.sample_runtime
           Fixtures.docker_no_start Fixtures.docker_fresh _
           (Py.OtherException "OCI runtime create failed")).
  - intros l. reflexivity.
  - vm_compute. reflexivity.
  - reflexivity.
Defined.

Section DaytonaStart.
Import Py Base DaytonaSandbox.
Context `{Runtime} `{World}.

(** When [start] returns, the client and the handle are set, and the API
    was asked, in this order: for a client, unless the object had one; to
    create a sandbox from the object's parameters; and to run the command
    that creates the workspace directories, handed over as it is, under
    the default timeout.  The handle is the sandbox the API created. *)
Theorem daytona_start_success (s s' : t) :
  start s = (Return tt, s') ->
  let params :=
    {| cp_image := _image s;
       cp_cpu := _cpu s;
       cp_memory := _memory s;
       cp_disk := _disk s;
       cp_auto_stop_interval := _auto_stop_interval s |} in
  let connect :=
    match _client s with
    | Some _ => []
    | None => [NewClient (_api_key s)]
    end in
  _client s' = Some daytona_client
  /\ (exists id,
        api (calls s ++ connect) (Create params) = Return id
        /\ _sandbox s' = Some (sandbox_obj id))
  /\ calls s'
     = calls s ++ connect
         ++ [ Create params;
              ProcessExec WORKSPACE_INIT_COMMAND "/workspace" None 120 (Int 120) ].
Proof.
  unfold start, _get_client, try_except, bind, get, modify, ret, raise, perform.
  destruct (_client s) as [[]|] eqn:Hcl;
    cbn -[run_command WORKSPACE_INIT_COMMAND].
  - rewrite app_nil_r.
    destruct (api (calls s) (Create _)) as [id|e] eqn:Hcreate;
      cbn -[run_command WORKSPACE_INIT_COMMAND].
    + match goal with
      | |- context [run_command ?c ?w ?t ?v ?st] =>
          rewrite (daytona_run_command_started st (sandbox_obj id) c w t v eq_refl)
      end.
      cbn -[WORKSPACE_INIT_COMMAND].
      destruct (api _ (ProcessExec _ _ _ _ _)) as [r|e];
        [|destruct e]; cbn -[WORKSPACE_INIT_COMMAND];
        intros E; inversion E; subst; clear E;
        cbn -[WORKSPACE_INIT_COMMAND];
        (split; [assumption|]); (split; [now exists id|]);
        now rewrite <- app_assoc.
    + now destruct (is_Exception e).
  - destruct (api (calls s) (NewClient _)) as [[]|e] eqn:Hnew;
      cbn -[run_command WORKSPACE_INIT_COMMAND].
    + destruct (api (calls s ++ [NewClient _]) (Create _)) as [id|e] eqn:Hcreate;
        cbn -[run_command WORKSPACE_INIT_COMMAND].
      * match goal with
      | |- context [run_command ?c ?w ?t ?v ?st] =>
          rewrite (daytona_run_command_started st (sandbox_obj id) c w t v eq_refl)
      end.
        cbn -[WORKSPACE_INIT_COMMAND].
        destruct (api _ (ProcessExec _ _ _ _ _)) as [r|e];
          [|destruct e]; cbn -[WORKSPACE_INIT_COMMAND];
          intros E; inversion E; subst; clear E;
          cbn -[WORKSPACE_INIT_COMMAND];
          (split; [reflexivity|]); (split; [now exists id|]);
          now repeat rewrite <- app_assoc.
      * now destruct (is_Exception e).
    + destruct e; cbn; try discriminate.
Qed.

(** [start] does not look at what the workspace command gave either:
    once the API has given a client and created the sandbox, [start]
    returns unless it is cancelled. *)
Theorem daytona_start_ignores_workspace_failure (s : t) :
  (forall l key, api l (NewClient key) = Return tt) ->
  (forall l params, exists id, api l (Create params) = Return id) ->
  (forall l command cwd env timeout wait_for,
     api l (ProcessExec command cwd env timeout wait_for) <> Raise CancelledError) ->
  fst (start s) = Return tt.
Proof.
  intros Hnew Hcreate Hexec.
  unfold start, _get_client, try_except, bind, get, modify, ret, raise, perform.
  destruct (_client s) as [[]|] eqn:Hcl;
    cbn -[run_command WORKSPACE_INIT_COMMAND];
    [|rewrite Hnew; cbn -[run_command WORKSPACE_INIT_COMMAND]];
    match goal with
    | |- context [api ?l (Create ?p)] =>
        destruct (Hcreate l p) as [id ->]
    end;
    cbn -[run_command WORKSPACE_INIT_COMMAND];
    match goal with
      | |- context [run_command ?c ?w ?t ?v ?st] =>
          rewrite (daytona_run_command_started st (sandbox_obj id) c w t v eq_refl)
      end;
    cbn -[WORKSPACE_INIT_COMMAND];
    match goal with
    | |- context [api ?l (ProcessExec ?a ?b ?c ?d ?e)] =>
        pose proof (Hexec l a b c d e) as Hx;
        destruct (api l (ProcessExec a b c d e)) as [r|x]
    end;
    try reflexivity; destruct x; try reflexivity; congruence.
Qed.

End DaytonaStart.

(** ** Cleanup, whatever the removal answers *)

Section DockerCleanup.
Import Py Base DockerSandbox.
Context `{Runtime} `{World}.

(** [cleanup] on a sandbox that has its container and its client, on an
    engine that lets the client be closed: the container is asked to be
    removed by force and the client is closed and forgotten, whatever the
    removal answered.  A container that is already gone counts as removed.
    Any other failure of the removal is raised to the caller, and the
    container handle is kept. *)
Theorem docker_cleanup_outcome (s : t) (c0 : Container) (cl : DockerClient) :
  _container s = Some c0 ->
  _client s = Some cl ->
  engine (calls s ++ [ContainerRemove true]) ClientClose = Return tt ->
  let after := snd (cleanup s) in
  calls after = calls s ++ [ContainerRemove true; ClientClose]
  /\ _client after = None
  /\ match engine (calls s) (ContainerRemove true) with
     | Return _ => fst (cleanup s) = Return tt /\ _container after = None
     | Raise e =>
         if is_NotFound e
         then fst (cleanup s) = Return tt /\ _container after = None
         else fst (cleanup s) = Raise e /\ _container after = Some c0
     end.
Proof.
  intros Hc Hcl Hclose after. unfold after, cleanup, bind, get.
  rewrite Hc.
  unfold try_finally, try_except, bind, get, modify, ret, raise, perform.
  destruct (engine (calls s) (ContainerRemove true)) as [[]|e]; simpl.
  - rewrite Hcl. simpl. rewrite Hclose. simpl.
    rewrite <- app_assoc. auto.
  - destruct (is_NotFound e) eqn:Hnf; simpl.
    + rewrite Hcl. simpl. rewrite Hclose. simpl. rewrite <- app_assoc. auto.
    + destruct (is_Exception e); simpl; rewrite Hcl; simpl; rewrite Hclose;
        simpl; rewrite <- app_assoc; auto.
Qed.

End DockerCleanup.

Section DaytonaCleanup.
Import Py Base DaytonaSandbox.
Context `{Runtime} `{World}.

(** [cleanup] on a sandbox that has its handle asks once for the
    deletion and forgets the client, whatever the answer.  When the
    deletion fails the error is raised to the caller and the handle is
    kept, so the operations still reach the remote sandbox. *)
Theorem daytona_cleanup_outcome (s : t) (sb : Sandbox) :
  _sandbox s = Some sb ->
  let after := snd (cleanup s) in
  calls after = calls s ++ [Delete]
  /\ _client after = None
  /\ match api (calls s) Delete with
     | Return _ => fst (cleanup s) = Return tt /\ _sandbox after = None
     | Raise e => fst (cleanup s) = Raise e /\ _sandbox after = Some sb
     end.
Proof.
  intros Hs after. unfold after, cleanup, bind, get. rewrite Hs.
  unfold try_finally, try_except, bind, get, modify, ret, raise, perform.
  destruct (api (calls s) Delete) as [[]|e]; simpl; [auto|].
  destruct (is_Exception e); simpl; auto.
Qed.

End DaytonaCleanup.

(** ** Where [write_file] puts a file *)

Section PathSplitting.
Import PosixPath.

Lemma split_snoc d n :
  no_slash n = true ->
  PyStr.split "/" (d +:+ "/" +:+ n) = PyStr.split "/" d ++ [n].
Proof.
  intros Hn. induction d as [|x d IH].
  - rewrite append_nil_l. change ("/" +:+ n) with (String "/" n). simpl.
    now rewrite split_no_sep.
  - rewrite append_cons. simpl. destruct (Ascii.eqb x "/").
    + now rewrite IH.
    + rewrite IH. pose proof (split_nonempty "/" d) as Hne.
      destruct (PyStr.split "/" d) as [|w ws]; [congruence|reflexivity].
Qed.

Lemma join_split s : PyStr.join "/" (PyStr.split "/" s) = s.
Proof.
  induction s as [|x s IH]; [reflexivity|]. simpl.
  pose proof (split_nonempty "/" s) as Hne.
  destruct (Ascii.eqb x "/") eqn:Ex.
  - apply Ascii.eqb_eq in Ex. subst x.
    destruct (PyStr.split "/" s) as [|w ws]; [congruence|].
    rewrite join_cons2, IH. reflexivity.
  - destruct (PyStr.split "/" s) as [|w ws]; [congruence|].
    destruct ws as [|w' ws].
    + simpl in *. now rewrite IH.
    + rewrite join_cons2 in *. rewrite append_cons. now rewrite IH.
Qed.

(** The name after the last slash and what precedes that slash; a path
    without a slash is all name. *)
Lemma name_and_directory (path d n : string) :
  no_slash n = true ->
  path = d +:+ "/" +:+ n \/ (d = "" /\ path = n) ->
  List.last (PyStr.split "/" path) "" = n
  /\ PyStr.join "/" (List.removelast (PyStr.split "/" path)) = d.
Proof.
  intros Hn [->|[-> ->]].
  - rewrite split_snoc by assumption.
    rewrite last_last, removelast_last. split; [reflexivity|apply join_split].
  - now rewrite split_no_sep.
Qed.

End PathSplitting.

Section DockerWriteFile.
Import Py Base DockerSandbox.
Context `{Runtime} `{World}.



End DockerWriteFile.

Section DaytonaWriteFile.
Import Py Base DaytonaSandbox.
Context `{Runtime} `{World}.

(** [write_file] on a sandbox that has its handle.  The file is uploaded
    under the path as given.  The directory before the last slash is made
    first, unless nothing precedes the last slash or the path has no
    slash; what [mkdir] answered is not looked at.  The outcome is that of
    the upload. *)
Theorem daytona_write_file_upload (s : t) (sb : Sandbox)
    (path d n content : string) :
  _sandbox s = Some sb ->
  PosixPath.no_slash n = true ->
  path = d +:+ "/" +:+ n \/ (d = "" /\ path = n) ->
  let mkdir :=
    ProcessExec ("mkdir -p " +:+ Shlex.quote d) "/workspace" None 120 (Int 120) in
  let upload := UploadFile content path in
  let prepared := if PyStr.truthy d then record_call mkdir s else s in
  (PyStr.truthy d = true -> api (calls s) mkdir <> Raise CancelledError) ->
  write_file path content s
  = (match api (calls prepared) upload with
     | Return _ => Return tt
     | Raise e => Raise e
     end,
     record_call upload prepared).
Proof.
  intros Hs Hn Hpath mkdir upload prepared Hmk.
  destruct (name_and_directory path d n Hn Hpath) as [_ Hjoin].
  unfold write_file, bind, get. rewrite Hs.
  unfold try_except, bind. rewrite Hjoin.
  subst prepared upload.
  destruct (PyStr.truthy d) eqn:Hd.
  - specialize (Hmk eq_refl).
    rewrite (daytona_run_command_started s sb _ _ _ _ Hs).
    cbn -[String.append Shlex.quote]. fold mkdir.
    destruct (api (calls s) mkdir) as [r|e]; [|destruct e; try congruence];
      (cbn -[String.append Shlex.quote]; unfold perform;
       destruct (api (calls s ++ [mkdir]) (UploadFile content path))
         as [[]|e'];
       [reflexivity|];
       cbn -[String.append Shlex.quote]; now destruct (is_Exception e')).
  - unfold ret at 1. unfold perform.
    destruct (api (calls s) (UploadFile content path)) as [[]|e'];
      [reflexivity|].
    cbn -[String.append Shlex.quote]. now destruct (is_Exception e').
Qed.

End DaytonaWriteFile.

(** ** Reading a file that is not there *)

(** The [file_read] tool on a started sandbox of either backend, for a
    path that passes validation and a file the backend does not find: the
    backend is asked for the normalized path, while the answer names the
    path as the caller wrote it.  The Docker backend takes any [NotFound]
    of the engine for a missing file; the Daytona backend takes any
    [Exception] whose text holds [not found], in whatever letter case. *)
Theorem missing_file_names_callers_path
    {rt : Py.Runtime} {dw : DockerSandbox.World} {yw : DaytonaSandbox.World}
    (executor : Executor.SandboxToolExecutor) (p q : string) :
  FileOps._validate_path p = Py.Return q ->
  let answer : Py.dict :=
    [ ("status", Py.VStr "error");
      ("error", Py.VStr ("File not found: " +:+ p)) ] in
  (forall (s : DockerSandbox.t) c0 e,
     DockerSandbox._container s = Some c0 ->
     DockerSandbox.engine (DockerSandbox.calls s) (DockerSandbox.GetArchive q)
     = Py.Raise e ->
     Py.is_NotFound e = true ->
     @FileOps.read_file _ DockerSandbox.sandbox executor p s
     = (Py.Return answer,
        DockerSandbox.record_call (DockerSandbox.GetArchive q) s))
  /\ (forall (s : DaytonaSandbox.t) sb e,
        DaytonaSandbox._sandbox s = Some sb ->
        DaytonaSandbox.api (DaytonaSandbox.calls s)
          (DaytonaSandbox.DownloadFile q)
        = Py.Raise e ->
        Py.is_Exception e = true ->
        PyStr.contains "not found" (PyStr.lower (Py.exn_str e)) = true ->
        @FileOps.read_file _ DaytonaSandbox.sandbox executor p s
        = (Py.Return answer,
           DaytonaSandbox.record_call (DaytonaSandbox.DownloadFile q) s)).
Proof.
  intros Hv answer. split.
  - intros s c0 e Hc He Hnf.
    unfold FileOps.read_file, Py.try_except, Py.bind, FileOps.lift.
    rewrite Hv. simpl.
    unfold DockerSandbox.read_file, Py.bind, Py.get. rewrite Hc.
    unfold Py.try_except, Py.bind, DockerSandbox.perform. rewrite He.
    rewrite Hnf. reflexivity.
  - intros s sb e Hs He Hex Hnf.
    unfold FileOps.read_file, Py.try_except, Py.bind, FileOps.lift.
    rewrite Hv. simpl.
    unfold DaytonaSandbox.read_file, Py.bind, Py.get. rewrite Hs.
    unfold Py.try_except, DaytonaSandbox.perform. rewrite He.
    rewrite Hex, Hnf. reflexivity.
Qed.

(** ** The commands the backends build *)

Section QuotedCommands.
Import Py Base.
Context {rt : Runtime} {dw : DockerSandbox.World} {yw : DaytonaSandbox.World}.




End QuotedCommands.

(** ** The Python tool on the container backend *)

Section PythonOnDocker.
Import Py Base DockerSandbox.
Context `{Runtime} `{World}.







End PythonOnDocker.

(** ** From the configuration to the container *)

Section CreatedSandbox.
Import Py Base.
Context `{Runtime} `{DockerSandbox.World}.

(** A Docker configuration gives a Docker sandbox that has no handle and
    has asked the engine for nothing.  When its [start] returns, the
    container was created under the name [sandbox_] followed by the random
    part, from the configured image, limits and working directory, with
    the environment [_build_environment] makes and with every configured
    volume bound read-write at its container path; the [volumes] argument
    is left out when the configuration has none.  The CPU figure is left
    open here. *)
Theorem created_docker_sandbox_container
    (environ : gmap string string) (uuid8 : string)
    (config : Factory.DockerSandboxConfig) :
  match Factory.create_sandbox environ uuid8 (Factory.Docker config) with
  | inr _ => False
  | inl sandbox =>
      DockerSandbox._client sandbox = None
      /\ DockerSandbox._container sandbox = None
      /\ DockerSandbox.calls sandbox = []
      /\ forall started,
           DockerSandbox.start sandbox = (Return tt, started) ->
           exists nano_cpus,
           In (DockerSandbox.ContainersCreate
                 {| DockerSandbox.cc_image := Factory.image config;
                    DockerSandbox.cc_name := "sandbox_" +:+ uuid8;
                    DockerSandbox.cc_detach := true;
                    DockerSandbox.cc_tty := true;
                    DockerSandbox.cc_stdin_open := true;
                    DockerSandbox.cc_working_dir := Factory.work_dir config;
                    DockerSandbox.cc_mem_limit := Factory.memory_limit config;
                    DockerSandbox.cc_nano_cpus := nano_cpus;
                    DockerSandbox.cc_network_mode :=
                      if Factory.network_enabled config then "bridge" else "none";
                    DockerSandbox.cc_command := "/bin/bash";
                    DockerSandbox.cc_auto_remove := Factory.auto_remove config;
                    DockerSandbox.cc_environment :=
                      Factory._build_environment environ config;
                    DockerSandbox.cc_volumes :=
                      match Factory.volumes config with
                      | None => None
                      | Some v =>
                          if decide (v = ∅) then None
                          else Some ((fun container_path : string =>
                                        {[ "bind" := container_path;
                                           "mode" := "rw" ]}) <$> v)
                      end |})
              (DockerSandbox.calls started)
  end.
Proof.
  unfold Factory.create_sandbox.
  split; [reflexivity|]. split; [reflexivity|]. split; [reflexivity|].
  intros started Hstart.
  destruct (docker_start_trace _ _ Hstart) as (_ & _ & Hcalls).
  eexists. rewrite Hcalls. clear Hcalls Hstart.
  apply in_or_app. right. apply in_or_app. right. apply in_or_app. right.
  left. f_equal.
  unfold DockerSandbox.init.
  cbn [DockerSandbox._image DockerSandbox._container_name
       DockerSandbox._work_dir DockerSandbox._memory_limit
       DockerSandbox._cpu_limit DockerSandbox._network_enabled
       DockerSandbox._auto_remove DockerSandbox._environment
       DockerSandbox._volumes default].
  f_equal.
  destruct (Factory.volumes config) as [v|]; [|reflexivity].
  destruct (decide (v = ∅)) as [Hv|Hv]; [reflexivity|].
  cbn [default].
  match goal with
  | |- context [decide (?m = ∅)] => destruct (decide (m = ∅)) as [He|He]
  end; [|reflexivity].
  apply fmap_empty_inv in He. contradiction.
Qed.

End CreatedSandbox.

(** ** The further properties at concrete inputs *)

Lemma docker_failed_start_is_not_cleaned_up_witness :
  fst (@ContextManager.async_with _
         (@DockerSandbox.sandbox Fixtures.sample_runtime Fixtures.docker_no_start)
         _ (Py.ret tt) Fixtures.docker_fresh)
  = Py.Raise (Py.OtherException "OCI runtime create failed").
Proof.
  pose proof (@docker_failed_start_is_not_cleaned_up Fixtures.sample_runtime
                Fixtures.docker_no_start unit (Py.ret tt) Fixtures.docker_fresh
                (snd (@DockerSandbox.start Fixtures.sample_runtime
                        Fixtures.docker_no_start Fixtures.docker_fresh))
                (Py.OtherException "OCI runtime create failed")
                ltac:(vm_compute; reflexivity)) as [Hrun _].
  now rewrite Hrun.
Defined.

Lemma daytona_start_success_witness :
  DaytonaSandbox._client
    (snd (@DaytonaSandbox.start Fixtures.sample_runtime
            (Fixtures.daytona_exec (Py.Raise Py.TimeoutError))
            Fixtures.daytona_fresh))
  = Some DaytonaSandbox.daytona_client.
Proof.
  exact (proj1 (@daytona_start_success Fixtures.sample_runtime
                  (Fixtures.daytona_exec (Py.Raise Py.TimeoutError))
                  Fixtures.daytona_fresh _ ltac:(vm_compute; reflexivity))).
Defined.

Lemma daytona_start_ignores_workspace_failure_witness :
  fst (@DaytonaSandbox.start Fixtures.sample_runtime Fixtures.daytona_gone
         Fixtures.daytona_fresh)
  = Py.Return tt.
Proof.
  apply (@daytona_start_ignores_workspace_failure Fixtures.sample_runtime
           Fixtures.daytona_gone Fixtures.daytona_fresh).
  - intros l key. reflexivity.
  - intros l params. exists "ws-1". reflexivity.
  - intros l command cwd env timeout wait_for. discriminate.
Defined.

Lemma docker_cleanup_outcome_witness :
  fst (@DockerSandbox.cleanup Fixtures.docker_remove_fails Fixtures.docker_started)
  = Py.Raise (Py.OtherException "removal of container is already in progress")
  /\ DockerSandbox._client
       (snd (@DockerSandbox.cleanup Fixtures.docker_remove_fails
               Fixtures.docker_started))
     = None
  /\ DockerSandbox._container
       (snd (@DockerSandbox.cleanup Fixtures.docker_remove_fails
               Fixtures.docker_started))
     = Some (DockerSandbox.container "sandbox_0a1b2c3d").
Proof.
  pose proof (@docker_cleanup_outcome Fixtures.docker_remove_fails
                Fixtures.docker_started
                (DockerSandbox.container "sandbox_0a1b2c3d")
                DockerSandbox.docker_client eq_refl eq_refl eq_refl)
    as (_ & Hclient & Hrest).
  simpl in Hrest. destruct Hrest as [Hraised Hkept].
  repeat split; assumption.
Defined.

Lemma daytona_cleanup_outcome_witness :
  fst (@DaytonaSandbox.cleanup Fixtures.daytona_gone Fixtures.daytona_started)
  = Py.Raise (Py.OtherException "sandbox is busy")
  /\ DaytonaSandbox._client
       (snd (@DaytonaSandbox.cleanup Fixtures.daytona_gone
               Fixtures.daytona_started))
     = None
  /\ DaytonaSandbox._sandbox
       (snd (@DaytonaSandbox.cleanup Fixtures.daytona_gone
               Fixtures.daytona_started))
     = Some (DaytonaSandbox.sandbox_obj "ws-1").
Proof.
  pose proof (@daytona_cleanup_outcome Fixtures.daytona_gone
                Fixtures.daytona_started (DaytonaSandbox.sandbox_obj "ws-1")
                eq_refl)
    as (_ & Hclient & Hrest).
  simpl in Hrest. destruct Hrest as [Hraised Hkept].
  repeat split; assumption.
Defined.


Lemma daytona_write_file_upload_witness :
  fst (@DaytonaSandbox.write_file Fixtures.sample_runtime Fixtures.daytona_gone
         "/workspace/output/a.txt" "x" Fixtures.daytona_started)
  = Py.Return tt.
Proof.
  rewrite (@daytona_write_file_upload Fixtures.sample_runtime
             Fixtures.daytona_gone Fixtures.daytona_started
             (DaytonaSandbox.sandbox_obj "ws-1")
             "/workspace/output/a.txt" "/workspace/output" "a.txt" "x"
             eq_refl eq_refl (or_introl eq_refl)
             ltac:(intros _; discriminate)).
  reflexivity.
Defined.

Lemma missing_file_names_callers_path_witness :
  fst (@FileOps.read_file _
         (@DockerSandbox.sandbox Fixtures.sample_runtime Fixtures.docker_no_start)
         Fixtures.executor "/workspace/a/../b.txt" Fixtures.docker_started)
  = Py.Return [ ("status", Py.VStr "error");
                ("error", Py.VStr "File not found: /workspace/a/../b.txt") ]
  /\ fst (@FileOps.read_file _
            (@DaytonaSandbox.sandbox Fixtures.sample_runtime Fixtures.daytona_gone)
            Fixtures.executor "/workspace/a/../b.txt" Fixtures.daytona_started)
     = Py.Return [ ("status", Py.VStr "error");
                   ("error", Py.VStr "File not found: /workspace/a/../b.txt") ].
Proof.
  pose proof (@missing_file_names_callers_path Fixtures.sample_runtime
                Fixtures.docker_no_start Fixtures.daytona_gone Fixtures.executor
                "/workspace/a/../b.txt" "/workspace/b.txt"
                ltac:(vm_compute; reflexivity)) as [Hdocker Hdaytona].
  split.
  - rewrite (Hdocker Fixtures.docker_started
               (DockerSandbox.container "sandbox_0a1b2c3d")
               (Py.NotFound "no such file") eq_refl eq_refl eq_refl).
    reflexivity.
  - rewrite (Hdaytona Fixtures.daytona_started
               (DaytonaSandbox.sandbox_obj "ws-1")
               (Py.OtherException "404 File Not Found")
               eq_refl eq_refl eq_refl ltac:(vm_compute; reflexivity)).
    reflexivity.
Defined.


Lemma created_docker_sandbox_container_witness :
  match Factory.create_sandbox ∅ "0a1b2c3d" (Factory.Docker Fixtures.docker_config) with
  | inr _ => False
  | inl sandbox =>
      exists config,
        In (DockerSandbox.ContainersCreate config)
           (DockerSandbox.calls
              (snd (@DockerSandbox.start Fixtures.sample_runtime
                      Fixtures.docker_ok sandbox)))
        /\ DockerSandbox.cc_name config = "sandbox_0a1b2c3d"
        /\ DockerSandbox.cc_network_mode config = "none"
        /\ DockerSandbox.cc_volumes config
           = Some {[ "/srv/data" := {[ "bind" := "/workspace/input";
                                       "mode" := "rw" ]} ]}
  end.
Proof.
  pose proof (@created_docker_sandbox_container Fixtures.sample_runtime
                Fixtures.docker_ok ∅ "0a1b2c3d" Fixtures.docker_config) as Hm.
  unfold Factory.create_sandbox in *.
  destruct Hm as (_ & _ & _ & Hstart).
  destruct (Hstart _ ltac:(vm_compute; reflexivity)) as [nano_cpus Hin].
  eexists. split; [exact Hin|].
  split; [reflexivity|]. split; [reflexivity|].
  vm_compute. reflexivity.
Defined.


Lemma escape_css_selector_reads_back_witness :
  Readers.python_literal
    (Browser._escape_css_selector
       ("a[title=" +:+ Shlex.dquote +:+ "x" +:+ Browser.backslash +:+ "y"
          +:+ Shlex.dquote +:+ "]" +:+ String "010" "b"))
  = Some ("a[title=" +:+ Shlex.dquote +:+ "x" +:+ Browser.backslash +:+ "y"
            +:+ Shlex.dquote +:+ "] b").
Proof.
  exact (escape_css_selector_reads_back
           ("a[title=" +:+ Shlex.dquote +:+ "x" +:+ Browser.backslash +:+ "y"
              +:+ Shlex.dquote +:+ "]" +:+ String "010" "b") eq_refl).
Defined.
